(** * Laptop listings analysis: the cleaning pipeline of [laptop_analysis.py]

    A shallow embedding of [load_data], [clean_data] and the category
    derivation of [analyze_categories], together with the properties of the
    design specification that concern them; then of [rupee_formatter], of
    the selection of the rated records in [create_main_visualizations] and
    of [main], with further properties of the code.

    Conventions of the embedding.
    - A Python [str] is a list of Unicode code points.  Literals of the source
      are written as UTF-8 strings and decoded by [py].
    - Character classes follow CPython: [is_space] is [str.isspace] (the set
      used by [str.split()]), [is_float_space] is the set [float()] strips,
      [ci_char] is the literal comparison of [re] under [re.IGNORECASE].
      The decimal digits ([\d], [float()]) and [str.lower()] follow the
      tables of Unicode 14.0, the version of CPython 3.11.
    - A float is represented by the rational it denotes before rounding to
      binary64 ([Fin q]), or by [NaN], [PosInf], [NegInf].  [NaN] is the
      missing value of pandas.
    - Data frames live in a heap of objects; functions receive and return
      references, so that copying and in-place assignment are visible. *)

From Stdlib Require Import List Bool Arith NArith ZArith QArith Lia.
From Stdlib Require Import String Ascii.
Import ListNotations.

Set Implicit Arguments.
Local Open Scope N_scope.

(* ===================================================================== *)
(** ** Text *)
(* ===================================================================== *)

Module Text.

Definition codepoint := N.
Definition str := list codepoint.

(** UTF-8 decoding of a source literal. *)
Fixpoint utf8 (bs : list N) : str :=
  match bs with
  | [] => []
  | b0 :: r0 =>
    if b0 <? 0x80 then b0 :: utf8 r0
    else match r0 with
      | [] => [b0]
      | b1 :: r1 =>
        if b0 <? 0xE0 then
          (N.shiftl (N.land b0 0x1F) 6 + N.land b1 0x3F) :: utf8 r1
        else match r1 with
          | [] => [b0; b1]
          | b2 :: r2 =>
            if b0 <? 0xF0 then
              (N.shiftl (N.land b0 0x0F) 12 + N.shiftl (N.land b1 0x3F) 6
               + N.land b2 0x3F) :: utf8 r2
            else match r2 with
              | [] => [b0; b1; b2]
              | b3 :: r3 =>
                (N.shiftl (N.land b0 0x07) 18 + N.shiftl (N.land b1 0x3F) 12
                 + N.shiftl (N.land b2 0x3F) 6 + N.land b3 0x3F) :: utf8 r3
              end
          end
      end
  end.

Definition py (s : string) : str :=
  utf8 (List.map N_of_ascii (list_ascii_of_string s)).

Fixpoint str_eqb (a b : str) : bool :=
  match a, b with
  | [], [] => true
  | x :: a', y :: b' => (x =? y) && str_eqb a' b'
  | _, _ => false
  end.

(** *** Character classes *)

Definition in_range (lo hi c : codepoint) : bool := (lo <=? c) && (c <=? hi).

(** The decimal digits of Unicode 14.0, which are the class [\d] of [re] on
    a [str] and the digits that [float()] reads ([Py_UNICODE_ISDECIMAL]):
    runs of ten characters, each run given by its zero. *)
Definition digit_zeros : list codepoint :=
  [
    0x30; 0x660; 0x6F0; 0x7C0; 0x966; 0x9E6; 0xA66; 0xAE6; 0xB66; 0xBE6; 0xC66; 0xCE6;
    0xD66; 0xDE6; 0xE50; 0xED0; 0xF20; 0x1040; 0x1090; 0x17E0; 0x1810; 0x1946; 0x19D0;
    0x1A80; 0x1A90; 0x1B50; 0x1BB0; 0x1C40; 0x1C50; 0xA620; 0xA8D0; 0xA900; 0xA9D0;
    0xA9F0; 0xAA50; 0xABF0; 0xFF10; 0x104A0; 0x10D30; 0x11066; 0x110F0; 0x11136;
    0x111D0; 0x112F0; 0x11450; 0x114D0; 0x11650; 0x116C0; 0x11730; 0x118E0; 0x11950;
    0x11C50; 0x11D50; 0x11DA0; 0x16A60; 0x16AC0; 0x16B50; 0x1D7CE; 0x1D7D8; 0x1D7E2;
    0x1D7EC; 0x1D7F6; 0x1E140; 0x1E2F0; 0x1E950; 0x1FBF0
  ].

Definition digit_zero (c : codepoint) : option codepoint :=
  List.find (fun z => in_range z (z + 9) c) digit_zeros.

Definition is_digit (c : codepoint) : bool :=
  match digit_zero c with Some _ => true | None => false end.

(** [Py_UNICODE_TODECIMAL] *)
Definition digit_val (c : codepoint) : N :=
  match digit_zero c with Some z => c - z | None => 0 end.

(** [Py_UNICODE_ISSPACE]: the separators of [str.split()]. *)
Definition is_space (c : codepoint) : bool :=
  in_range 0x09 0x0D c || in_range 0x1C 0x1F c || (c =? 0x20)
  || (c =? 0x85) || (c =? 0xA0) || (c =? 0x1680)
  || in_range 0x2000 0x200A c || (c =? 0x2028) || (c =? 0x2029)
  || (c =? 0x202F) || (c =? 0x205F) || (c =? 0x3000).

(** What [float()] strips: [Py_ISSPACE] below 127, Unicode spaces above. *)
Definition is_float_space (c : codepoint) : bool :=
  if c <? 127 then in_range 0x09 0x0D c || (c =? 0x20) else is_space c.

Definition is_ascii_upper (c : codepoint) : bool := in_range 65 90 c.
Definition is_ascii_lower (c : codepoint) : bool := in_range 97 122 c.

Definition ascii_lower (c : codepoint) : codepoint :=
  if is_ascii_upper c then c + 32 else c.

Fixpoint drop_while (p : codepoint -> bool) (s : str) : str :=
  match s with
  | [] => []
  | c :: r => if p c then drop_while p r else s
  end.

Fixpoint take_while (p : codepoint -> bool) (s : str) : str :=
  match s with
  | [] => []
  | c :: r => if p c then c :: take_while p r else []
  end.

(** *** [str.lower()] *)

(** The lower-case mapping of Unicode 14.0 above ASCII: of the characters
    from [lo] to [hi], every [step]-th one has a lower case, and these are
    [to], [to + step], and so on. *)
Definition lower_table : list (codepoint * codepoint * codepoint * N) :=
  [
    (0xC0, 0xD6, 0xE0, 1); (0xD8, 0xDE, 0xF8, 1); (0x100, 0x12E, 0x101, 2);
    (0x132, 0x136, 0x133, 2); (0x139, 0x147, 0x13A, 2); (0x14A, 0x176, 0x14B, 2);
    (0x178, 0x178, 0xFF, 1); (0x179, 0x17D, 0x17A, 2); (0x181, 0x181, 0x253, 1);
    (0x182, 0x184, 0x183, 2); (0x186, 0x186, 0x254, 1); (0x187, 0x187, 0x188, 1);
    (0x189, 0x18A, 0x256, 1); (0x18B, 0x18B, 0x18C, 1); (0x18E, 0x18E, 0x1DD, 1);
    (0x18F, 0x18F, 0x259, 1); (0x190, 0x190, 0x25B, 1); (0x191, 0x191, 0x192, 1);
    (0x193, 0x193, 0x260, 1); (0x194, 0x194, 0x263, 1); (0x196, 0x196, 0x269, 1);
    (0x197, 0x197, 0x268, 1); (0x198, 0x198, 0x199, 1); (0x19C, 0x19C, 0x26F, 1);
    (0x19D, 0x19D, 0x272, 1); (0x19F, 0x19F, 0x275, 1); (0x1A0, 0x1A4, 0x1A1, 2);
    (0x1A6, 0x1A6, 0x280, 1); (0x1A7, 0x1A7, 0x1A8, 1); (0x1A9, 0x1A9, 0x283, 1);
    (0x1AC, 0x1AC, 0x1AD, 1); (0x1AE, 0x1AE, 0x288, 1); (0x1AF, 0x1AF, 0x1B0, 1);
    (0x1B1, 0x1B2, 0x28A, 1); (0x1B3, 0x1B5, 0x1B4, 2); (0x1B7, 0x1B7, 0x292, 1);
    (0x1B8, 0x1B8, 0x1B9, 1); (0x1BC, 0x1BC, 0x1BD, 1); (0x1C4, 0x1C4, 0x1C6, 1);
    (0x1C5, 0x1C5, 0x1C6, 1); (0x1C7, 0x1C7, 0x1C9, 1); (0x1C8, 0x1C8, 0x1C9, 1);
    (0x1CA, 0x1CA, 0x1CC, 1); (0x1CB, 0x1DB, 0x1CC, 2); (0x1DE, 0x1EE, 0x1DF, 2);
    (0x1F1, 0x1F1, 0x1F3, 1); (0x1F2, 0x1F4, 0x1F3, 2); (0x1F6, 0x1F6, 0x195, 1);
    (0x1F7, 0x1F7, 0x1BF, 1); (0x1F8, 0x21E, 0x1F9, 2); (0x220, 0x220, 0x19E, 1);
    (0x222, 0x232, 0x223, 2); (0x23A, 0x23A, 0x2C65, 1); (0x23B, 0x23B, 0x23C, 1);
    (0x23D, 0x23D, 0x19A, 1); (0x23E, 0x23E, 0x2C66, 1); (0x241, 0x241, 0x242, 1);
    (0x243, 0x243, 0x180, 1); (0x244, 0x244, 0x289, 1); (0x245, 0x245, 0x28C, 1);
    (0x246, 0x24E, 0x247, 2); (0x370, 0x372, 0x371, 2); (0x376, 0x376, 0x377, 1);
    (0x37F, 0x37F, 0x3F3, 1); (0x386, 0x386, 0x3AC, 1); (0x388, 0x38A, 0x3AD, 1);
    (0x38C, 0x38C, 0x3CC, 1); (0x38E, 0x38F, 0x3CD, 1); (0x391, 0x3A1, 0x3B1, 1);
    (0x3A3, 0x3AB, 0x3C3, 1); (0x3CF, 0x3CF, 0x3D7, 1); (0x3D8, 0x3EE, 0x3D9, 2);
    (0x3F4, 0x3F4, 0x3B8, 1); (0x3F7, 0x3F7, 0x3F8, 1); (0x3F9, 0x3F9, 0x3F2, 1);
    (0x3FA, 0x3FA, 0x3FB, 1); (0x3FD, 0x3FF, 0x37B, 1); (0x400, 0x40F, 0x450, 1);
    (0x410, 0x42F, 0x430, 1); (0x460, 0x480, 0x461, 2); (0x48A, 0x4BE, 0x48B, 2);
    (0x4C0, 0x4C0, 0x4CF, 1); (0x4C1, 0x4CD, 0x4C2, 2); (0x4D0, 0x52E, 0x4D1, 2);
    (0x531, 0x556, 0x561, 1); (0x10A0, 0x10C5, 0x2D00, 1); (0x10C7, 0x10C7, 0x2D27, 1);
    (0x10CD, 0x10CD, 0x2D2D, 1); (0x13A0, 0x13EF, 0xAB70, 1);
    (0x13F0, 0x13F5, 0x13F8, 1); (0x1C90, 0x1CBA, 0x10D0, 1);
    (0x1CBD, 0x1CBF, 0x10FD, 1); (0x1E00, 0x1E94, 0x1E01, 2);
    (0x1E9E, 0x1E9E, 0xDF, 1); (0x1EA0, 0x1EFE, 0x1EA1, 2);
    (0x1F08, 0x1F0F, 0x1F00, 1); (0x1F18, 0x1F1D, 0x1F10, 1);
    (0x1F28, 0x1F2F, 0x1F20, 1); (0x1F38, 0x1F3F, 0x1F30, 1);
    (0x1F48, 0x1F4D, 0x1F40, 1); (0x1F59, 0x1F5F, 0x1F51, 2);
    (0x1F68, 0x1F6F, 0x1F60, 1); (0x1F88, 0x1F8F, 0x1F80, 1);
    (0x1F98, 0x1F9F, 0x1F90, 1); (0x1FA8, 0x1FAF, 0x1FA0, 1);
    (0x1FB8, 0x1FB9, 0x1FB0, 1); (0x1FBA, 0x1FBB, 0x1F70, 1);
    (0x1FBC, 0x1FBC, 0x1FB3, 1); (0x1FC8, 0x1FCB, 0x1F72, 1);
    (0x1FCC, 0x1FCC, 0x1FC3, 1); (0x1FD8, 0x1FD9, 0x1FD0, 1);
    (0x1FDA, 0x1FDB, 0x1F76, 1); (0x1FE8, 0x1FE9, 0x1FE0, 1);
    (0x1FEA, 0x1FEB, 0x1F7A, 1); (0x1FEC, 0x1FEC, 0x1FE5, 1);
    (0x1FF8, 0x1FF9, 0x1F78, 1); (0x1FFA, 0x1FFB, 0x1F7C, 1);
    (0x1FFC, 0x1FFC, 0x1FF3, 1); (0x2126, 0x2126, 0x3C9, 1); (0x212A, 0x212A, 0x6B, 1);
    (0x212B, 0x212B, 0xE5, 1); (0x2132, 0x2132, 0x214E, 1);
    (0x2160, 0x216F, 0x2170, 1); (0x2183, 0x2183, 0x2184, 1);
    (0x24B6, 0x24CF, 0x24D0, 1); (0x2C00, 0x2C2F, 0x2C30, 1);
    (0x2C60, 0x2C60, 0x2C61, 1); (0x2C62, 0x2C62, 0x26B, 1);
    (0x2C63, 0x2C63, 0x1D7D, 1); (0x2C64, 0x2C64, 0x27D, 1);
    (0x2C67, 0x2C6B, 0x2C68, 2); (0x2C6D, 0x2C6D, 0x251, 1);
    (0x2C6E, 0x2C6E, 0x271, 1); (0x2C6F, 0x2C6F, 0x250, 1); (0x2C70, 0x2C70, 0x252, 1);
    (0x2C72, 0x2C72, 0x2C73, 1); (0x2C75, 0x2C75, 0x2C76, 1);
    (0x2C7E, 0x2C7F, 0x23F, 1); (0x2C80, 0x2CE2, 0x2C81, 2);
    (0x2CEB, 0x2CED, 0x2CEC, 2); (0x2CF2, 0x2CF2, 0x2CF3, 1);
    (0xA640, 0xA66C, 0xA641, 2); (0xA680, 0xA69A, 0xA681, 2);
    (0xA722, 0xA72E, 0xA723, 2); (0xA732, 0xA76E, 0xA733, 2);
    (0xA779, 0xA77B, 0xA77A, 2); (0xA77D, 0xA77D, 0x1D79, 1);
    (0xA77E, 0xA786, 0xA77F, 2); (0xA78B, 0xA78B, 0xA78C, 1);
    (0xA78D, 0xA78D, 0x265, 1); (0xA790, 0xA792, 0xA791, 2);
    (0xA796, 0xA7A8, 0xA797, 2); (0xA7AA, 0xA7AA, 0x266, 1);
    (0xA7AB, 0xA7AB, 0x25C, 1); (0xA7AC, 0xA7AC, 0x261, 1); (0xA7AD, 0xA7AD, 0x26C, 1);
    (0xA7AE, 0xA7AE, 0x26A, 1); (0xA7B0, 0xA7B0, 0x29E, 1); (0xA7B1, 0xA7B1, 0x287, 1);
    (0xA7B2, 0xA7B2, 0x29D, 1); (0xA7B3, 0xA7B3, 0xAB53, 1);
    (0xA7B4, 0xA7C2, 0xA7B5, 2); (0xA7C4, 0xA7C4, 0xA794, 1);
    (0xA7C5, 0xA7C5, 0x282, 1); (0xA7C6, 0xA7C6, 0x1D8E, 1);
    (0xA7C7, 0xA7C9, 0xA7C8, 2); (0xA7D0, 0xA7D0, 0xA7D1, 1);
    (0xA7D6, 0xA7D8, 0xA7D7, 2); (0xA7F5, 0xA7F5, 0xA7F6, 1);
    (0xFF21, 0xFF3A, 0xFF41, 1); (0x10400, 0x10427, 0x10428, 1);
    (0x104B0, 0x104D3, 0x104D8, 1); (0x10570, 0x1057A, 0x10597, 1);
    (0x1057C, 0x1058A, 0x105A3, 1); (0x1058C, 0x10592, 0x105B3, 1);
    (0x10594, 0x10595, 0x105BB, 1); (0x10C80, 0x10CB2, 0x10CC0, 1);
    (0x118A0, 0x118BF, 0x118C0, 1); (0x16E40, 0x16E5F, 0x16E60, 1);
    (0x1E900, 0x1E921, 0x1E922, 1)
  ].

Definition lower_entry (c : codepoint) (r : codepoint * codepoint * codepoint * N) : bool :=
  let '(lo, hi, _, step) := r in in_range lo hi c && ((c - lo) mod step =? 0).

(** [_PyUnicode_ToLowerFull] for a character whose lower case is one
    character. *)
Definition lower_char (c : codepoint) : codepoint :=
  if c <? 128 then ascii_lower c
  else match List.find (lower_entry c) lower_table with
       | Some (lo, _, to, _) => to + (c - lo)
       | None => c
       end.

Definition in_table (t : list (codepoint * codepoint)) (c : codepoint) : bool :=
  existsb (fun r => in_range (fst r) (snd r) c) t.

(** [_PyUnicode_IsCaseIgnorable] *)
Definition case_ignorable_table : list (codepoint * codepoint) :=
  [
    (0x27, 0x27); (0x2E, 0x2E); (0x3A, 0x3A); (0x5E, 0x5E); (0x60, 0x60); (0xA8, 0xA8);
    (0xAD, 0xAD); (0xAF, 0xAF); (0xB4, 0xB4); (0xB7, 0xB8); (0x2B0, 0x36F);
    (0x374, 0x375); (0x37A, 0x37A); (0x384, 0x385); (0x387, 0x387); (0x483, 0x489);
    (0x559, 0x559); (0x55F, 0x55F); (0x591, 0x5BD); (0x5BF, 0x5BF); (0x5C1, 0x5C2);
    (0x5C4, 0x5C5); (0x5C7, 0x5C7); (0x5F4, 0x5F4); (0x600, 0x605); (0x610, 0x61A);
    (0x61C, 0x61C); (0x640, 0x640); (0x64B, 0x65F); (0x670, 0x670); (0x6D6, 0x6DD);
    (0x6DF, 0x6E8); (0x6EA, 0x6ED); (0x70F, 0x70F); (0x711, 0x711); (0x730, 0x74A);
    (0x7A6, 0x7B0); (0x7EB, 0x7F5); (0x7FA, 0x7FA); (0x7FD, 0x7FD); (0x816, 0x82D);
    (0x859, 0x85B); (0x888, 0x888); (0x890, 0x891); (0x898, 0x89F); (0x8C9, 0x902);
    (0x93A, 0x93A); (0x93C, 0x93C); (0x941, 0x948); (0x94D, 0x94D); (0x951, 0x957);
    (0x962, 0x963); (0x971, 0x971); (0x981, 0x981); (0x9BC, 0x9BC); (0x9C1, 0x9C4);
    (0x9CD, 0x9CD); (0x9E2, 0x9E3); (0x9FE, 0x9FE); (0xA01, 0xA02); (0xA3C, 0xA3C);
    (0xA41, 0xA42); (0xA47, 0xA48); (0xA4B, 0xA4D); (0xA51, 0xA51); (0xA70, 0xA71);
    (0xA75, 0xA75); (0xA81, 0xA82); (0xABC, 0xABC); (0xAC1, 0xAC5); (0xAC7, 0xAC8);
    (0xACD, 0xACD); (0xAE2, 0xAE3); (0xAFA, 0xAFF); (0xB01, 0xB01); (0xB3C, 0xB3C);
    (0xB3F, 0xB3F); (0xB41, 0xB44); (0xB4D, 0xB4D); (0xB55, 0xB56); (0xB62, 0xB63);
    (0xB82, 0xB82); (0xBC0, 0xBC0); (0xBCD, 0xBCD); (0xC00, 0xC00); (0xC04, 0xC04);
    (0xC3C, 0xC3C); (0xC3E, 0xC40); (0xC46, 0xC48); (0xC4A, 0xC4D); (0xC55, 0xC56);
    (0xC62, 0xC63); (0xC81, 0xC81); (0xCBC, 0xCBC); (0xCBF, 0xCBF); (0xCC6, 0xCC6);
    (0xCCC, 0xCCD); (0xCE2, 0xCE3); (0xD00, 0xD01); (0xD3B, 0xD3C); (0xD41, 0xD44);
    (0xD4D, 0xD4D); (0xD62, 0xD63); (0xD81, 0xD81); (0xDCA, 0xDCA); (0xDD2, 0xDD4);
    (0xDD6, 0xDD6); (0xE31, 0xE31); (0xE34, 0xE3A); (0xE46, 0xE4E); (0xEB1, 0xEB1);
    (0xEB4, 0xEBC); (0xEC6, 0xEC6); (0xEC8, 0xECD); (0xF18, 0xF19); (0xF35, 0xF35);
    (0xF37, 0xF37); (0xF39, 0xF39); (0xF71, 0xF7E); (0xF80, 0xF84); (0xF86, 0xF87);
    (0xF8D, 0xF97); (0xF99, 0xFBC); (0xFC6, 0xFC6); (0x102D, 0x1030); (0x1032, 0x1037);
    (0x1039, 0x103A); (0x103D, 0x103E); (0x1058, 0x1059); (0x105E, 0x1060);
    (0x1071, 0x1074); (0x1082, 0x1082); (0x1085, 0x1086); (0x108D, 0x108D);
    (0x109D, 0x109D); (0x10FC, 0x10FC); (0x135D, 0x135F); (0x1712, 0x1714);
    (0x1732, 0x1733); (0x1752, 0x1753); (0x1772, 0x1773); (0x17B4, 0x17B5);
    (0x17B7, 0x17BD); (0x17C6, 0x17C6); (0x17C9, 0x17D3); (0x17D7, 0x17D7);
    (0x17DD, 0x17DD); (0x180B, 0x180F); (0x1843, 0x1843); (0x1885, 0x1886);
    (0x18A9, 0x18A9); (0x1920, 0x1922); (0x1927, 0x1928); (0x1932, 0x1932);
    (0x1939, 0x193B); (0x1A17, 0x1A18); (0x1A1B, 0x1A1B); (0x1A56, 0x1A56);
    (0x1A58, 0x1A5E); (0x1A60, 0x1A60); (0x1A62, 0x1A62); (0x1A65, 0x1A6C);
    (0x1A73, 0x1A7C); (0x1A7F, 0x1A7F); (0x1AA7, 0x1AA7); (0x1AB0, 0x1ACE);
    (0x1B00, 0x1B03); (0x1B34, 0x1B34); (0x1B36, 0x1B3A); (0x1B3C, 0x1B3C);
    (0x1B42, 0x1B42); (0x1B6B, 0x1B73); (0x1B80, 0x1B81); (0x1BA2, 0x1BA5);
    (0x1BA8, 0x1BA9); (0x1BAB, 0x1BAD); (0x1BE6, 0x1BE6); (0x1BE8, 0x1BE9);
    (0x1BED, 0x1BED); (0x1BEF, 0x1BF1); (0x1C2C, 0x1C33); (0x1C36, 0x1C37);
    (0x1C78, 0x1C7D); (0x1CD0, 0x1CD2); (0x1CD4, 0x1CE0); (0x1CE2, 0x1CE8);
    (0x1CED, 0x1CED); (0x1CF4, 0x1CF4); (0x1CF8, 0x1CF9); (0x1D2C, 0x1D6A);
    (0x1D78, 0x1D78); (0x1D9B, 0x1DFF); (0x1FBD, 0x1FBD); (0x1FBF, 0x1FC1);
    (0x1FCD, 0x1FCF); (0x1FDD, 0x1FDF); (0x1FED, 0x1FEF); (0x1FFD, 0x1FFE);
    (0x200B, 0x200F); (0x2018, 0x2019); (0x2024, 0x2024); (0x2027, 0x2027);
    (0x202A, 0x202E); (0x2060, 0x2064); (0x2066, 0x206F); (0x2071, 0x2071);
    (0x207F, 0x207F); (0x2090, 0x209C); (0x20D0, 0x20F0); (0x2C7C, 0x2C7D);
    (0x2CEF, 0x2CF1); (0x2D6F, 0x2D6F); (0x2D7F, 0x2D7F); (0x2DE0, 0x2DFF);
    (0x2E2F, 0x2E2F); (0x3005, 0x3005); (0x302A, 0x302D); (0x3031, 0x3035);
    (0x303B, 0x303B); (0x3099, 0x309E); (0x30FC, 0x30FE); (0xA015, 0xA015);
    (0xA4F8, 0xA4FD); (0xA60C, 0xA60C); (0xA66F, 0xA672); (0xA674, 0xA67D);
    (0xA67F, 0xA67F); (0xA69C, 0xA69F); (0xA6F0, 0xA6F1); (0xA700, 0xA721);
    (0xA770, 0xA770); (0xA788, 0xA78A); (0xA7F2, 0xA7F4); (0xA7F8, 0xA7F9);
    (0xA802, 0xA802); (0xA806, 0xA806); (0xA80B, 0xA80B); (0xA825, 0xA826);
    (0xA82C, 0xA82C); (0xA8C4, 0xA8C5); (0xA8E0, 0xA8F1); (0xA8FF, 0xA8FF);
    (0xA926, 0xA92D); (0xA947, 0xA951); (0xA980, 0xA982); (0xA9B3, 0xA9B3);
    (0xA9B6, 0xA9B9); (0xA9BC, 0xA9BD); (0xA9CF, 0xA9CF); (0xA9E5, 0xA9E6);
    (0xAA29, 0xAA2E); (0xAA31, 0xAA32); (0xAA35, 0xAA36); (0xAA43, 0xAA43);
    (0xAA4C, 0xAA4C); (0xAA70, 0xAA70); (0xAA7C, 0xAA7C); (0xAAB0, 0xAAB0);
    (0xAAB2, 0xAAB4); (0xAAB7, 0xAAB8); (0xAABE, 0xAABF); (0xAAC1, 0xAAC1);
    (0xAADD, 0xAADD); (0xAAEC, 0xAAED); (0xAAF3, 0xAAF4); (0xAAF6, 0xAAF6);
    (0xAB5B, 0xAB5F); (0xAB69, 0xAB6B); (0xABE5, 0xABE5); (0xABE8, 0xABE8);
    (0xABED, 0xABED); (0xFB1E, 0xFB1E); (0xFBB2, 0xFBC2); (0xFE00, 0xFE0F);
    (0xFE13, 0xFE13); (0xFE20, 0xFE2F); (0xFE52, 0xFE52); (0xFE55, 0xFE55);
    (0xFEFF, 0xFEFF); (0xFF07, 0xFF07); (0xFF0E, 0xFF0E); (0xFF1A, 0xFF1A);
    (0xFF3E, 0xFF3E); (0xFF40, 0xFF40); (0xFF70, 0xFF70); (0xFF9E, 0xFF9F);
    (0xFFE3, 0xFFE3); (0xFFF9, 0xFFFB); (0x101FD, 0x101FD); (0x102E0, 0x102E0);
    (0x10376, 0x1037A); (0x10780, 0x10785); (0x10787, 0x107B0); (0x107B2, 0x107BA);
    (0x10A01, 0x10A03); (0x10A05, 0x10A06); (0x10A0C, 0x10A0F); (0x10A38, 0x10A3A);
    (0x10A3F, 0x10A3F); (0x10AE5, 0x10AE6); (0x10D24, 0x10D27); (0x10EAB, 0x10EAC);
    (0x10F46, 0x10F50); (0x10F82, 0x10F85); (0x11001, 0x11001); (0x11038, 0x11046);
    (0x11070, 0x11070); (0x11073, 0x11074); (0x1107F, 0x11081); (0x110B3, 0x110B6);
    (0x110B9, 0x110BA); (0x110BD, 0x110BD); (0x110C2, 0x110C2); (0x110CD, 0x110CD);
    (0x11100, 0x11102); (0x11127, 0x1112B); (0x1112D, 0x11134); (0x11173, 0x11173);
    (0x11180, 0x11181); (0x111B6, 0x111BE); (0x111C9, 0x111CC); (0x111CF, 0x111CF);
    (0x1122F, 0x11231); (0x11234, 0x11234); (0x11236, 0x11237); (0x1123E, 0x1123E);
    (0x112DF, 0x112DF); (0x112E3, 0x112EA); (0x11300, 0x11301); (0x1133B, 0x1133C);
    (0x11340, 0x11340); (0x11366, 0x1136C); (0x11370, 0x11374); (0x11438, 0x1143F);
    (0x11442, 0x11444); (0x11446, 0x11446); (0x1145E, 0x1145E); (0x114B3, 0x114B8);
    (0x114BA, 0x114BA); (0x114BF, 0x114C0); (0x114C2, 0x114C3); (0x115B2, 0x115B5);
    (0x115BC, 0x115BD); (0x115BF, 0x115C0); (0x115DC, 0x115DD); (0x11633, 0x1163A);
    (0x1163D, 0x1163D); (0x1163F, 0x11640); (0x116AB, 0x116AB); (0x116AD, 0x116AD);
    (0x116B0, 0x116B5); (0x116B7, 0x116B7); (0x1171D, 0x1171F); (0x11722, 0x11725);
    (0x11727, 0x1172B); (0x1182F, 0x11837); (0x11839, 0x1183A); (0x1193B, 0x1193C);
    (0x1193E, 0x1193E); (0x11943, 0x11943); (0x119D4, 0x119D7); (0x119DA, 0x119DB);
    (0x119E0, 0x119E0); (0x11A01, 0x11A0A); (0x11A33, 0x11A38); (0x11A3B, 0x11A3E);
    (0x11A47, 0x11A47); (0x11A51, 0x11A56); (0x11A59, 0x11A5B); (0x11A8A, 0x11A96);
    (0x11A98, 0x11A99); (0x11C30, 0x11C36); (0x11C38, 0x11C3D); (0x11C3F, 0x11C3F);
    (0x11C92, 0x11CA7); (0x11CAA, 0x11CB0); (0x11CB2, 0x11CB3); (0x11CB5, 0x11CB6);
    (0x11D31, 0x11D36); (0x11D3A, 0x11D3A); (0x11D3C, 0x11D3D); (0x11D3F, 0x11D45);
    (0x11D47, 0x11D47); (0x11D90, 0x11D91); (0x11D95, 0x11D95); (0x11D97, 0x11D97);
    (0x11EF3, 0x11EF4); (0x13430, 0x13438); (0x16AF0, 0x16AF4); (0x16B30, 0x16B36);
    (0x16B40, 0x16B43); (0x16F4F, 0x16F4F); (0x16F8F, 0x16F9F); (0x16FE0, 0x16FE1);
    (0x16FE3, 0x16FE4); (0x1AFF0, 0x1AFF3); (0x1AFF5, 0x1AFFB); (0x1AFFD, 0x1AFFE);
    (0x1BC9D, 0x1BC9E); (0x1BCA0, 0x1BCA3); (0x1CF00, 0x1CF2D); (0x1CF30, 0x1CF46);
    (0x1D167, 0x1D169); (0x1D173, 0x1D182); (0x1D185, 0x1D18B); (0x1D1AA, 0x1D1AD);
    (0x1D242, 0x1D244); (0x1DA00, 0x1DA36); (0x1DA3B, 0x1DA6C); (0x1DA75, 0x1DA75);
    (0x1DA84, 0x1DA84); (0x1DA9B, 0x1DA9F); (0x1DAA1, 0x1DAAF); (0x1E000, 0x1E006);
    (0x1E008, 0x1E018); (0x1E01B, 0x1E021); (0x1E023, 0x1E024); (0x1E026, 0x1E02A);
    (0x1E130, 0x1E13D); (0x1E2AE, 0x1E2AE); (0x1E2EC, 0x1E2EF); (0x1E8D0, 0x1E8D6);
    (0x1E944, 0x1E94B); (0x1F3FB, 0x1F3FF); (0xE0001, 0xE0001); (0xE0020, 0xE007F);
    (0xE0100, 0xE01EF)
  ].

Definition case_ignorable (c : codepoint) : bool := in_table case_ignorable_table c.

(** [_PyUnicode_IsCased] on the characters that are not case-ignorable, the
    only ones it is asked about. *)
Definition cased_table : list (codepoint * codepoint) :=
  [
    (0x41, 0x5A); (0x61, 0x7A); (0xAA, 0xAA); (0xB5, 0xB5); (0xBA, 0xBA); (0xC0, 0xD6);
    (0xD8, 0xF6); (0xF8, 0x1BA); (0x1BC, 0x1BF); (0x1C4, 0x293); (0x295, 0x2AF);
    (0x370, 0x373); (0x376, 0x377); (0x37B, 0x37D); (0x37F, 0x37F); (0x386, 0x386);
    (0x388, 0x38A); (0x38C, 0x38C); (0x38E, 0x3A1); (0x3A3, 0x3F5); (0x3F7, 0x481);
    (0x48A, 0x52F); (0x531, 0x556); (0x560, 0x588); (0x10A0, 0x10C5); (0x10C7, 0x10C7);
    (0x10CD, 0x10CD); (0x10D0, 0x10FA); (0x10FD, 0x10FF); (0x13A0, 0x13F5);
    (0x13F8, 0x13FD); (0x1C80, 0x1C88); (0x1C90, 0x1CBA); (0x1CBD, 0x1CBF);
    (0x1D00, 0x1D2B); (0x1D6B, 0x1D77); (0x1D79, 0x1D9A); (0x1E00, 0x1F15);
    (0x1F18, 0x1F1D); (0x1F20, 0x1F45); (0x1F48, 0x1F4D); (0x1F50, 0x1F57);
    (0x1F59, 0x1F59); (0x1F5B, 0x1F5B); (0x1F5D, 0x1F5D); (0x1F5F, 0x1F7D);
    (0x1F80, 0x1FB4); (0x1FB6, 0x1FBC); (0x1FBE, 0x1FBE); (0x1FC2, 0x1FC4);
    (0x1FC6, 0x1FCC); (0x1FD0, 0x1FD3); (0x1FD6, 0x1FDB); (0x1FE0, 0x1FEC);
    (0x1FF2, 0x1FF4); (0x1FF6, 0x1FFC); (0x2102, 0x2102); (0x2107, 0x2107);
    (0x210A, 0x2113); (0x2115, 0x2115); (0x2119, 0x211D); (0x2124, 0x2124);
    (0x2126, 0x2126); (0x2128, 0x2128); (0x212A, 0x212D); (0x212F, 0x2134);
    (0x2139, 0x2139); (0x213C, 0x213F); (0x2145, 0x2149); (0x214E, 0x214E);
    (0x2160, 0x217F); (0x2183, 0x2184); (0x24B6, 0x24E9); (0x2C00, 0x2C7B);
    (0x2C7E, 0x2CE4); (0x2CEB, 0x2CEE); (0x2CF2, 0x2CF3); (0x2D00, 0x2D25);
    (0x2D27, 0x2D27); (0x2D2D, 0x2D2D); (0xA640, 0xA66D); (0xA680, 0xA69B);
    (0xA722, 0xA76F); (0xA771, 0xA787); (0xA78B, 0xA78E); (0xA790, 0xA7CA);
    (0xA7D0, 0xA7D1); (0xA7D3, 0xA7D3); (0xA7D5, 0xA7D9); (0xA7F5, 0xA7F6);
    (0xA7FA, 0xA7FA); (0xAB30, 0xAB5A); (0xAB60, 0xAB68); (0xAB70, 0xABBF);
    (0xFB00, 0xFB06); (0xFB13, 0xFB17); (0xFF21, 0xFF3A); (0xFF41, 0xFF5A);
    (0x10400, 0x1044F); (0x104B0, 0x104D3); (0x104D8, 0x104FB); (0x10570, 0x1057A);
    (0x1057C, 0x1058A); (0x1058C, 0x10592); (0x10594, 0x10595); (0x10597, 0x105A1);
    (0x105A3, 0x105B1); (0x105B3, 0x105B9); (0x105BB, 0x105BC); (0x10C80, 0x10CB2);
    (0x10CC0, 0x10CF2); (0x118A0, 0x118DF); (0x16E40, 0x16E7F); (0x1D400, 0x1D454);
    (0x1D456, 0x1D49C); (0x1D49E, 0x1D49F); (0x1D4A2, 0x1D4A2); (0x1D4A5, 0x1D4A6);
    (0x1D4A9, 0x1D4AC); (0x1D4AE, 0x1D4B9); (0x1D4BB, 0x1D4BB); (0x1D4BD, 0x1D4C3);
    (0x1D4C5, 0x1D505); (0x1D507, 0x1D50A); (0x1D50D, 0x1D514); (0x1D516, 0x1D51C);
    (0x1D51E, 0x1D539); (0x1D53B, 0x1D53E); (0x1D540, 0x1D544); (0x1D546, 0x1D546);
    (0x1D54A, 0x1D550); (0x1D552, 0x1D6A5); (0x1D6A8, 0x1D6C0); (0x1D6C2, 0x1D6DA);
    (0x1D6DC, 0x1D6FA); (0x1D6FC, 0x1D714); (0x1D716, 0x1D734); (0x1D736, 0x1D74E);
    (0x1D750, 0x1D76E); (0x1D770, 0x1D788); (0x1D78A, 0x1D7A8); (0x1D7AA, 0x1D7C2);
    (0x1D7C4, 0x1D7CB); (0x1DF00, 0x1DF09); (0x1DF0B, 0x1DF1E); (0x1E900, 0x1E943);
    (0x1F130, 0x1F149); (0x1F150, 0x1F169); (0x1F170, 0x1F189)
  ].

Definition cased (c : codepoint) : bool := in_table cased_table c.

(** [handle_capital_sigma]: a capital sigma is final when a cased letter
    stands before it and none after it, the case-ignorable characters
    skipped; [before] is the text before it, nearest character first. *)
Definition final_sigma (before after : str) : bool :=
  match drop_while case_ignorable before with
  | c :: _ =>
    cased c && match drop_while case_ignorable after with
               | [] => true
               | d :: _ => negb (cased d)
               end
  | [] => false
  end.

Fixpoint lower_from (before : str) (s : str) : str :=
  match s with
  | [] => []
  | c :: r =>
    (if c =? 0x3A3 then [if final_sigma before r then 0x3C2 else 0x3C3]
     else if c =? 0x130 then [0x69; 0x307]
     else [lower_char c])
    ++ lower_from (c :: before) r
  end.

(** [str.lower()]. *)
Definition lower (s : str) : str := lower_from [] s.

(** [str.replace(old, new)] for a one-character [old]. *)
Definition replace (old : codepoint) (new : str) (s : str) : str :=
  flat_map (fun c => if c =? old then new else [c]) s.

(** *** [str.split()] *)

(** The scan of CPython's [split_whitespace]; [cur] is the token being read,
    most recent character first. *)
Fixpoint split_from (cur : str) (s : str) : list str :=
  match s with
  | [] => match cur with [] => [] | _ => [rev cur] end
  | c :: r =>
    if is_space c then
      match cur with
      | [] => split_from [] r
      | _ => rev cur :: split_from [] r
      end
    else split_from (c :: cur) r
  end.

Definition split (s : str) : list str := split_from [] s.

(** *** Regular expressions of the source *)

(** [re.search('(\d+)', s)]: group 1 of the leftmost match, which is greedy. *)
Definition search_digits (s : str) : option str :=
  match drop_while (fun c => negb (is_digit c)) s with
  | [] => None
  | r => Some (take_while is_digit r)
  end.

(** Lower-casing of a subject character by [sre] as far as it can reach an
    ASCII letter: U+0130 lowers to [i], U+212A (Kelvin sign) to [k]. *)
Definition sre_lower (c : codepoint) : codepoint :=
  if is_ascii_upper c then c + 32
  else if c =? 0x130 then 0x69
  else if c =? 0x212A then 0x6B
  else c.

(** The equivalence table of [sre_compile]: dotless i and long s. *)
Definition sre_fixes (lo : codepoint) : list codepoint :=
  if lo =? 0x69 then [0x131] else if lo =? 0x73 then [0x17F] else [].

(** One literal of a pattern compiled with [re.IGNORECASE] against one
    character of the subject. *)
Definition ci_char (p c : codepoint) : bool :=
  if is_ascii_upper p || is_ascii_lower p then
    let lo := ascii_lower p in
    let l := sre_lower c in
    (l =? lo) || existsb (N.eqb l) (sre_fixes lo)
  else c =? p.

Fixpoint ci_prefix (p s : str) : bool :=
  match p, s with
  | [], _ => true
  | _ :: _, [] => false
  | a :: p', c :: s' => ci_char a c && ci_prefix p' s'
  end.

Fixpoint ci_search (p s : str) : bool :=
  ci_prefix p s || match s with [] => false | _ :: s' => ci_search p s' end.

(** The branches of a pattern [a|b|c] of literals. *)
Fixpoint branches_from (cur : str) (pat : str) : list str :=
  match pat with
  | [] => [rev cur]
  | c :: r => if c =? 124 then rev cur :: branches_from [] r
              else branches_from (c :: cur) r
  end.

Definition branches (pat : str) : list str := branches_from [] pat.

(** [re.compile(pat, re.IGNORECASE).search(s) is not None]. *)
Definition re_search_ci (pat s : str) : bool :=
  existsb (fun b => ci_search b s) (branches pat).

End Text.
Import Text.

(* ===================================================================== *)
(** ** Floats and [float()] *)
(* ===================================================================== *)

Inductive pyfloat :=
| NaN
| PosInf
| NegInf
| Fin (q : Q).

Definition is_nan (x : pyfloat) : bool :=
  match x with NaN => true | _ => false end.

Definition zero : pyfloat := Fin (inject_Z 0).

Module Float.

Definition digits_value (ds : str) : N :=
  fold_left (fun acc c => acc * 10 + digit_val c) ds 0.

(** The value of the decimal literal [(-1)^neg * m * 10^e]. *)
Definition dec_value (neg : bool) (m : N) (e : Z) : Q :=
  let z := if neg then (- Z.of_N m)%Z else Z.of_N m in
  if (0 <=? e)%Z then inject_Z (z * 10 ^ e)
  else Qred (Qmake z (Z.to_pos (10 ^ (- e)))).

Definition strip (s : str) : str :=
  rev (drop_while is_float_space (rev (drop_while is_float_space s))).

(** [_Py_string_to_number_with_underscores]: an underscore stands between
    two digits. *)
Fixpoint underscores_ok (prev : codepoint) (s : str) : bool :=
  match s with
  | [] => negb (prev =? 95)
  | c :: r =>
    (if c =? 95 then is_digit prev
     else negb (prev =? 95) || is_digit c)
    && underscores_ok c r
  end.

Definition remove_underscores (s : str) : str :=
  List.filter (fun c => negb (c =? 95)) s.

Definition parse_sign (s : str) : bool * str :=
  match s with
  | c :: r => if c =? 45 then (true, r)
              else if c =? 43 then (false, r)
              else (false, s)
  | [] => (false, [])
  end.

Definition span_digits (s : str) : str * str :=
  (take_while is_digit s, drop_while is_digit s).

(** [(e|E) [sign] digits] up to the end of the text, or nothing. *)
Definition parse_exponent (s : str) : option Z :=
  match s with
  | [] => Some 0%Z
  | c :: r =>
    if (c =? 101) || (c =? 69) then
      let '(neg, r1) := parse_sign r in
      match span_digits r1 with
      | ((_ :: _) as ds, []) =>
        let v := Z.of_N (digits_value ds) in
        Some (if neg then (- v)%Z else v)
      | _ => None
      end
    else None
  end.

Definition parse_number (neg : bool) (s : str) : option pyfloat :=
  let '(ip, r1) := span_digits s in
  let '(fp, r2) :=
    match r1 with
    | c :: r => if c =? 46 then span_digits r else ([], r1)
    | [] => ([], [])
    end in
  match ip ++ fp with
  | [] => None
  | ds =>
    match parse_exponent r2 with
    | Some e =>
      Some (Fin (dec_value neg (digits_value ds)
                           (e - Z.of_nat (List.length fp))))
    | None => None
    end
  end.

Definition parse_inf_or_nan (neg : bool) (s : str) : option pyfloat :=
  let l := List.map ascii_lower s in
  if str_eqb l (py "inf") || str_eqb l (py "infinity")
  then Some (if neg then NegInf else PosInf)
  else if str_eqb l (py "nan") then Some NaN
  else None.

(** [float(s)] for a [str]; [None] is [ValueError]. *)
Definition py_float (s : str) : option pyfloat :=
  let t := strip s in
  if underscores_ok 0 t then
    let '(neg, r) := parse_sign (remove_underscores t) in
    match parse_inf_or_nan neg r with
    | Some x => Some x
    | None => parse_number neg r
    end
  else None.

End Float.
Import Float.

(* ===================================================================== *)
(** ** Data frames *)
(* ===================================================================== *)

(** A value held by an object column: a [str] or a float.  The float [NaN]
    is the missing value. *)
Inductive cell :=
| CStr (s : str)
| CFloat (x : pyfloat).

Definition isna (c : cell) : bool :=
  match c with CFloat NaN => true | _ => false end.

Definition is_str (c : cell) : bool :=
  match c with CStr _ => true | _ => false end.

(** A column with its dtype: [float64], or [object]. *)
Inductive column :=
| Float64 (xs : list pyfloat)
| Object (xs : list cell).

Definition cells (c : column) : list cell :=
  match c with
  | Float64 xs => List.map CFloat xs
  | Object xs => xs
  end.

(** Labels are kept in column order; a label may occur more than once. *)
Record DataFrame := {
  nrows : nat;
  columns : list (str * column)
}.

(** What [df[key]] evaluates to: a Series when one column carries the label,
    a DataFrame when several do. *)
Inductive selection :=
| Series (c : column)
| Frame (cs : list column).

(** [KeyError key] is raised by [df[key]] and carries the key;
    [KeyErrorNotInIndex] is the [KeyError] of [.loc] for keys that are no
    row labels, which carries a message. *)
Inductive pyerror :=
| KeyError (key : str)
| KeyErrorNotInIndex
| AttributeError
| ValueError
| DanglingRef. (* a reference outside the heap; Python has no such reference *)

Inductive outcome (A : Type) :=
| Returned (a : A)
| Raised (e : pyerror).
Arguments Returned {A} a.
Arguments Raised {A} e.

Definition obind {A B} (c : outcome A) (k : A -> outcome B) : outcome B :=
  match c with
  | Returned a => k a
  | Raised e => Raised e
  end.

Declare Scope outcome_scope.
Delimit Scope outcome_scope with outcome.
Notation "x <~ c ;; k" := (obind c (fun x => k))
  (at level 61, c at next level, right associativity) : outcome_scope.
Local Open Scope outcome_scope.

Module Frame.

Definition has_label (key : str) (kc : str * column) : bool :=
  str_eqb (fst kc) key.

Definition labelled (key : str) (df : DataFrame) : list column :=
  List.map snd (List.filter (has_label key) (columns df)).

(** [df[key]] *)
Definition getitem (df : DataFrame) (key : str) : outcome selection :=
  match labelled key df with
  | [] => Raised (KeyError key)
  | [c] => Returned (Series c)
  | cs => Returned (Frame cs)
  end.

(** The columns labelled [key] take the columns [vs] in order. *)
Fixpoint assign_frame (key : str) (vs : list column)
    (cols : list (str * column)) : list (str * column) :=
  match cols with
  | [] => []
  | kc :: r =>
    if has_label key kc then
      match vs with
      | v :: vs' => (fst kc, v) :: assign_frame key vs' r
      | [] => kc :: assign_frame key [] r
      end
    else kc :: assign_frame key vs r
  end.

(** A scalar set on a column gives a column of that value, of the dtype of
    the value. *)
Definition broadcast (n : nat) (v : cell) : column :=
  match v with
  | CStr s => Object (repeat (CStr s) n)
  | CFloat x => Float64 (repeat x n)
  end.

(** [df[key] = value]: a Series is written to every column that carries the
    label, or appended as a new last column; a DataFrame value must bring as
    many columns as carry the label.  When the label is carried by several
    columns and the Series has as many values as there are such columns,
    pandas takes the Series for one value per column: the i-th of these
    columns is set to the i-th value. *)
Definition setitem (df : DataFrame) (key : str) (v : selection)
    : outcome DataFrame :=
  match v with
  | Series c =>
    let k := List.length (labelled key df) in
    if Nat.ltb 1 k && Nat.eqb k (List.length (cells c)) then
      Returned {| nrows := nrows df;
                  columns := assign_frame key
                               (List.map (broadcast (nrows df)) (cells c))
                               (columns df) |}
    else if existsb (has_label key) (columns df) then
      Returned {| nrows := nrows df;
                  columns := List.map (fun kc => if has_label key kc
                                                 then (fst kc, c) else kc)
                                      (columns df) |}
    else
      Returned {| nrows := nrows df; columns := columns df ++ [(key, c)] |}
  | Frame cs =>
    if Nat.eqb (List.length (labelled key df)) (List.length cs) then
      Returned {| nrows := nrows df;
                  columns := assign_frame key cs (columns df) |}
    else Raised ValueError
  end.

(** [df[key] = v] for a scalar [v]: every column that carries the label, or
    a new last column, holds [v] in every row. *)
Definition setitem_scalar (df : DataFrame) (key : str) (v : cell) : DataFrame :=
  {| nrows := nrows df;
     columns :=
       if existsb (has_label key) (columns df) then
         List.map (fun kc => if has_label key kc
                             then (fst kc, broadcast (nrows df) v) else kc)
                  (columns df)
       else columns df ++ [(key, broadcast (nrows df) v)] |}.

(** The [.str] accessor: the values must be inferred as strings, mixed, or
    empty; a float64 column, an object column of floats only, and a
    DataFrame are refused. *)
Definition str_like (xs : list cell) : bool :=
  forallb isna xs || existsb is_str xs.

Definition str_accessor (sel : selection) : outcome (list cell) :=
  match sel with
  | Series (Object xs) =>
    if str_like xs then Returned xs else Raised AttributeError
  | _ => Raised AttributeError
  end.

(** An element-wise string method: values that are not [str] give [NaN]. *)
Definition str_map (f : str -> cell) (xs : list cell) : list cell :=
  List.map (fun c => match c with CStr s => f s | CFloat _ => CFloat NaN end) xs.

(** [.str.replace(old, new)] *)
Definition str_replace (old : codepoint) (new : str) (xs : list cell) : list cell :=
  str_map (fun s => CStr (replace old new s)) xs.

(** [.str.extract('(\d+)')] *)
Definition str_extract_digits (xs : list cell) : list cell :=
  str_map (fun s => match search_digits s with
                    | Some d => CStr d
                    | None => CFloat NaN
                    end) xs.

(** [.str.split()] gives lists; [.str[0]] takes their first element. *)
Definition str_split (xs : list cell) : list (option (list str)) :=
  List.map (fun c => match c with CStr s => Some (split s) | CFloat _ => None end) xs.

Definition str_get0 (ys : list (option (list str))) : list cell :=
  List.map (fun y => match y with Some (t :: _) => CStr t | _ => CFloat NaN end) ys.

(** [.str.contains(pat, case=False)]: [None] is the [NaN] of a value that
    is not a [str]. *)
Definition str_contains_ci (pat : str) (xs : list cell) : list (option bool) :=
  List.map (fun c => match c with
                     | CStr s => Some (re_search_ci pat s)
                     | CFloat _ => None
                     end) xs.

(** [float] applied to one object; a [str] goes through [float()]. *)
Definition float_of_cell (c : cell) : outcome pyfloat :=
  match c with
  | CFloat x => Returned x
  | CStr s => match py_float s with
              | Some x => Returned x
              | None => Raised ValueError
              end
  end.

(** [.astype(float)] on object values. *)
Fixpoint astype_float (xs : list cell) : outcome (list pyfloat) :=
  match xs with
  | [] => Returned []
  | c :: r =>
    x <~ float_of_cell c ;;
    r' <~ astype_float r ;;
    Returned (x :: r')
  end.

(** [.fillna(0)] *)
Definition fillna0 (c : column) : column :=
  match c with
  | Float64 xs => Float64 (List.map (fun x => if is_nan x then zero else x) xs)
  | Object xs => Object (List.map (fun c => if isna c then CFloat zero else c) xs)
  end.

Definition fillna0_sel (sel : selection) : selection :=
  match sel with
  | Series c => Series (fillna0 c)
  | Frame cs => Frame (List.map fillna0 cs)
  end.

(** [.replace(mapping)] with a dict of [str] keys. *)
Fixpoint lookup (k : str) (m : list (str * str)) : option str :=
  match m with
  | [] => None
  | (k', v) :: r => if str_eqb k' k then Some v else lookup k r
  end.

Definition replace_values (m : list (str * str)) (xs : list cell) : list cell :=
  List.map (fun c => match c with
                     | CStr s => match lookup s m with
                                 | Some v => CStr v
                                 | None => c
                                 end
                     | CFloat _ => c
                     end) xs.

(** [series == value] for a [str] value. *)
Definition eq_str (v : str) (xs : list cell) : list bool :=
  List.map (fun c => match c with CStr s => str_eqb s v | CFloat _ => false end) xs.

(** A boolean row indexer of [.loc] must not hold a missing value. *)
Fixpoint bool_indexer (mask : list (option bool)) : outcome (list bool) :=
  match mask with
  | [] => Returned []
  | None :: _ => Raised ValueError
  | Some b :: r => r' <~ bool_indexer r ;; Returned (b :: r')
  end.

Fixpoint set_where (mask : list bool) (v : cell) (xs : list cell) : list cell :=
  match mask, xs with
  | b :: mask', x :: xs' => (if b then v else x) :: set_where mask' v xs'
  | _, _ => xs
  end.

(** [df.loc[mask, key] = v] for an existing label and a scalar [v]. *)
Definition loc_setitem (df : DataFrame) (mask : list bool) (key : str) (v : cell)
    : DataFrame :=
  {| nrows := nrows df;
     columns := List.map (fun kc => if has_label key kc
                                    then (fst kc, Object (set_where mask v (cells (snd kc))))
                                    else kc)
                         (columns df) |}.

(** [df.columns = df.columns.str.lower().str.replace(' ', '_')] *)
Definition normalize (name : str) : str := replace 32 [95] (lower name).

Definition normalize_columns (df : DataFrame) : DataFrame :=
  {| nrows := nrows df;
     columns := List.map (fun kc => (normalize (fst kc), snd kc)) (columns df) |}.

End Frame.
Import Frame.

(* ===================================================================== *)
(** ** Objects, output and the monad of the program *)
(* ===================================================================== *)

Definition loc := nat.

Record world := {
  heap : list DataFrame;   (* the data frames alive, by reference *)
  stdout : list str        (* the lines printed so far *)
}.

Definition M (A : Type) : Type := world -> outcome A * world.

Definition ret {A} (a : A) : M A := fun w => (Returned a, w).

Definition bind {A B} (c : M A) (k : A -> M B) : M B :=
  fun w => match c w with
           | (Returned a, w') => k a w'
           | (Raised e, w') => (Raised e, w')
           end.

Declare Scope prog_scope.
Delimit Scope prog_scope with prog.
Notation "x <- c ;; k" := (bind c (fun x => k))
  (at level 61, c at next level, right associativity) : prog_scope.
Notation "c ;; k" := (bind c (fun _ => k))
  (at level 61, right associativity) : prog_scope.

(** An expression that may raise. *)
Definition lift {A} (c : outcome A) : M A := fun w => (c, w).

Definition deref (l : loc) : M DataFrame :=
  fun w => match nth_error (heap w) l with
           | Some d => (Returned d, w)
           | None => (Raised DanglingRef, w)
           end.

Fixpoint update {A} (l : nat) (a : A) (xs : list A) : list A :=
  match xs, l with
  | [], _ => []
  | _ :: r, O => a :: r
  | x :: r, S l' => x :: update l' a r
  end.

Definition store (l : loc) (d : DataFrame) : M unit :=
  fun w => (Returned tt, {| heap := update l d (heap w); stdout := stdout w |}).

(** A new object; its reference is fresh. *)
Definition alloc (d : DataFrame) : M loc :=
  fun w => (Returned (List.length (heap w)),
            {| heap := heap w ++ [d]; stdout := stdout w |}).

Definition print (line : str) : M unit :=
  fun w => (Returned tt, {| heap := heap w; stdout := stdout w ++ [line] |}).

Local Open Scope prog_scope.

(** [obj[key] = rhs], where [rhs] is evaluated on the object first. *)
Definition assign (obj : loc) (key : str) (rhs : DataFrame -> outcome selection)
    : M unit :=
  d <- deref obj ;;
  v <- lift (rhs d) ;;
  d' <- lift (setitem d key v) ;;
  store obj d'.

(** [obj[key] = v] for a scalar [v]. *)
Definition assign_scalar (obj : loc) (key : str) (v : cell) : M unit :=
  d <- deref obj ;;
  store obj (setitem_scalar d key v).

(** [obj.loc[mask, key] = v] *)
Definition assign_where (obj : loc) (mask : DataFrame -> outcome (list (option bool)))
    (key : str) (v : str) : M unit :=
  d <- deref obj ;;
  m <- lift (mask d) ;;
  b <- lift (bool_indexer m) ;;
  store obj (loc_setitem d b key (CStr v)).

Fixpoint for_each {A} (xs : list A) (body : A -> M unit) : M unit :=
  match xs with
  | [] => ret tt
  | x :: r => body x ;; for_each r body
  end.

(* ===================================================================== *)
(** ** [clean_data] *)
(* ===================================================================== *)

Definition RUPEE : codepoint := 0x20B9.  (* the character of the literal '₹' *)
Definition COMMA : codepoint := 44.

Definition brand_mapping : list (str * str) :=
  [ (py "Apple", py "Apple"); (py "HP", py "HP"); (py "Lenovo", py "Lenovo");
    (py "Dell", py "Dell"); (py "Asus", py "Asus"); (py "Acer", py "Acer");
    (py "MSI", py "MSI"); (py "Samsung", py "Samsung"); (py "Xiaomi", py "Xiaomi");
    (py "Honor", py "Honor"); (py "Huawei", py "Huawei") ].

(** [clean_df['Price'].str.replace('₹', '').str.replace(',', '').astype(float)] *)
Definition price_expr (d : DataFrame) : outcome selection :=
  (sel <~ getitem d (py "Price") ;;
   xs <~ str_accessor sel ;;
   ys <~ str_accessor (Series (Object (str_replace RUPEE [] xs))) ;;
   zs <~ astype_float (str_replace COMMA [] ys) ;;
   Returned (Series (Float64 zs)))%outcome.

(** [clean_df[col].str.extract('(\d+)').astype(float)]; [extract] gives a
    DataFrame of one column. *)
Definition extract_expr (col : str) (d : DataFrame) : outcome selection :=
  (sel <~ getitem d col ;;
   xs <~ str_accessor sel ;;
   zs <~ astype_float (str_extract_digits xs) ;;
   Returned (Frame [Float64 zs]))%outcome.

(** [clean_df['rating'].fillna(0)] *)
Definition rating_expr (d : DataFrame) : outcome selection :=
  (sel <~ getitem d (py "rating") ;;
   Returned (fillna0_sel sel))%outcome.

(** [clean_df['model'].str.split().str[0]] *)
Definition brand_expr (d : DataFrame) : outcome selection :=
  (sel <~ getitem d (py "model") ;;
   xs <~ str_accessor sel ;;
   Returned (Series (Object (str_get0 (str_split xs)))))%outcome.

Definition replace_column (m : list (str * str)) (c : column) : column :=
  match c with
  | Float64 xs => Float64 xs
  | Object xs => Object (replace_values m xs)
  end.

(** [clean_df['brand'].replace(brand_mapping)] *)
Definition brand_canon_expr (d : DataFrame) : outcome selection :=
  (sel <~ getitem d (py "brand") ;;
   Returned match sel with
            | Series c => Series (replace_column brand_mapping c)
            | Frame cs => Frame (List.map (replace_column brand_mapping) cs)
            end)%outcome.

Definition clean_data (df : loc) : M loc :=
  d <- deref df ;;
  clean_df <- alloc d ;;                                   (* df.copy() *)
  assign clean_df (py "Price") price_expr ;;
  for_each [py "Ram"; py "SSD"]
    (fun col => assign clean_df col (extract_expr col)) ;;
  (d <- deref clean_df ;; store clean_df (normalize_columns d)) ;;
  assign clean_df (py "rating") rating_expr ;;
  assign clean_df (py "brand") brand_expr ;;
  assign clean_df (py "brand") brand_canon_expr ;;
  print (py "✅ Datos limpiados y transformados") ;;
  ret clean_df.

(* ===================================================================== *)
(** ** [analyze_categories]: the creation of the categories *)
(* ===================================================================== *)

(** [df['model'].str.contains(pat, case=False)] *)
Definition model_contains (pat : str) (d : DataFrame) : outcome (list (option bool)) :=
  (sel <~ getitem d (py "model") ;;
   xs <~ str_accessor sel ;;
   Returned (str_contains_ci pat xs))%outcome.

(** [df['brand'] == 'Apple']; a DataFrame of booleans is no row indexer:
    [.loc] takes it for a list of row labels and finds none of them. *)
Definition brand_equals (v : str) (d : DataFrame) : outcome (list (option bool)) :=
  (sel <~ getitem d (py "brand") ;;
   match sel with
   | Series c => Returned (List.map Some (eq_str v (cells c)))
   | Frame _ => Raised KeyErrorNotInIndex
   end)%outcome.

(** Lines 185 to 188.  The report lines and the chart that follow read the
    table and leave it as it is. *)
Definition analyze_categories (df : loc) : M unit :=
  assign_scalar df (py "category") (CStr (py "General")) ;;
  assign_where df (model_contains (py "Gaming")) (py "category") (py "Gaming") ;;
  assign_where df (brand_equals (py "Apple")) (py "category") (py "Apple") ;;
  assign_where df (model_contains (py "Ultrabook|Thin|Slim")) (py "category") (py "Ultrabook").

(* ===================================================================== *)
(** ** [load_data] *)
(* ===================================================================== *)

Fixpoint digits_of_uint (u : Decimal.uint) : str :=
  match u with
  | Decimal.Nil => []
  | Decimal.D0 r => 48 :: digits_of_uint r
  | Decimal.D1 r => 49 :: digits_of_uint r
  | Decimal.D2 r => 50 :: digits_of_uint r
  | Decimal.D3 r => 51 :: digits_of_uint r
  | Decimal.D4 r => 52 :: digits_of_uint r
  | Decimal.D5 r => 53 :: digits_of_uint r
  | Decimal.D6 r => 54 :: digits_of_uint r
  | Decimal.D7 r => 55 :: digits_of_uint r
  | Decimal.D8 r => 56 :: digits_of_uint r
  | Decimal.D9 r => 57 :: digits_of_uint r
  end.

(** [str(n)] for a length. *)
Definition str_of_nat (n : nat) : str := digits_of_uint (Nat.to_uint n).

Section Loader.

(** [pd.read_csv]: the table read, or the text [str(e)] of the exception
    raised. *)
Variable read_csv : str -> str + DataFrame.

Definition load_data (file_path : str) : M (option loc) :=
  match read_csv file_path with
  | inr d =>
    df <- alloc d ;;
    print (py "✅ Dataset cargado correctamente. Filas: " ++ str_of_nat (nrows d)) ;;
    ret (Some df)
  | inl e =>
    print (py "❌ Error al cargar " ++ file_path ++ py ": " ++ e) ;;
    ret None
  end.

End Loader.

(* ===================================================================== *)
(** ** The steps of [clean_data] as functions of the copy *)
(* ===================================================================== *)

(** One assignment [clean_df[key] = rhs] seen from the data frame. *)
Definition step (key : str) (rhs : DataFrame -> outcome selection)
    (d : DataFrame) : outcome DataFrame :=
  (v <~ rhs d ;; setitem d key v)%outcome.

Definition clean_steps (d : DataFrame) : outcome DataFrame :=
  (d1 <~ step (py "Price") price_expr d ;;
   d2 <~ step (py "Ram") (extract_expr (py "Ram")) d1 ;;
   d3 <~ step (py "SSD") (extract_expr (py "SSD")) d2 ;;
   d5 <~ step (py "rating") rating_expr (normalize_columns d3) ;;
   d6 <~ step (py "brand") brand_expr d5 ;;
   step (py "brand") brand_canon_expr d6)%outcome.

(** The columns that carry [key] are mapped by [f]. *)
Definition map_label (key : str) (f : column -> column)
    (cols : list (str * column)) : list (str * column) :=
  List.map (fun kc => if has_label key kc then (fst kc, f (snd kc)) else kc) cols.

(** One assignment [df.loc[mask, key] = v] seen from the data frame. *)
Definition where_step (mask : DataFrame -> outcome (list (option bool)))
    (key : str) (v : str) (d : DataFrame) : outcome DataFrame :=
  (m <~ mask d ;;
   b <~ bool_indexer m ;;
   Returned (loc_setitem d b key (CStr v)))%outcome.

Definition category_steps (d : DataFrame) : outcome DataFrame :=
  (d0 <~ Returned (setitem_scalar d (py "category") (CStr (py "General"))) ;;
   d1 <~ where_step (model_contains (py "Gaming")) (py "category") (py "Gaming") d0 ;;
   d2 <~ where_step (brand_equals (py "Apple")) (py "category") (py "Apple") d1 ;;
   where_step (model_contains (py "Ultrabook|Thin|Slim")) (py "category") (py "Ultrabook") d2)%outcome.

(** ** Vocabulary of the statements *)

(** The number conversions of the price and of the memory columns. *)
Definition price_cells (xs : list cell) : outcome (list pyfloat) :=
  astype_float (str_replace COMMA [] (str_replace RUPEE [] xs)).

Definition extract_cells (xs : list cell) : outcome (list pyfloat) :=
  astype_float (str_extract_digits xs).

(** Digits with separating commas, at least one digit: [12,345], [1,04,999]. *)
Definition digits_with_commas (body : str) : bool :=
  forallb (fun c => is_digit c || (c =? COMMA)) body && existsb is_digit body.

Definition digits_only (s : str) : str := List.filter is_digit s.



(** The brand column computed from the values of the model column. *)
Definition brand_of (xs : list cell) : column :=
  replace_column brand_mapping (Object (str_get0 (str_split xs))).

(** The tag of a record after the three overwriting rules. *)
Definition category_rule (model : str) (brand : cell) : str :=
  if re_search_ci (py "Ultrabook|Thin|Slim") model then py "Ultrabook"
  else match brand with
       | CStr b => if str_eqb b (py "Apple") then py "Apple"
                   else if re_search_ci (py "Gaming") model then py "Gaming"
                   else py "General"
       | CFloat _ => if re_search_ci (py "Gaming") model then py "Gaming"
                     else py "General"
       end.

(** What the memory columns become: the number of the first digit run. *)
Definition extract_value (c : cell) : pyfloat :=
  match c with
  | CStr s => match search_digits s with
              | Some d => Fin (inject_Z (Z.of_N (digits_value d)))
              | None => NaN
              end
  | CFloat _ => NaN
  end.

(** The column that stands in the cleaned table where the raw table has
    the column [c] under the label [k], the brand put aside: [zp], [zr] and
    [zs] are the numbers of the price and of the memory columns. *)
Definition cleaned_column (zp zr zs : list pyfloat) (k : str) (c : column) : column :=
  let c1 := if str_eqb k (py "Price") then Float64 zp
            else if str_eqb k (py "Ram") then Float64 zr
            else if str_eqb k (py "SSD") then Float64 zs
            else c in
  if str_eqb (normalize k) (py "rating") then fillna0 c1 else c1.

(** A column written to a label stands in the columns that carry it, or
    comes last. *)
Definition set_series (key : str) (b : column) (cols : list (str * column))
    : list (str * column) :=
  if existsb (has_label key) cols
  then map_label key (fun _ => b) cols
  else cols ++ [(key, b)].

(** A Series assigned to a label in a table of [n] rows: when the label is
    carried by several columns, as many as the Series has values, the i-th
    of them holds the i-th value in every row. *)
Definition one_value_per_column (key : str) (b : column) (cols : list (str * column))
    : bool :=
  let k := List.length (List.filter (has_label key) cols) in
  Nat.ltb 1 k && Nat.eqb k (List.length (cells b)).

Definition set_column (n : nat) (key : str) (b : column) (cols : list (str * column))
    : list (str * column) :=
  if one_value_per_column key b cols
  then assign_frame key (List.map (broadcast n) (cells b)) cols
  else set_series key b cols.

Definition set_brand (n : nat) (b : column) (cols : list (str * column))
    : list (str * column) :=
  set_column n (py "brand") b cols.

Definition cleaned_columns (n : nat) (zp zr zs : list pyfloat) (xm : list cell)
    (cols : list (str * column)) : list (str * column) :=
  set_brand n (brand_of xm)
    (List.map (fun kc => (normalize (fst kc),
                          cleaned_column zp zr zs (fst kc) (snd kc))) cols).

(** What [clean_data] asks of a table: one column of strings under each of
    the labels [Price], [Ram] and [SSD], every price readable by [float()];
    after the labels are normalised, a column [rating] and one column of
    strings [model]. *)
Definition accepted (d : DataFrame) (zp : list pyfloat) (xr xs xm : list cell) : Prop :=
  exists xp,
    labelled (py "Price") d = [Object xp] /\ str_like xp = true
    /\ price_cells xp = Returned zp
    /\ labelled (py "Ram") d = [Object xr] /\ str_like xr = true
    /\ labelled (py "SSD") d = [Object xs] /\ str_like xs = true
    /\ labelled (py "rating") (normalize_columns d) <> []
    /\ labelled (py "model") (normalize_columns d) = [Object xm]
    /\ str_like xm = true.

(** The category column written by the three assignments, from the flags of
    the rows. *)
Definition category_cells (gaming apple ultra : list bool) (n : nat) : list cell :=
  set_where ultra (CStr (py "Ultrabook"))
    (set_where apple (CStr (py "Apple"))
      (set_where gaming (CStr (py "Gaming"))
        (repeat (CStr (py "General")) n))).

(** A raw table as the loader hands it over: one object in the heap. *)
Definition holds (w : world) (l : loc) (d : DataFrame) : Prop :=
  nth_error (heap w) l = Some d.

(* ===================================================================== *)
(** ** Sample tables *)
(* ===================================================================== *)

Definition sample_raw : DataFrame :=
  {| nrows := 3%nat;
     columns :=
       [ (py "Model", Object [CStr (py "HP Pavilion Gaming 15");
                              CStr (py "Apple MacBook Air Ultrabook");
                              CStr (py "Apple Gaming Slim")]);
         (py "Price", Object [CStr (py "₹54,999"); CStr (py "₹99,990");
                              CStr (py "₹12,345")]);
         (py "Rating", Float64 [Fin (9 # 2); NaN; zero]);
         (py "Ram", Object [CStr (py "8 GB"); CStr (py "16GB"); CStr (py "16 GB")]);
         (py "SSD", Object [CStr (py "256 GB SSD"); CStr (py "512GB");
                            CStr (py "No SSD")]);
         (py "Screen Size", Object [CStr (py "15.6 inch"); CStr (py "13.3 inch");
                                    CFloat NaN]) ] |}.

Definition sample_world : world := {| heap := [sample_raw]; stdout := [] |}.

Definition sample_cleaned_world : world :=
  Eval vm_compute in snd (clean_data 0%nat sample_world).

Definition sample_clean : DataFrame :=
  Eval vm_compute in nth 1%nat (heap sample_cleaned_world) sample_raw.

Definition sample_tagged_world : world :=
  Eval vm_compute in snd (analyze_categories 1%nat sample_cleaned_world).

Definition sample_tagged : DataFrame :=
  Eval vm_compute in nth 1%nat (heap sample_tagged_world) sample_raw.



(** A price that [float()] refuses. *)
Definition bad_price_raw : DataFrame :=
  {| nrows := 2%nat;
     columns :=
       [ (py "Model", Object [CStr (py "HP Pavilion Gaming 15"); CStr (py "Dell Inspiron")]);
         (py "Price", Object [CStr (py "₹54,999"); CStr (py "₹ on request")]);
         (py "Rating", Float64 [Fin (9 # 2); NaN]);
         (py "Ram", Object [CStr (py "8 GB"); CStr (py "8 GB")]);
         (py "SSD", Object [CStr (py "256 GB SSD"); CStr (py "512 GB SSD")]) ] |}.

(* ===================================================================== *)
(** ** The value of a float *)
(* ===================================================================== *)

(** [Fin q] stands for the binary64 nearest to [q].  Where the program
    looks at the value of a float (a comparison, a formatted text), the
    rounding is computed: round to nearest, ties to even, with the
    subnormal range and the overflow to infinity. *)
Module Binary64.

Local Open Scope Z_scope.

(** The integer nearest to [num / den], ties to even ([0 <= num], [0 < den]). *)
Definition round_half_even (num den : Z) : Z :=
  let fl := num / den in
  match 2 * (num mod den) ?= den with
  | Lt => fl
  | Gt => fl + 1
  | Eq => if Z.even fl then fl else fl + 1
  end.

(** [a / b < 2 ^ k] *)
Definition below_pow2 (a b k : Z) : bool :=
  if 0 <=? k then a <? b * 2 ^ k else a * 2 ^ (- k) <? b.

(** The integer part of the binary logarithm of [a / b] ([0 < a], [0 < b]). *)
Definition floor_log2 (a b : Z) : Z :=
  let k := Z.log2 a - Z.log2 b in
  if below_pow2 a b k then k - 1 else k.

(** The binary64 nearest to [a / b] as [m * 2 ^ e], [m] of at most 53 bits
    (one more when the rounding carries), [e] not below the subnormal
    exponent. *)
Definition nearest (a b : Z) : Z * Z :=
  let e := Z.max (floor_log2 a b - 52) (- 1074) in
  let m := if 0 <=? e then round_half_even a (b * 2 ^ e)
           else round_half_even (a * 2 ^ (- e)) b in
  (m, e).

Definition overflows (m e : Z) : bool :=
  (0 <=? e) && (2 ^ 1024 <=? m * 2 ^ e).

(** The integer nearest to [m * 2 ^ e], ties to even. *)
Definition to_integer (m e : Z) : Z :=
  if 0 <=? e then m * 2 ^ e else round_half_even m (2 ^ (- e)).

(** The integer nearest to the float that stands for [q], for [0 <= q]. *)
Definition nearest_integer (q : Q) : Z :=
  let '(m, e) := nearest (Qnum q) (Zpos (Qden q)) in to_integer m e.

(** The float that stands for [q] is finite, for [0 <= q]. *)
Definition finite (q : Q) : bool :=
  let '(m, e) := nearest (Qnum q) (Zpos (Qden q)) in negb (overflows m e).

(** The float is greater than zero. *)
Definition positive (x : pyfloat) : bool :=
  match x with
  | NaN => false
  | PosInf => true
  | NegInf => false
  | Fin q =>
    (0 <? Qnum q) && (0 <? fst (nearest (Qnum q) (Zpos (Qden q))))
  end.

End Binary64.

(* ===================================================================== *)
(** ** [rupee_formatter] *)
(* ===================================================================== *)

Module Format.

(** The decimal digits of [n] before [acc]. *)
Fixpoint decimal_from (fuel : nat) (n : N) (acc : str) : str :=
  match fuel with
  | O => acc
  | S f =>
    let acc' := (48 + n mod 10) :: acc in
    if n <? 10 then acc' else decimal_from f (n / 10) acc'
  end.

(** [str(n)]: a number has no more decimal digits than bits. *)
Definition decimal (n : N) : str :=
  decimal_from (S (N.to_nat (N.log2 n))) n [].

(** Digits, last first, with a comma after every third one that has a
    successor. *)
Fixpoint commas_rev (r : str) : str :=
  match r with
  | a :: b :: c :: ((_ :: _) as rest) => a :: b :: c :: COMMA :: commas_rev rest
  | _ => r
  end.

(** The grouping of the format option [,]. *)
Definition thousands (ds : str) : str := rev (commas_rev (rev ds)).

(** ['{:,.0f}'.format(x)] *)
Definition comma_0f (x : pyfloat) : str :=
  match x with
  | NaN => py "nan"
  | PosInf => py "inf"
  | NegInf => py "-inf"
  | Fin q =>
    let a := Z.abs (Qnum q) in
    let sign := if (Qnum q <? 0)%Z then [45] else [] in
    if (a =? 0)%Z then py "0"
    else
      let '(m, e) := Binary64.nearest a (Zpos (Qden q)) in
      if Binary64.overflows m e then sign ++ py "inf"
      else sign ++ thousands (decimal (Z.to_N (Binary64.to_integer m e)))
  end.

End Format.

(** [pos], the position of the tick, is not used. *)
Definition rupee_formatter (x : pyfloat) (pos : option nat) : str :=
  RUPEE :: Format.comma_0f x.

(* ===================================================================== *)
(** ** [create_main_visualizations]: the rows of the rating panel *)
(* ===================================================================== *)

(** The comparison of a [str] with a number raises [TypeError], which the
    cleaning never meets. *)
Inductive failure :=
| Pandas (e : pyerror)
| TypeError.

(** [Beyond]: the expression leaves the part of pandas that is modelled. *)
Inductive attempt (A : Type) :=
| Done (a : A)
| Failed (e : failure)
| Beyond.
Arguments Done {A} a.
Arguments Failed {A} e.
Arguments Beyond {A}.

(** [object > 0] on one value of an object column; [None] where Python
    raises [TypeError]. *)
Definition cell_positive (c : cell) : option bool :=
  match c with
  | CFloat x => Some (Binary64.positive x)
  | CStr _ => None
  end.

Fixpoint cells_positive (xs : list cell) : option (list bool) :=
  match xs with
  | [] => Some []
  | c :: r =>
    match cell_positive c, cells_positive r with
    | Some b, Some bs => Some (b :: bs)
    | _, _ => None
    end
  end.

(** The values of the rows that the mask keeps. *)
Fixpoint keep {A} (mask : list bool) (xs : list A) : list A :=
  match mask, xs with
  | b :: mask', x :: xs' => if b then x :: keep mask' xs' else keep mask' xs'
  | _, _ => []
  end.

Definition keep_column (mask : list bool) (c : column) : column :=
  match c with
  | Float64 xs => Float64 (keep mask xs)
  | Object xs => Object (keep mask xs)
  end.

(** [df[mask]] for a boolean Series: a new table of the rows kept. *)
Definition select_rows (d : DataFrame) (mask : list bool) : DataFrame :=
  {| nrows := List.length (List.filter (fun b => b) mask);
     columns := List.map (fun kc => (fst kc, keep_column mask (snd kc))) (columns d) |}.

(** Line 160: [rating_df = df[df['rating'] > 0]].  With several columns
    labelled [rating] the comparison gives a DataFrame and the selection is
    [DataFrame.where], which is not modelled. *)
Definition rating_df (d : DataFrame) : attempt DataFrame :=
  match getitem d (py "rating") with
  | Raised e => Failed (Pandas e)
  | Returned (Frame _) => Beyond
  | Returned (Series (Float64 xs)) =>
    Done (select_rows d (List.map Binary64.positive xs))
  | Returned (Series (Object xs)) =>
    match cells_positive xs with
    | Some mask => Done (select_rows d mask)
    | None => Failed TypeError
    end
  end.

(* ===================================================================== *)
(** ** [main] *)
(* ===================================================================== *)

Section Main.

Local Open Scope prog_scope.

Variable read_csv : str -> str + DataFrame.

(** [data_path] and [reports_dir] are the paths [data/laptop.csv] and
    [reports/images] under the directory above the one of the script. *)
Variables (data_path reports_dir : str).

(** The statistics and the charts are computed by pandas, seaborn and
    matplotlib: [perform_eda], [create_main_visualizations] and the report
    that [analyze_categories] makes of the categories once it has written
    them (its counts and its chart) are any programs here. *)
Variables (perform_eda create_main_visualizations category_report
           : loc -> str -> M unit).

Definition main : M unit :=
  print ([10] ++ py "🖥️ Análisis de Portátiles - Inicio" ++ [10]) ;;
  df <- load_data read_csv data_path ;;
  match df with
  | Some df =>
    clean_df <- clean_data df ;;
    perform_eda clean_df reports_dir ;;
    create_main_visualizations clean_df reports_dir ;;
    analyze_categories clean_df ;;
    category_report clean_df reports_dir ;;
    print ([10] ++ py "✅ Análisis completado exitosamente!")
  | None => ret tt
  end.

End Main.

(** ** Vocabulary of the further statements *)

(** A character that [str.lower()] leaves as it is wherever it stands. *)
Definition lower_stable (c : codepoint) : bool :=
  (lower_char c =? c) && negb (c =? 0x3A3) && negb (c =? 0x130).

(** The lower-case characters that an entry of [lower_table] gives. *)
Definition lower_images (r : codepoint * codepoint * codepoint * N) : list codepoint :=
  let '(lo, hi, to, step) := r in
  List.map (fun i => to + step * N.of_nat i)
           (seq 0 (S (N.to_nat ((hi - lo) / step)))).

(** Every column has one value per row. *)
Definition aligned (d : DataFrame) : Prop :=
  Forall (fun kc => List.length (cells (snd kc)) = nrows d) (columns d).

(** ** Further sample tables *)

(** A record without a model and without a [Ram] value. *)
Definition incomplete_raw : DataFrame :=
  {| nrows := 2%nat;
     columns :=
       [ (py "Model", Object [CStr (py "HP Pavilion Gaming 15"); CFloat NaN]);
         (py "Price", Object [CStr (py "₹54,999"); CStr (py "₹99,990")]);
         (py "Rating", Float64 [Fin (9 # 2); NaN]);
         (py "Ram", Object [CStr (py "8 GB"); CFloat NaN]);
         (py "SSD", Object [CStr (py "256 GB SSD"); CStr (py "512GB")]) ] |}.

Definition incomplete_world : world := {| heap := [incomplete_raw]; stdout := [] |}.

Definition incomplete_cleaned_world : world :=
  Eval vm_compute in snd (clean_data 0%nat incomplete_world).

Definition incomplete_clean : DataFrame :=
  Eval vm_compute in nth 1%nat (heap incomplete_cleaned_world) incomplete_raw.

(** Two columns whose names normalise to [brand], and two records. *)
Definition two_brands_raw : DataFrame :=
  {| nrows := 2%nat;
     columns :=
       [ (py "Model", Object [CStr (py "HP Pavilion Gaming 15"); CStr (py "Dell Inspiron")]);
         (py "Price", Object [CStr (py "₹54,999"); CStr (py "₹99,990")]);
         (py "Rating", Float64 [Fin (9 # 2); NaN]);
         (py "Ram", Object [CStr (py "8 GB"); CStr (py "8 GB")]);
         (py "SSD", Object [CStr (py "256 GB SSD"); CStr (py "512GB")]);
         (py "Brand", Object [CStr (py "a"); CStr (py "b")]);
         (py "brand", Object [CStr (py "c"); CStr (py "d")]) ] |}.

Definition two_brands_cleaned_world : world :=
  Eval vm_compute in
    snd (clean_data 0%nat {| heap := [two_brands_raw]; stdout := [] |}).

Definition two_brands_clean : DataFrame :=
  Eval vm_compute in nth 1%nat (heap two_brands_cleaned_world) two_brands_raw.

(** A rating given as a text. *)
Definition text_rating_raw : DataFrame :=
  {| nrows := 2%nat;
     columns :=
       [ (py "Model", Object [CStr (py "HP Pavilion Gaming 15"); CStr (py "Dell Inspiron")]);
         (py "Price", Object [CStr (py "₹54,999"); CStr (py "₹99,990")]);
         (py "Rating", Object [CStr (py "4.5 stars"); CFloat NaN]);
         (py "Ram", Object [CStr (py "8 GB"); CStr (py "8 GB")]);
         (py "SSD", Object [CStr (py "256 GB SSD"); CStr (py "512GB")]) ] |}.

Definition text_rating_clean : DataFrame :=
  Eval vm_compute in
    nth 1%nat (heap (snd (clean_data 0%nat {| heap := [text_rating_raw]; stdout := [] |})))
      text_rating_raw.

(* ===================================================================== *)
(** * Properties *)
(* ===================================================================== *)

Unset Implicit Arguments.
Arguments py : simpl never.

(** ** Characters and text *)

(** Decides the comparisons of a goal from the bounds in the context. *)
Ltac decide_tests :=
  repeat match goal with
  | |- context [N.eqb ?a ?b] =>
    first [ replace (N.eqb a b) with false by (symmetry; apply N.eqb_neq; lia)
          | replace (N.eqb a b) with true by (symmetry; apply N.eqb_eq; lia) ]
  | |- context [N.leb ?a ?b] =>
    first [ replace (N.leb a b) with true by (symmetry; apply N.leb_le; lia)
          | replace (N.leb a b) with false by (symmetry; apply N.leb_gt; lia) ]
  | |- context [N.ltb ?a ?b] =>
    first [ replace (N.ltb a b) with true by (symmetry; apply N.ltb_lt; lia)
          | replace (N.ltb a b) with false by (symmetry; apply N.ltb_ge; lia) ]
  end.

Lemma str_eqb_eq (a b : str) : str_eqb a b = true <-> a = b.
Proof.
  revert b; induction a as [|x a IH]; intros [|y b]; simpl;
    split; try congruence; try discriminate.
  - intros H. apply andb_true_iff in H as [H1 H2].
    apply N.eqb_eq in H1. apply IH in H2. congruence.
  - intros H. injection H as -> ->. rewrite N.eqb_refl. simpl. now apply IH.
Qed.

Lemma str_eqb_refl (a : str) : str_eqb a a = true.
Proof. now apply str_eqb_eq. Qed.

Lemma digit_zero_some (c z : codepoint) :
  digit_zero c = Some z -> In z digit_zeros /\ z <= c <= z + 9.
Proof.
  unfold digit_zero. intros H. apply find_some in H as [Hin H].
  unfold in_range in H. apply andb_true_iff in H as [H1 H2].
  apply N.leb_le in H1, H2. auto.
Qed.

(** A property that holds of the ten characters of every run holds of
    every digit. *)
Lemma digit_forall (P : codepoint -> bool) :
  forallb (fun z => forallb (fun k => P (z + k)) [0; 1; 2; 3; 4; 5; 6; 7; 8; 9])
          digit_zeros = true ->
  forall c, is_digit c = true -> P c = true.
Proof.
  intros H c Hc. unfold is_digit in Hc.
  destruct (digit_zero c) as [z|] eqn:E; [|discriminate].
  apply digit_zero_some in E as [Hin [H1 H2]].
  rewrite forallb_forall in H. specialize (H z Hin).
  rewrite forallb_forall in H.
  assert (K : In (c - z) [0; 1; 2; 3; 4; 5; 6; 7; 8; 9]).
  { cbn [In]. lia. }
  specialize (H _ K). now replace (z + (c - z)) with c in H by lia.
Qed.

Lemma is_digit_bounds (c : codepoint) :
  is_digit c = true -> 48 <= c <= 57 \/ 0x660 <= c.
Proof.
  intros H.
  apply (digit_forall (fun c => in_range 48 57 c || (0x660 <=? c))) in H;
    [|vm_compute; reflexivity].
  apply orb_true_iff in H as [H|H].
  - left. unfold in_range in H. apply andb_true_iff in H as [H1 H2].
    apply N.leb_le in H1, H2. auto.
  - right. now apply N.leb_le.
Qed.

Lemma is_digit_ascii (c : codepoint) :
  48 <= c <= 57 -> is_digit c = true /\ digit_val c = c - 48.
Proof.
  intros [H1 H2]. unfold is_digit, digit_val, digit_zero, digit_zeros.
  cbn [List.find]. unfold in_range.
  replace (48 <=? c) with true by (symmetry; apply N.leb_le; lia).
  replace (c <=? 48 + 9) with true by (symmetry; apply N.leb_le; lia).
  split; reflexivity.
Qed.

Lemma digit_val_bound (c : codepoint) : digit_val c < 10.
Proof.
  unfold digit_val. destruct (digit_zero c) as [z|] eqn:E; [|lia].
  apply digit_zero_some in E. lia.
Qed.

Lemma digit_not_float_space (c : codepoint) :
  is_digit c = true -> is_float_space c = false.
Proof.
  intros H. apply negb_true_iff.
  revert c H. apply digit_forall. vm_compute. reflexivity.
Qed.

Lemma digit_ascii_lower (c : codepoint) : is_digit c = true -> ascii_lower c = c.
Proof.
  intros H. apply is_digit_bounds in H.
  unfold ascii_lower, is_ascii_upper, in_range.
  destruct H as [H|H]; decide_tests; reflexivity.
Qed.

(** A digit is none of the characters of the grammar of [float()], nor the
    rupee sign. *)
Lemma digit_not_char (c k : codepoint) :
  is_digit c = true -> is_digit k = false -> c <> k.
Proof. intros H K ->. congruence. Qed.

Lemma drop_while_head (p : codepoint -> bool) (c : codepoint) (s : str) :
  p c = false -> drop_while p (c :: s) = c :: s.
Proof. intros H. simpl. now rewrite H. Qed.

Lemma take_while_all (p : codepoint -> bool) (s : str) :
  forallb p s = true -> take_while p s = s.
Proof.
  induction s as [|c s IH]; simpl; intros H; [reflexivity|].
  apply andb_true_iff in H as [Hc Hs]. rewrite Hc. f_equal. auto.
Qed.

Lemma drop_while_all (p : codepoint -> bool) (s : str) :
  forallb p s = true -> drop_while p s = [].
Proof.
  induction s as [|c s IH]; simpl; intros H; [reflexivity|].
  apply andb_true_iff in H as [Hc Hs]. rewrite Hc. auto.
Qed.

Lemma take_drop_while (p : codepoint -> bool) (s : str) :
  take_while p s ++ drop_while p s = s.
Proof.
  induction s as [|c s IH]; simpl; [reflexivity|].
  destruct (p c); simpl; congruence.
Qed.

Lemma take_while_forallb (p : codepoint -> bool) (s : str) :
  forallb p (take_while p s) = true.
Proof.
  induction s as [|c s IH]; simpl; [reflexivity|].
  destruct (p c) eqn:E; simpl; [now rewrite E|reflexivity].
Qed.

Lemma drop_while_stops (p : codepoint -> bool) (s : str) :
  match drop_while p s with [] => True | c :: _ => p c = false end.
Proof.
  induction s as [|c s IH]; simpl; [exact I|].
  destruct (p c) eqn:E; [exact IH|exact E].
Qed.

Lemma drop_while_nil_iff (p : codepoint -> bool) (s : str) :
  drop_while p s = [] <-> forallb p s = true.
Proof.
  split; [|apply drop_while_all].
  induction s as [|c s IH]; simpl; [reflexivity|].
  destruct (p c); [exact IH|discriminate].
Qed.

(** ** [float()] on a run of digits *)

Lemma strip_digits (ds : str) :
  forallb is_digit ds = true -> strip ds = ds.
Proof.
  intros H. unfold strip.
  assert (E1 : drop_while is_float_space ds = ds).
  { destruct ds as [|c r]; [reflexivity|]. simpl in H.
    apply andb_true_iff in H as [Hc _].
    apply drop_while_head, digit_not_float_space, Hc. }
  rewrite E1.
  assert (Hr : forallb is_digit (rev ds) = true).
  { rewrite forallb_forall in *. intros x Hx. apply H, in_rev, Hx. }
  destruct (rev ds) as [|c r] eqn:E.
  - simpl. rewrite <- (rev_involutive ds), E. reflexivity.
  - simpl in Hr. apply andb_true_iff in Hr as [Hc _].
    rewrite drop_while_head by (apply digit_not_float_space, Hc).
    rewrite <- E. apply rev_involutive.
Qed.

Lemma underscores_ok_digits (ds : str) (prev : codepoint) :
  prev <> 95 -> forallb is_digit ds = true -> underscores_ok prev ds = true.
Proof.
  revert prev; induction ds as [|c r IH]; simpl; intros prev Hp H.
  - apply negb_true_iff, N.eqb_neq, Hp.
  - apply andb_true_iff in H as [Hc Hr]. rewrite Hc.
    pose proof (is_digit_bounds c Hc) as Hb.
    replace (c =? 95) with false by (symmetry; apply N.eqb_neq; lia).
    rewrite orb_true_r. simpl. apply IH; [lia|exact Hr].
Qed.

Lemma remove_underscores_digits (ds : str) :
  forallb is_digit ds = true -> remove_underscores ds = ds.
Proof.
  induction ds as [|c r IH]; simpl; intros H; [reflexivity|].
  apply andb_true_iff in H as [Hc Hr].
  pose proof (is_digit_bounds c Hc) as Hb.
  replace (c =? 95) with false by (symmetry; apply N.eqb_neq; lia).
  simpl. f_equal. apply IH, Hr.
Qed.

(** [float()] of a non-empty run of digits is the number the digits write. *)
Lemma py_float_digits (ds : str) :
  ds <> [] -> forallb is_digit ds = true ->
  py_float ds = Some (Fin (inject_Z (Z.of_N (digits_value ds)))).
Proof.
  intros Hne H. unfold py_float.
  rewrite (strip_digits _ H), (underscores_ok_digits _ 0) by (auto; lia).
  rewrite (remove_underscores_digits _ H).
  destruct ds as [|c r]; [contradiction|].
  pose proof H as H'. simpl in H'. apply andb_true_iff in H' as [Hc Hr].
  pose proof (is_digit_bounds c Hc) as Hb.
  assert (Es : parse_sign (c :: r) = (false, c :: r)).
  { unfold parse_sign. decide_tests. reflexivity. }
  rewrite Es.
  assert (Ei : parse_inf_or_nan false (c :: r) = None).
  { unfold parse_inf_or_nan, lower. simpl List.map.
    rewrite (digit_ascii_lower _ Hc). unfold py.
    cbn. decide_tests. reflexivity. }
  rewrite Ei. unfold parse_number, span_digits.
  rewrite (take_while_all _ _ H), (drop_while_all _ _ H).
  rewrite app_nil_r. cbn [parse_exponent List.length].
  unfold dec_value. cbn [Z.leb Z.of_nat Z.sub Z.opp Z.add Z.compare].
  rewrite Z.pow_0_r, Z.mul_1_r. reflexivity.
Qed.

(** ** The digit run found by [(\d+)] *)

Lemma search_digits_some (s d : str) :
  search_digits s = Some d -> d <> [] /\ forallb is_digit d = true.
Proof.
  unfold search_digits.
  pose proof (drop_while_stops (fun c => negb (is_digit c)) s) as Hs.
  destruct (drop_while (fun c => negb (is_digit c)) s) as [|c r]; [discriminate|].
  intros [= <-]. apply negb_false_iff in Hs. split.
  - simpl. rewrite Hs. discriminate.
  - exact (take_while_forallb is_digit (c :: r)).
Qed.

Lemma not_digit_all (s : str) :
  existsb is_digit s = false <-> forallb (fun c => negb (is_digit c)) s = true.
Proof.
  induction s as [|c s IH]; simpl; [tauto|].
  rewrite orb_false_iff, andb_true_iff, negb_true_iff. tauto.
Qed.

Lemma search_digits_none (s : str) :
  existsb is_digit s = false -> search_digits s = None.
Proof.
  intros H. unfold search_digits.
  now rewrite (drop_while_all _ _ (proj1 (not_digit_all s) H)).
Qed.

(** The match of [(\d+)] is the first maximal run of digits. *)
Lemma search_digits_first_run (s : str) :
  existsb is_digit s = true ->
  exists pre run post,
    s = pre ++ run ++ post
    /\ forallb (fun c => negb (is_digit c)) pre = true
    /\ run <> [] /\ forallb is_digit run = true
    /\ match post with [] => True | c :: _ => is_digit c = false end
    /\ search_digits s = Some run.
Proof.
  intros H.
  set (nd := fun c => negb (is_digit c)).
  exists (take_while nd s), (take_while is_digit (drop_while nd s)),
         (drop_while is_digit (drop_while nd s)).
  assert (Hrest : drop_while nd s <> []).
  { intros E. apply drop_while_nil_iff in E. apply not_digit_all in E. congruence. }
  assert (Hs : search_digits s = Some (take_while is_digit (drop_while nd s))).
  { unfold search_digits. fold nd. destruct (drop_while nd s); [contradiction|reflexivity]. }
  destruct (search_digits_some _ _ Hs) as [Hne Hall].
  repeat split; auto.
  - now rewrite !take_drop_while.
  - apply take_while_forallb.
  - apply drop_while_stops.
Qed.

(** ** The first token of [str.split()] *)






(** ** Columns by label *)

Lemma assign_frame_map (key : str) (f : column -> column) (cols : list (str * column)) :
  assign_frame key (List.map f (List.map snd (List.filter (has_label key) cols))) cols
  = map_label key f cols.
Proof.
  induction cols as [|kc r IH]; simpl; [reflexivity|].
  destruct (has_label key kc) eqn:E; simpl; now rewrite IH.
Qed.

Lemma assign_frame_labels (key : str) (vs : list column) (cols : list (str * column)) :
  List.map fst (assign_frame key vs cols) = List.map fst cols.
Proof.
  revert vs; induction cols as [|kc r IH]; intros vs; [reflexivity|].
  cbn [assign_frame]. destruct (has_label key kc); [destruct vs|];
    cbn [List.map fst]; now rewrite IH.
Qed.

Lemma assign_frame_labelled (key : str) (vs : list column) (cols : list (str * column)) :
  List.length vs = List.length (List.filter (has_label key) cols) ->
  List.map snd (List.filter (has_label key) (assign_frame key vs cols)) = vs.
Proof.
  revert vs; induction cols as [|kc r IH]; intros vs H.
  - destruct vs; [reflexivity|discriminate].
  - cbn [assign_frame List.filter] in *. destruct (has_label key kc) eqn:E.
    + destruct vs as [|v vs]; [discriminate|]. cbn [List.length] in H.
      cbn [List.filter]. unfold has_label at 1. cbn [fst].
      unfold has_label in E. rewrite E. cbn [List.map snd]. f_equal.
      apply IH. now injection H.
    + cbn [List.filter]. rewrite E. now apply IH.
Qed.

Lemma assign_frame_other (key key' : str) (vs : list column) (cols : list (str * column)) :
  str_eqb key key' = false ->
  List.filter (has_label key') (assign_frame key vs cols)
  = List.filter (has_label key') cols.
Proof.
  intros Hne. revert vs; induction cols as [|[k c] r IH]; intros vs; [reflexivity|].
  cbn [assign_frame]. destruct (has_label key (k, c)) eqn:E.
  - assert (K : forall x : column, has_label key' (k, x) = false).
    { intros x. unfold has_label in *. cbn [fst] in *.
      apply str_eqb_eq in E. now subst k. }
    destruct vs as [|v vs]; cbn [List.filter fst]; rewrite !K; apply IH.
  - cbn [List.filter]. now rewrite IH.
Qed.

Lemma assign_frame_nth_other (key : str) (vs : list column) (cols : list (str * column))
    (j : nat) (k : str) (c : column) :
  nth_error cols j = Some (k, c) -> str_eqb k key = false ->
  nth_error (assign_frame key vs cols) j = Some (k, c).
Proof.
  revert vs j; induction cols as [|kc r IH]; intros vs j Hj Hk;
    [destruct j; discriminate|].
  cbn [assign_frame]. destruct j as [|j]; cbn [nth_error] in *.
  - injection Hj as ->. unfold has_label. cbn [fst]. now rewrite Hk.
  - destruct (has_label key kc); [destruct vs|]; cbn [nth_error]; now apply IH.
Qed.

Lemma assign_frame_Forall (P : column -> Prop) (key : str) (vs : list column)
    (cols : list (str * column)) :
  Forall (fun kc => P (snd kc)) cols -> Forall P vs ->
  Forall (fun kc => P (snd kc)) (assign_frame key vs cols).
Proof.
  intros H. revert vs; induction H as [|kc r Hkc Hr IH]; intros vs Hv;
    [constructor|].
  cbn [assign_frame]. destruct (has_label key kc).
  - destruct vs as [|v vs].
    + constructor; [exact Hkc|now apply IH].
    + inversion Hv; subst. constructor; [assumption|now apply IH].
  - constructor; [exact Hkc|now apply IH].
Qed.

Lemma assign_frame_map_label (key : str) (f : column -> column) (vs : list column)
    (cols : list (str * column)) :
  List.length vs = List.length (List.filter (has_label key) cols) ->
  map_label key f (assign_frame key vs cols) = assign_frame key (List.map f vs) cols.
Proof.
  unfold map_label.
  revert vs; induction cols as [|[k c] r IH]; intros vs H; [reflexivity|].
  cbn [assign_frame List.filter] in *. destruct (has_label key (k, c)) eqn:E.
  - destruct vs as [|v vs]; [discriminate|]. cbn [List.map List.length fst] in *.
    replace (has_label key (k, v)) with true by (symmetry; exact E).
    cbn [fst snd]. f_equal. apply IH. now injection H.
  - cbn [List.map]. rewrite E. f_equal. now apply IH.
Qed.

Lemma map_label_ext (key : str) (f g : column -> column) (cols : list (str * column)) :
  (forall c, In c (List.map snd (List.filter (has_label key) cols)) -> f c = g c) ->
  map_label key f cols = map_label key g cols.
Proof.
  induction cols as [|kc r IH]; simpl; intros H; [reflexivity|].
  destruct (has_label key kc) eqn:E.
  - simpl in H. rewrite (H (snd kc)) by now left.
    f_equal. apply IH. intros c Hc. apply H. now right.
  - f_equal. apply IH, H.
Qed.

Lemma labelled_exists (key : str) (cols : list (str * column)) :
  existsb (has_label key) cols = true
  <-> List.map snd (List.filter (has_label key) cols) <> [].
Proof.
  induction cols as [|kc r IH]; simpl; [split; [discriminate|congruence]|].
  destruct (has_label key kc); simpl; [split; [discriminate|reflexivity]|exact IH].
Qed.

Lemma setitem_frame_map (d : DataFrame) (key : str) (f : column -> column) :
  setitem d key (Frame (List.map f (labelled key d)))
  = Returned {| nrows := nrows d; columns := map_label key f (columns d) |}.
Proof.
  unfold setitem, labelled. rewrite !length_map, Nat.eqb_refl.
  now rewrite assign_frame_map.
Qed.

Lemma setitem_series_present (d : DataFrame) (key : str) (c : column) :
  List.length (labelled key d) = 1%nat ->
  setitem d key (Series c)
  = Returned {| nrows := nrows d; columns := map_label key (fun _ => c) (columns d) |}.
Proof.
  intros H. unfold setitem. rewrite H. cbn [Nat.ltb Nat.leb andb].
  assert (E : labelled key d <> []) by (intros E; now rewrite E in H).
  apply labelled_exists in E. now rewrite E.
Qed.

(** Values written by a string method are strings or missing: the accessor
    takes them. *)
Lemma str_like_replace (old : codepoint) (new : str) (xs : list cell) :
  str_like (str_replace old new xs) = true.
Proof.
  unfold str_like, str_replace, str_map.
  induction xs as [|c r IH]; [reflexivity|].
  destruct c; simpl in *; [reflexivity|exact IH].
Qed.

Lemma labelled_map_label_same (key : str) (f : column -> column)
    (cols : list (str * column)) :
  List.map snd (List.filter (has_label key) (map_label key f cols))
  = List.map f (List.map snd (List.filter (has_label key) cols)).
Proof.
  induction cols as [|[k c] r IH]; [reflexivity|].
  unfold map_label in *. cbn [List.map]. unfold has_label in *. cbn [fst snd].
  destruct (str_eqb k key) eqn:E; cbn [List.filter fst snd]; rewrite E.
  - cbn [List.map snd]. now rewrite IH.
  - exact IH.
Qed.

Lemma labelled_map_label_other (key key' : str) (f : column -> column)
    (cols : list (str * column)) :
  str_eqb key' key = false ->
  List.map snd (List.filter (has_label key) (map_label key' f cols))
  = List.map snd (List.filter (has_label key) cols).
Proof.
  intros Hne. induction cols as [|[k c] r IH]; [reflexivity|].
  unfold map_label in *. cbn [List.map]. unfold has_label in *. cbn [fst snd].
  destruct (str_eqb k key') eqn:E; cbn [List.filter fst snd].
  - apply str_eqb_eq in E. subst k. rewrite Hne. exact IH.
  - destruct (str_eqb k key); cbn [List.map snd]; now rewrite IH.
Qed.

Lemma labelled_rename_map_label (key key' : str) (f : column -> column)
    (cols : list (str * column)) :
  str_eqb (normalize key') key = false ->
  List.map snd (List.filter (has_label key)
    (List.map (fun kc => (normalize (fst kc), snd kc)) (map_label key' f cols)))
  = List.map snd (List.filter (has_label key)
    (List.map (fun kc => (normalize (fst kc), snd kc)) cols)).
Proof.
  intros Hne. induction cols as [|[k c] r IH]; [reflexivity|].
  unfold map_label in *. cbn [List.map]. unfold has_label in *. cbn [fst snd].
  destruct (str_eqb k key') eqn:E; cbn [List.filter fst snd].
  - apply str_eqb_eq in E. subst k. rewrite Hne. exact IH.
  - destruct (str_eqb (normalize k) key); cbn [List.map snd]; now rewrite IH.
Qed.

Lemma map_label_absent (key : str) (f : column -> column) (cols : list (str * column)) :
  existsb (has_label key) cols = false -> map_label key f cols = cols.
Proof.
  induction cols as [|kc r IH]; simpl; [reflexivity|].
  intros H. apply orb_false_iff in H as [H1 H2]. rewrite H1. f_equal. auto.
Qed.

Lemma map_label_twice (key : str) (f g : column -> column) (cols : list (str * column)) :
  map_label key g (map_label key f cols) = map_label key (fun c => g (f c)) cols.
Proof.
  induction cols as [|[k c] r IH]; [reflexivity|].
  unfold map_label in *. cbn [List.map]. rewrite IH. f_equal.
  unfold has_label. cbn [fst snd].
  destruct (str_eqb k key) eqn:E; cbn [fst snd]; now rewrite E.
Qed.

(** ** The steps, one by one *)

(** The conversion of the memory columns raises nothing. *)
Lemma extract_cells_total (xs : list cell) :
  extract_cells xs = Returned (List.map extract_value xs).
Proof.
  unfold extract_cells, str_extract_digits, str_map.
  induction xs as [|c r IH]; [reflexivity|].
  cbn [List.map astype_float]. assert (E : float_of_cell
      match c with
      | CStr s => match search_digits s with
                  | Some d => CStr d
                  | None => CFloat NaN
                  end
      | CFloat _ => CFloat NaN
      end = Returned (extract_value c)).
  { destruct c as [s|x]; [|reflexivity]. simpl.
    destruct (search_digits s) as [d|] eqn:Ed; [|reflexivity].
    destruct (search_digits_some _ _ Ed) as [Hne Hall].
    simpl. now rewrite (py_float_digits _ Hne Hall). }
  rewrite E, IH. reflexivity.
Qed.

Lemma price_step (d : DataFrame) :
  step (py "Price") price_expr d =
  match labelled (py "Price") d with
  | [] => Raised (KeyError (py "Price"))
  | [Object xp] =>
    if str_like xp then
      match price_cells xp with
      | Returned zp =>
        Returned {| nrows := nrows d;
                    columns := map_label (py "Price") (fun _ => Float64 zp) (columns d) |}
      | Raised e => Raised e
      end
    else Raised AttributeError
  | _ => Raised AttributeError
  end.
Proof.
  unfold step, price_expr, getitem.
  destruct (labelled (py "Price") d) as [|c [|c2 r]] eqn:E;
    [reflexivity| |destruct c; reflexivity].
  destruct c as [zs|xp]; [reflexivity|]. cbn [obind str_accessor].
  destruct (str_like xp); [|reflexivity]. cbn [obind].
  rewrite str_like_replace. cbn [obind].
  fold (price_cells xp).
  destruct (price_cells xp) as [zp|e]; [|reflexivity]. cbn [obind].
  apply setitem_series_present. rewrite E. reflexivity.
Qed.

Lemma extract_step (col : str) (d : DataFrame) :
  step col (extract_expr col) d =
  match labelled col d with
  | [] => Raised (KeyError col)
  | [Object xs] =>
    if str_like xs then
      Returned {| nrows := nrows d;
                  columns := map_label col
                    (fun _ => Float64 (List.map extract_value xs)) (columns d) |}
    else Raised AttributeError
  | _ => Raised AttributeError
  end.
Proof.
  unfold step, extract_expr, getitem.
  destruct (labelled col d) as [|c [|c2 r]] eqn:E;
    [reflexivity| |destruct c; reflexivity].
  destruct c as [zs|xs]; [reflexivity|]. cbn [obind str_accessor].
  destruct (str_like xs); [|reflexivity]. cbn [obind].
  fold (extract_cells xs). rewrite extract_cells_total. cbn [obind].
  replace [Float64 (List.map extract_value xs)]
    with (List.map (fun _ : column => Float64 (List.map extract_value xs)) (labelled col d))
    by (rewrite E; reflexivity).
  apply setitem_frame_map.
Qed.

Lemma rating_step (d : DataFrame) :
  step (py "rating") rating_expr d =
  match labelled (py "rating") d with
  | [] => Raised (KeyError (py "rating"))
  | _ => Returned {| nrows := nrows d;
                     columns := map_label (py "rating") fillna0 (columns d) |}
  end.
Proof.
  unfold step, rating_expr, getitem.
  destruct (labelled (py "rating") d) as [|c [|c2 r]] eqn:E; [reflexivity| |].
  - cbn [obind fillna0_sel]. rewrite setitem_series_present by (rewrite E; reflexivity).
    do 2 f_equal. apply map_label_ext. fold (labelled (py "rating") d).
    rewrite E. intros c' [<-|[]]. reflexivity.
  - cbn [obind fillna0_sel]. rewrite <- E. apply setitem_frame_map.
Qed.

Lemma brand_step (d : DataFrame) :
  step (py "brand") brand_expr d =
  match labelled (py "model") d with
  | [] => Raised (KeyError (py "model"))
  | [Object xm] =>
    if str_like xm
    then setitem d (py "brand") (Series (Object (str_get0 (str_split xm))))
    else Raised AttributeError
  | _ => Raised AttributeError
  end.
Proof.
  unfold step, brand_expr, getitem.
  destruct (labelled (py "model") d) as [|c [|c2 r]] eqn:E;
    [reflexivity| |destruct c; reflexivity].
  destruct c as [zs|xm]; [reflexivity|]. cbn [obind str_accessor].
  destruct (str_like xm); reflexivity.
Qed.

Lemma brand_canon_step (d : DataFrame) :
  labelled (py "brand") d <> [] ->
  step (py "brand") brand_canon_expr d =
  Returned {| nrows := nrows d;
              columns := map_label (py "brand") (replace_column brand_mapping) (columns d) |}.
Proof.
  intros H. unfold step, brand_canon_expr, getitem.
  destruct (labelled (py "brand") d) as [|c [|c2 r]] eqn:E; [contradiction| |].
  - cbn [obind]. rewrite setitem_series_present by (rewrite E; reflexivity).
    do 2 f_equal. apply map_label_ext. fold (labelled (py "brand") d).
    rewrite E. intros c' [<-|[]]. reflexivity.
  - cbn [obind]. rewrite <- E. apply setitem_frame_map.
Qed.

(** ** [clean_data] as a whole *)

Lemma mid_columns (zp zr zs : list pyfloat) (cols : list (str * column)) :
  map_label (py "rating") fillna0
    (List.map (fun kc => (normalize (fst kc), snd kc))
      (map_label (py "SSD") (fun _ => Float64 zs)
        (map_label (py "Ram") (fun _ => Float64 zr)
          (map_label (py "Price") (fun _ => Float64 zp) cols))))
  = List.map (fun kc => (normalize (fst kc),
                         cleaned_column zp zr zs (fst kc) (snd kc))) cols.
Proof.
  unfold map_label. rewrite !map_map. apply map_ext. intros [k c].
  unfold has_label, cleaned_column. cbn [fst snd].
  destruct (str_eqb k (py "Price")) eqn:E1;
    [apply str_eqb_eq in E1; subst k; reflexivity|].
  cbn [fst snd].
  destruct (str_eqb k (py "Ram")) eqn:E2;
    [apply str_eqb_eq in E2; subst k; reflexivity|].
  cbn [fst snd].
  destruct (str_eqb k (py "SSD")) eqn:E3;
    [apply str_eqb_eq in E3; subst k; reflexivity|].
  cbn [fst snd].
  destruct (str_eqb (normalize k) (py "rating")); reflexivity.
Qed.

(** Looks a label up after the steps that do not touch it. *)
Ltac at_label :=
  unfold labelled, normalize_columns; cbn [columns];
  rewrite ?labelled_map_label_other by reflexivity;
  rewrite ?labelled_rename_map_label by reflexivity.

Lemma replace_broadcast (n : nat) (ys : list cell) :
  List.map (replace_column brand_mapping) (List.map (broadcast n) ys)
  = List.map (broadcast n) (replace_values brand_mapping ys).
Proof.
  unfold replace_values. rewrite !map_map. apply map_ext. intros [t|x]; [|reflexivity].
  cbn [broadcast replace_column]. unfold replace_values. rewrite map_repeat.
  now destruct (lookup t brand_mapping).
Qed.

Lemma brand_written (d : DataFrame) (ys : list cell) :
  (v <~ setitem d (py "brand") (Series (Object ys)) ;;
   step (py "brand") brand_canon_expr v)%outcome
  = Returned {| nrows := nrows d;
                columns := set_brand (nrows d)
                             (replace_column brand_mapping (Object ys)) (columns d) |}.
Proof.
  unfold setitem, set_brand, set_column, one_value_per_column, labelled.
  cbn [cells replace_column]. unfold replace_values at 1. rewrite !length_map.
  destruct (Nat.ltb 1 _ && Nat.eqb _ (List.length ys)) eqn:Q; cbn [obind].
  - apply andb_true_iff in Q as [Q1 Q2].
    apply Nat.ltb_lt in Q1. apply Nat.eqb_eq in Q2.
    assert (L : List.length (List.map (broadcast (nrows d)) ys)
                = List.length (List.filter (has_label (py "brand")) (columns d)))
      by (now rewrite length_map).
    rewrite brand_canon_step.
    + cbn [nrows columns]. rewrite (assign_frame_map_label _ _ _ _ L).
      now rewrite replace_broadcast.
    + unfold labelled. cbn [columns]. rewrite (assign_frame_labelled _ _ _ L).
      destruct ys; [cbn in Q2; lia|discriminate].
  - unfold set_series.
    destruct (existsb (has_label (py "brand")) (columns d)) eqn:EB; cbn [obind].
    + rewrite brand_canon_step.
      * cbn [nrows columns]. fold (map_label (py "brand") (fun _ => Object ys) (columns d)).
        now rewrite map_label_twice.
      * unfold labelled. cbn [columns].
        fold (map_label (py "brand") (fun _ => Object ys) (columns d)).
        rewrite labelled_map_label_same. apply labelled_exists in EB.
        destruct (List.map snd (List.filter (has_label (py "brand")) (columns d)));
          [contradiction|discriminate].
    + rewrite brand_canon_step.
      * cbn [nrows columns]. unfold map_label. rewrite map_app.
        fold (map_label (py "brand") (replace_column brand_mapping) (columns d)).
        rewrite (map_label_absent _ _ _ EB). reflexivity.
      * unfold labelled. cbn [columns]. rewrite filter_app, map_app.
        intros H. apply app_eq_nil in H as [_ H]. discriminate.
Qed.

Lemma clean_steps_accepted (d : DataFrame) (zp : list pyfloat) (xr xs xm : list cell) :
  accepted d zp xr xs xm ->
  clean_steps d
  = Returned {| nrows := nrows d;
                columns := cleaned_columns (nrows d) zp (List.map extract_value xr)
                             (List.map extract_value xs) xm (columns d) |}.
Proof.
  intros (xp & EP & LP & PP & ER & LR & ES & LS & ERt & EM & LM).
  unfold clean_steps.
  rewrite price_step, EP, LP, PP. cbn [obind].
  rewrite extract_step.
  replace (labelled (py "Ram") _) with [Object xr] by (at_label; symmetry; exact ER).
  rewrite LR. cbn [obind nrows columns].
  rewrite extract_step.
  replace (labelled (py "SSD") _) with [Object xs] by (at_label; symmetry; exact ES).
  rewrite LS. cbn [obind nrows columns].
  rewrite rating_step.
  match goal with |- context [labelled (py "rating") ?x] =>
    replace (labelled (py "rating") x) with (labelled (py "rating") (normalize_columns d))
      by (at_label; reflexivity) end.
  destruct (labelled (py "rating") (normalize_columns d)) as [|c0 r0] eqn:ERt';
    [contradiction|]. cbn [obind].
  rewrite brand_step.
  match goal with |- context [labelled (py "model") ?x] =>
    replace (labelled (py "model") x) with [Object xm]
      by (at_label; symmetry; exact EM) end.
  rewrite LM.
  unfold normalize_columns. cbn [nrows columns].
  rewrite mid_columns.
  match goal with |- context [setitem ?x _ _] =>
    pose proof (brand_written x (str_get0 (str_split xm))) as B end.
  cbn [obind] in B.
  destruct (setitem _ (py "brand") _) as [d6|e]; [|discriminate].
  rewrite B. reflexivity.
Qed.

Lemma clean_steps_returned (d d' : DataFrame) :
  clean_steps d = Returned d' ->
  exists zp xr xs xm,
    accepted d zp xr xs xm
    /\ d' = {| nrows := nrows d;
               columns := cleaned_columns (nrows d) zp (List.map extract_value xr)
                            (List.map extract_value xs) xm (columns d) |}.
Proof.
  intros H0. pose proof H0 as H. unfold clean_steps in H.
  rewrite price_step in H.
  destruct (labelled (py "Price") d) as [|[z|xp] [|c2 r2]] eqn:EP;
    cbn [obind] in H; try discriminate H.
  destruct (str_like xp) eqn:LP; cbn [obind] in H; try discriminate H.
  destruct (price_cells xp) as [zp|e] eqn:PP; cbn [obind] in H; try discriminate H.
  rewrite extract_step in H.
  match type of H with context [labelled (py "Ram") ?x] =>
    replace (labelled (py "Ram") x) with (labelled (py "Ram") d) in H
      by (at_label; reflexivity) end.
  destruct (labelled (py "Ram") d) as [|[z|xr] [|c3 r3]] eqn:ER;
    cbn [obind] in H; try discriminate H.
  destruct (str_like xr) eqn:LR; cbn [obind nrows columns] in H; try discriminate H.
  rewrite extract_step in H.
  match type of H with context [labelled (py "SSD") ?x] =>
    replace (labelled (py "SSD") x) with (labelled (py "SSD") d) in H
      by (at_label; reflexivity) end.
  destruct (labelled (py "SSD") d) as [|[z|xs] [|c4 r4]] eqn:ES;
    cbn [obind] in H; try discriminate H.
  destruct (str_like xs) eqn:LS; cbn [obind nrows columns] in H; try discriminate H.
  rewrite rating_step in H.
  match type of H with context [labelled (py "rating") ?x] =>
    replace (labelled (py "rating") x) with (labelled (py "rating") (normalize_columns d)) in H
      by (at_label; reflexivity) end.
  destruct (labelled (py "rating") (normalize_columns d)) as [|c0 r0] eqn:ERt;
    cbn [obind] in H; try discriminate H.
  rewrite brand_step in H.
  match type of H with context [labelled (py "model") ?x] =>
    replace (labelled (py "model") x) with (labelled (py "model") (normalize_columns d)) in H
      by (at_label; reflexivity) end.
  destruct (labelled (py "model") (normalize_columns d)) as [|[z|xm] [|c5 r5]] eqn:EM;
    cbn [obind] in H; try discriminate H.
  destruct (str_like xm) eqn:LM; cbn [obind] in H; try discriminate H.
  assert (A : accepted d zp xr xs xm).
  { exists xp. rewrite ERt. repeat split; auto. discriminate. }
  exists zp, xr, xs, xm. split; [exact A|].
  rewrite (clean_steps_accepted _ _ _ _ _ A) in H0. now injection H0.
Qed.

(** ** From the steps to the program *)

Lemma nth_error_last {A} (h : list A) (x : A) :
  nth_error (h ++ [x]) (List.length h) = Some x.
Proof. rewrite nth_error_app2, Nat.sub_diag by lia. reflexivity. Qed.

Lemma update_last {A} (h : list A) (x y : A) :
  update (List.length h) y (h ++ [x]) = h ++ [y].
Proof. induction h as [|a h IH]; simpl; [reflexivity|now rewrite IH]. Qed.

Lemma update_other {A} (h : list A) (l l' : nat) (y : A) :
  l <> l' -> nth_error (update l' y h) l = nth_error h l.
Proof.
  revert l l'; induction h as [|a h IH]; intros l l' Hne; [now destruct l'|].
  destruct l', l; simpl; try reflexivity; try congruence.
  apply IH. congruence.
Qed.

Lemma update_same {A} (h : list A) (l : nat) (x y : A) :
  nth_error h l = Some x -> nth_error (update l y h) l = Some y.
Proof.
  revert l; induction h as [|a h IH]; intros l H; [now destruct l|].
  destruct l; simpl in *; [reflexivity|auto].
Qed.

(** An assignment to the newest object. *)
Lemma assign_last (h : list DataFrame) (out : list str) (dk : DataFrame)
    (key : str) (rhs : DataFrame -> outcome selection) :
  assign (List.length h) key rhs {| heap := h ++ [dk]; stdout := out |}
  = match step key rhs dk with
    | Returned d' => (Returned tt, {| heap := h ++ [d']; stdout := out |})
    | Raised e => (Raised e, {| heap := h ++ [dk]; stdout := out |})
    end.
Proof.
  unfold assign, bind, deref, lift, store, step. cbn [heap stdout].
  rewrite nth_error_last.
  destruct (rhs dk) as [v|e]; cbn [obind]; [|reflexivity].
  destruct (setitem dk key v) as [d'|e]; [|reflexivity].
  cbn [heap stdout]. now rewrite update_last.
Qed.

Lemma bind_assoc {A B C} (c : M A) (k1 : A -> M B) (k2 : B -> M C) (w : world) :
  bind (bind c k1) k2 w = bind c (fun x => bind (k1 x) k2) w.
Proof. unfold bind. destruct (c w) as [[a|e] w']; reflexivity. Qed.

Lemma bind_ret {A B} (a : A) (k : A -> M B) (w : world) :
  bind (ret a) k w = k a w.
Proof. reflexivity. Qed.

Lemma bind_deref {A} (l : loc) (d : DataFrame) (k : DataFrame -> M A) (w : world) :
  holds w l d -> bind (deref l) k w = k d w.
Proof. unfold holds, bind, deref. now intros ->. Qed.

Lemma bind_alloc {A} (d : DataFrame) (k : loc -> M A) (w : world) :
  bind (alloc d) k w
  = k (List.length (heap w)) {| heap := heap w ++ [d]; stdout := stdout w |}.
Proof. reflexivity. Qed.

Lemma bind_print {A} (line : str) (k : unit -> M A) (w : world) :
  bind (print line) k w = k tt {| heap := heap w; stdout := stdout w ++ [line] |}.
Proof. reflexivity. Qed.

Lemma bind_deref_last {A} (h : list DataFrame) (out : list str) (dk : DataFrame)
    (k : DataFrame -> M A) :
  bind (deref (List.length h)) k {| heap := h ++ [dk]; stdout := out |}
  = k dk {| heap := h ++ [dk]; stdout := out |}.
Proof. apply bind_deref. apply nth_error_last. Qed.

Lemma bind_store_last {A} (h : list DataFrame) (out : list str) (dk d' : DataFrame)
    (k : unit -> M A) :
  bind (store (List.length h) d') k {| heap := h ++ [dk]; stdout := out |}
  = k tt {| heap := h ++ [d']; stdout := out |}.
Proof. unfold bind, store. cbn [heap stdout]. now rewrite update_last. Qed.

Lemma bind_assign_last {A} (h : list DataFrame) (out : list str) (dk : DataFrame)
    (key : str) (rhs : DataFrame -> outcome selection) (k : unit -> M A) :
  bind (assign (List.length h) key rhs) k {| heap := h ++ [dk]; stdout := out |}
  = match step key rhs dk with
    | Returned d' => k tt {| heap := h ++ [d']; stdout := out |}
    | Raised e => (Raised e, {| heap := h ++ [dk]; stdout := out |})
    end.
Proof.
  unfold bind at 1. rewrite assign_last.
  destruct (step key rhs dk); reflexivity.
Qed.

(** Runs [clean_data] on its copy, with the outcome of each step at hand. *)
Ltac run_clean :=
  unfold clean_data; cbn [for_each];
  repeat (first
    [ rewrite bind_assoc
    | rewrite bind_ret
    | rewrite bind_alloc
    | rewrite bind_print
    | rewrite bind_deref_last
    | rewrite bind_store_last
    | rewrite bind_assign_last;
      match goal with
      | H : step ?k ?r ?d = _ |- context [step ?k ?r ?d] => rewrite H
      end ];
    cbn [heap stdout]).

(** [clean_data] returns the reference of a new object that holds what the
    steps give, and prints its line; or it raises what a step raises, with
    nothing printed and its copy left behind. *)
Lemma clean_data_run (w : world) (l : loc) (d : DataFrame) :
  holds w l d ->
  match clean_steps d with
  | Returned d' =>
    clean_data l w
    = (Returned (List.length (heap w)),
       {| heap := heap w ++ [d'];
          stdout := stdout w ++ [py "✅ Datos limpiados y transformados"] |})
  | Raised e =>
    exists dp, clean_data l w
               = (Raised e, {| heap := heap w ++ [dp]; stdout := stdout w |})
  end.
Proof.
  intros Hd. unfold clean_steps.
  assert (E0 : forall k : DataFrame -> M loc, bind (deref l) k w = k d w)
    by (intros k; now apply bind_deref).
  destruct (step (py "Price") price_expr d) as [d1|e] eqn:S1; cbn [obind];
    [|eexists; unfold clean_data; rewrite E0; run_clean; reflexivity].
  destruct (step (py "Ram") _ d1) as [d2|e] eqn:S2; cbn [obind];
    [|eexists; unfold clean_data; rewrite E0; run_clean; reflexivity].
  destruct (step (py "SSD") _ d2) as [d3|e] eqn:S3; cbn [obind];
    [|eexists; unfold clean_data; rewrite E0; run_clean; reflexivity].
  destruct (step (py "rating") _ _) as [d5|e] eqn:S5; cbn [obind];
    [|eexists; unfold clean_data; rewrite E0; run_clean; reflexivity].
  destruct (step (py "brand") brand_expr d5) as [d6|e] eqn:S6; cbn [obind];
    [|eexists; unfold clean_data; rewrite E0; run_clean; reflexivity].
  destruct (step (py "brand") brand_canon_expr d6) as [d7|e] eqn:S7;
    [|eexists; unfold clean_data; rewrite E0; run_clean; reflexivity].
  unfold clean_data; rewrite E0; run_clean; reflexivity.
Qed.

Lemma clean_data_returned (w : world) (l : loc) (d : DataFrame) (l' : loc) (w' : world) :
  holds w l d -> clean_data l w = (Returned l', w') ->
  exists d', clean_steps d = Returned d'
    /\ l' = List.length (heap w)
    /\ w' = {| heap := heap w ++ [d'];
               stdout := stdout w ++ [py "✅ Datos limpiados y transformados"] |}
    /\ holds w' l' d'.
Proof.
  intros Hd Hrun. pose proof (clean_data_run w l d Hd) as R.
  destruct (clean_steps d) as [d'|e].
  - rewrite R in Hrun. injection Hrun as <- <-. exists d'.
    repeat split. unfold holds. cbn [heap]. apply nth_error_last.
  - destruct R as [dp R]. rewrite R in Hrun. discriminate.
Qed.

(** ** The columns of the cleaned table *)


Lemma set_series_nth_other (key : str) (b : column) (cols : list (str * column))
    (j : nat) (k : str) (c : column) :
  nth_error cols j = Some (k, c) -> str_eqb k key = false ->
  nth_error (set_series key b cols) j = Some (k, c).
Proof.
  intros N Hk. unfold set_series.
  destruct (existsb (has_label key) cols).
  - unfold map_label. rewrite nth_error_map, N. cbn [option_map].
    unfold has_label. cbn [fst snd]. now rewrite Hk.
  - rewrite nth_error_app1 by (apply nth_error_Some; congruence). exact N.
Qed.

Lemma set_column_nth_other (n : nat) (key : str) (b : column)
    (cols : list (str * column)) (j : nat) (k : str) (c : column) :
  nth_error cols j = Some (k, c) -> str_eqb k key = false ->
  nth_error (set_column n key b cols) j = Some (k, c).
Proof.
  intros N Hk. unfold set_column. destruct (one_value_per_column key b cols).
  - now apply assign_frame_nth_other.
  - now apply set_series_nth_other.
Qed.

(** The columns of the cleaned table that are not brand columns. *)
Lemma cleaned_nth (n : nat) (zp zr zs : list pyfloat) (xm : list cell)
    (cols : list (str * column)) (j : nat) (k : str) (c : column) :
  nth_error cols j = Some (k, c) ->
  str_eqb (normalize k) (py "brand") = false ->
  nth_error (cleaned_columns n zp zr zs xm cols) j
  = Some (normalize k, cleaned_column zp zr zs k c).
Proof.
  intros H Hk. unfold cleaned_columns, set_brand.
  apply set_column_nth_other; [|exact Hk].
  rewrite nth_error_map, H. reflexivity.
Qed.

Lemma labelled_set_series_other (key key' : str) (b : column) (cols : list (str * column)) :
  str_eqb key' key = false ->
  List.map snd (List.filter (has_label key) (set_series key' b cols))
  = List.map snd (List.filter (has_label key) cols).
Proof.
  intros Hne. unfold set_series.
  destruct (existsb (has_label key') cols).
  - now apply labelled_map_label_other.
  - rewrite filter_app, map_app. cbn [List.filter]. unfold has_label at 2.
    cbn [fst]. rewrite Hne. cbn [List.map]. apply app_nil_r.
Qed.

Lemma labelled_set_series (key : str) (b : column) (cols : list (str * column)) :
  let cs := List.map snd (List.filter (has_label key) (set_series key b cols)) in
  cs <> [] /\ forall c, In c cs -> c = b.
Proof.
  unfold set_series.
  destruct (existsb (has_label key) cols) eqn:EB; cbn zeta.
  - rewrite labelled_map_label_same. apply labelled_exists in EB. split.
    + destruct (List.map snd (List.filter (has_label key) cols));
        [contradiction|discriminate].
    + intros c Hc. apply in_map_iff in Hc as (c0 & <- & _). reflexivity.
  - rewrite filter_app, map_app.
    assert (E : List.map snd (List.filter (has_label key) cols) = []).
    { destruct (List.map snd (List.filter (has_label key) cols)) eqn:E;
        [reflexivity|].
      assert (X : existsb (has_label key) cols = true)
        by (apply labelled_exists; rewrite E; discriminate).
      congruence. }
    rewrite E. cbn [List.filter]. unfold has_label. cbn [fst].
    rewrite str_eqb_refl. cbn. split; [discriminate|].
    intros c [<-|[]]. reflexivity.
Qed.

Lemma labelled_set_column_other (n : nat) (key key' : str) (b : column)
    (cols : list (str * column)) :
  str_eqb key' key = false ->
  List.map snd (List.filter (has_label key) (set_column n key' b cols))
  = List.map snd (List.filter (has_label key) cols).
Proof.
  intros Hne. unfold set_column. destruct (one_value_per_column key' b cols).
  - now rewrite assign_frame_other.
  - now apply labelled_set_series_other.
Qed.

Lemma set_column_labels (n : nat) (key : str) (b : column) (cols : list (str * column)) :
  List.map fst (set_column n key b cols) = List.map fst (set_series key b cols).
Proof.
  unfold set_column, one_value_per_column, set_series.
  destruct (Nat.ltb 1 _ && _) eqn:Q; [|reflexivity].
  apply andb_true_iff in Q as [Q _]. apply Nat.ltb_lt in Q.
  rewrite assign_frame_labels.
  destruct (existsb (has_label key) cols) eqn:E.
  - unfold map_label. rewrite map_map. apply map_ext. intros kc.
    now destruct (has_label key kc).
  - exfalso. destruct (List.filter (has_label key) cols) as [|kc r] eqn:F;
      [cbn in Q; lia|].
    assert (X : existsb (has_label key) cols = true).
    { apply existsb_exists. exists kc.
      assert (I : In kc (List.filter (has_label key) cols)) by (rewrite F; now left).
      now apply filter_In in I. }
    congruence.
Qed.



Lemma existsb_map_comp {A B} (p : B -> bool) (f : A -> B) (xs : list A) :
  existsb p (List.map f xs) = existsb (fun x => p (f x)) xs.
Proof. induction xs as [|x r IH]; simpl; [reflexivity|now rewrite IH]. Qed.

Lemma cleaned_labels (n : nat) (zp zr zs : list pyfloat) (xm : list cell)
    (cols : list (str * column)) :
  List.map fst (cleaned_columns n zp zr zs xm cols)
  = let names := List.map (fun kc => normalize (fst kc)) cols in
    if existsb (fun n => str_eqb n (py "brand")) names then names
    else names ++ [py "brand"].
Proof.
  unfold cleaned_columns, set_brand. rewrite set_column_labels.
  unfold set_series. cbn zeta.
  rewrite (existsb_map_comp (fun n => str_eqb n (py "brand"))
             (fun kc : str * column => normalize (fst kc)) cols).
  set (cols5 := List.map (fun kc => (normalize (fst kc), _)) cols).
  assert (E : existsb (has_label (py "brand")) cols5
              = existsb (fun kc : str * column => str_eqb (normalize (fst kc)) (py "brand")) cols).
  { unfold cols5. rewrite existsb_map_comp. reflexivity. }
  rewrite E.
  assert (F : List.map fst cols5 = List.map (fun kc => normalize (fst kc)) cols).
  { unfold cols5. rewrite map_map. reflexivity. }
  destruct (existsb _ cols).
  - unfold map_label. rewrite map_map. rewrite <- F. apply map_ext.
    intros kc. destruct (has_label (py "brand") kc); reflexivity.
  - rewrite map_app, F. reflexivity.
Qed.

Lemma fillna0_cells (c : column) (i : nat) :
  nth_error (cells (fillna0 c)) i
  = option_map (fun x => if isna x then CFloat zero else x) (nth_error (cells c) i).
Proof.
  destruct c as [xs|xs]; cbn [fillna0 cells].
  - rewrite map_map, !nth_error_map. destruct (nth_error xs i) as [x|]; [|reflexivity].
    cbn [option_map]. destruct x; reflexivity.
  - now rewrite nth_error_map.
Qed.

(** ** The category column *)

Lemma nth_set_where (m : list bool) (v : cell) (xs : list cell) (i : nat) :
  nth_error (set_where m v xs) i
  = option_map (fun x => match nth_error m i with Some true => v | _ => x end)
               (nth_error xs i).
Proof.
  revert xs i; induction m as [|b m IH]; intros xs i.
  - cbn [set_where]. destruct (nth_error xs i) eqn:E; destruct i; reflexivity.
  - destruct xs as [|x xs]; [destruct i; reflexivity|].
    destruct i as [|i]; cbn [set_where nth_error option_map].
    + destruct b; reflexivity.
    + apply IH.
Qed.

Lemma bool_indexer_inv (m : list (option bool)) (bs : list bool) :
  bool_indexer m = Returned bs -> m = List.map Some bs.
Proof.
  revert bs; induction m as [|[b|] m IH]; intros bs; cbn [bool_indexer].
  - intros [= <-]. reflexivity.
  - destruct (bool_indexer m) as [r|e]; cbn [obind]; [|discriminate].
    intros [= <-]. cbn [List.map]. f_equal. now apply IH.
  - discriminate.
Qed.

Lemma bool_indexer_some (bs : list bool) :
  bool_indexer (List.map Some bs) = Returned bs.
Proof.
  induction bs as [|b r IH]; cbn [List.map bool_indexer]; [reflexivity|].
  now rewrite IH.
Qed.

Lemma setitem_scalar_str (d : DataFrame) (key v : str) :
  setitem_scalar d key (CStr v)
  = {| nrows := nrows d;
       columns := set_series key (Object (repeat (CStr v) (nrows d))) (columns d) |}.
Proof.
  unfold setitem_scalar, set_series, map_label. cbn [broadcast].
  destruct (existsb (has_label key) (columns d)); reflexivity.
Qed.

Lemma model_mask_step (pat key v : str) (d : DataFrame) :
  where_step (model_contains pat) key v d =
  match labelled (py "model") d with
  | [] => Raised (KeyError (py "model"))
  | [Object xm] =>
    if str_like xm then
      match bool_indexer (str_contains_ci pat xm) with
      | Returned b =>
        Returned {| nrows := nrows d;
                    columns := map_label key
                      (fun c => Object (set_where b (CStr v) (cells c))) (columns d) |}
      | Raised e => Raised e
      end
    else Raised AttributeError
  | _ => Raised AttributeError
  end.
Proof.
  unfold where_step, model_contains, getitem.
  destruct (labelled (py "model") d) as [|c [|c2 r]] eqn:E;
    [reflexivity| |destruct c; reflexivity].
  destruct c as [zs|xm]; [reflexivity|]. cbn [obind str_accessor].
  destruct (str_like xm); [|reflexivity]. cbn [obind].
  destruct (bool_indexer (str_contains_ci pat xm)); reflexivity.
Qed.

Lemma brand_mask_step (v0 key v : str) (d : DataFrame) :
  where_step (brand_equals v0) key v d =
  match labelled (py "brand") d with
  | [] => Raised (KeyError (py "brand"))
  | [cb] =>
    Returned {| nrows := nrows d;
                columns := map_label key
                  (fun c => Object (set_where (eq_str v0 (cells cb)) (CStr v) (cells c)))
                  (columns d) |}
  | _ => Raised KeyErrorNotInIndex
  end.
Proof.
  unfold where_step, brand_equals, getitem.
  destruct (labelled (py "brand") d) as [|c [|c2 r]] eqn:E; try reflexivity.
  cbn [obind]. rewrite bool_indexer_some. reflexivity.
Qed.

(** Looks a label up after the assignments to the category column. *)
Ltac at_category :=
  unfold labelled; cbn [columns];
  rewrite ?labelled_map_label_other by reflexivity;
  rewrite ?labelled_set_series_other by reflexivity.

Lemma category_steps_returned (d d' : DataFrame) :
  category_steps d = Returned d' ->
  exists xm cb g u,
    labelled (py "model") d = [Object xm]
    /\ labelled (py "brand") d = [cb]
    /\ str_contains_ci (py "Gaming") xm = List.map Some g
    /\ str_contains_ci (py "Ultrabook|Thin|Slim") xm = List.map Some u
    /\ nrows d' = nrows d
    /\ labelled (py "category") d' <> []
    /\ (forall c, In c (labelled (py "category") d') ->
          c = Object (category_cells g (eq_str (py "Apple") (cells cb)) u (nrows d)))
    /\ (forall key, str_eqb (py "category") key = false ->
          labelled key d' = labelled key d).
Proof.
  intros H. unfold category_steps, step in H. cbn [obind] in H.
  rewrite setitem_scalar_str in H. cbn [obind] in H.
  rewrite model_mask_step in H.
  match type of H with context [labelled (py "model") ?x] =>
    replace (labelled (py "model") x) with (labelled (py "model") d) in H
      by (at_category; reflexivity) end.
  destruct (labelled (py "model") d) as [|[z|xm] [|c2 r2]] eqn:EM;
    cbn [obind] in H; try discriminate H.
  destruct (str_like xm) eqn:LM; cbn [obind] in H; try discriminate H.
  destruct (bool_indexer (str_contains_ci (py "Gaming") xm)) as [g|e] eqn:G;
    cbn [obind nrows columns] in H; try discriminate H.
  rewrite brand_mask_step in H.
  match type of H with context [labelled (py "brand") ?x] =>
    replace (labelled (py "brand") x) with (labelled (py "brand") d) in H
      by (at_category; reflexivity) end.
  destruct (labelled (py "brand") d) as [|cb [|c3 r3]] eqn:EB;
    cbn [obind nrows columns] in H; try discriminate H.
  rewrite model_mask_step in H.
  match type of H with context [labelled (py "model") ?x] =>
    replace (labelled (py "model") x) with [Object xm] in H
      by (at_category; symmetry; exact EM) end.
  rewrite LM in H.
  destruct (bool_indexer (str_contains_ci (py "Ultrabook|Thin|Slim") xm)) as [u|e] eqn:U;
    cbn [nrows columns] in H; try discriminate H.
  injection H as <-.
  apply bool_indexer_inv in G, U.
  exists xm, cb, g, u. repeat split; auto.
  - unfold labelled. cbn [columns]. rewrite !labelled_map_label_same.
    destruct (labelled_set_series (py "category")
                (Object (repeat (CStr (py "General")) (nrows d))) (columns d)) as [Hne _].
    intros E. apply map_eq_nil in E. apply map_eq_nil in E. apply map_eq_nil in E.
    contradiction.
  - unfold labelled. cbn [columns]. rewrite !labelled_map_label_same.
    destruct (labelled_set_series (py "category")
                (Object (repeat (CStr (py "General")) (nrows d))) (columns d)) as [_ Hall].
    intros c Hc.
    apply in_map_iff in Hc as (c2 & <- & Hc).
    apply in_map_iff in Hc as (c1 & <- & Hc).
    apply in_map_iff in Hc as (c0 & <- & Hc).
    rewrite (Hall c0 Hc). reflexivity.
  - intros key Hk. unfold labelled. cbn [columns].
    rewrite !labelled_map_label_other by exact Hk.
    now rewrite labelled_set_series_other by exact Hk.
Qed.

(** ** [analyze_categories] on the heap *)

Lemma update_id {A} (h : list A) (l : nat) (x : A) :
  nth_error h l = Some x -> update l x h = h.
Proof.
  revert l; induction h as [|a h IH]; intros l H; [now destruct l|].
  destruct l; simpl in *; [congruence|]. f_equal. auto.
Qed.

Lemma update_update {A} (h : list A) (l : nat) (x y : A) :
  update l y (update l x h) = update l y h.
Proof.
  revert l; induction h as [|a h IH]; intros l; [now destruct l|].
  destruct l; simpl; [reflexivity|now rewrite IH].
Qed.

Section Written.

(** The object [l] of a heap [h], written several times. *)
Variables (h : list DataFrame) (out : list str) (l : loc) (d0 : DataFrame).
Hypothesis live : nth_error h l = Some d0.

Lemma bind_assign_upd {A} (dk : DataFrame) (key : str)
    (rhs : DataFrame -> outcome selection) (k : unit -> M A) :
  bind (assign l key rhs) k {| heap := update l dk h; stdout := out |}
  = match step key rhs dk with
    | Returned d' => k tt {| heap := update l d' h; stdout := out |}
    | Raised e => (Raised e, {| heap := update l dk h; stdout := out |})
    end.
Proof.
  unfold bind at 1. unfold assign, bind, deref, lift, store, step. cbn [heap stdout].
  rewrite (update_same h l d0 dk live).
  destruct (rhs dk) as [v|e]; cbn [obind]; [|reflexivity].
  destruct (setitem dk key v) as [d'|e]; [|reflexivity].
  cbn [heap stdout]. now rewrite update_update.
Qed.

Lemma bind_assign_scalar_upd {A} (dk : DataFrame) (key : str) (v : cell)
    (k : unit -> M A) :
  bind (assign_scalar l key v) k {| heap := update l dk h; stdout := out |}
  = k tt {| heap := update l (setitem_scalar dk key v) h; stdout := out |}.
Proof.
  unfold bind at 1. unfold assign_scalar, bind, deref, store. cbn [heap stdout].
  rewrite (update_same h l d0 dk live). cbn [heap stdout].
  now rewrite update_update.
Qed.

Lemma assign_where_upd (dk : DataFrame)
    (mask : DataFrame -> outcome (list (option bool))) (key v : str) :
  assign_where l mask key v {| heap := update l dk h; stdout := out |}
  = match where_step mask key v dk with
    | Returned d' => (Returned tt, {| heap := update l d' h; stdout := out |})
    | Raised e => (Raised e, {| heap := update l dk h; stdout := out |})
    end.
Proof.
  unfold assign_where, bind, deref, lift, store, where_step. cbn [heap stdout].
  rewrite (update_same h l d0 dk live).
  destruct (mask dk) as [m|e]; cbn [obind]; [|reflexivity].
  destruct (bool_indexer m) as [b|e]; cbn [obind]; [|reflexivity].
  cbn [heap stdout]. now rewrite update_update.
Qed.

Lemma bind_assign_where_upd {A} (dk : DataFrame)
    (mask : DataFrame -> outcome (list (option bool))) (key v : str)
    (k : unit -> M A) :
  bind (assign_where l mask key v) k {| heap := update l dk h; stdout := out |}
  = match where_step mask key v dk with
    | Returned d' => k tt {| heap := update l d' h; stdout := out |}
    | Raised e => (Raised e, {| heap := update l dk h; stdout := out |})
    end.
Proof.
  unfold bind at 1. rewrite assign_where_upd.
  destruct (where_step mask key v dk); reflexivity.
Qed.

Lemma analyze_run_upd (dk : DataFrame) :
  match category_steps dk with
  | Returned d' =>
    analyze_categories l {| heap := update l dk h; stdout := out |}
    = (Returned tt, {| heap := update l d' h; stdout := out |})
  | Raised e =>
    exists dp, analyze_categories l {| heap := update l dk h; stdout := out |}
               = (Raised e, {| heap := update l dp h; stdout := out |})
  end.
Proof.
  unfold category_steps, analyze_categories. cbn [obind].
  set (d1 := setitem_scalar dk (py "category") (CStr (py "General"))).
  destruct (where_step (model_contains (py "Gaming")) _ _ d1) as [d2|e] eqn:S1;
    cbn [obind];
    [|eexists; rewrite bind_assign_scalar_upd; fold d1;
      rewrite bind_assign_where_upd, S1; reflexivity].
  destruct (where_step (brand_equals (py "Apple")) _ _ d2) as [d3|e] eqn:S2;
    cbn [obind];
    [|eexists; rewrite bind_assign_scalar_upd; fold d1;
      rewrite bind_assign_where_upd, S1, bind_assign_where_upd, S2; reflexivity].
  destruct (where_step (model_contains (py "Ultrabook|Thin|Slim")) _ _ d3) as [d4|e] eqn:S3;
    [|eexists];
    rewrite bind_assign_scalar_upd; fold d1;
    rewrite bind_assign_where_upd, S1, bind_assign_where_upd, S2,
            assign_where_upd, S3; reflexivity.
Qed.

End Written.

Lemma analyze_run (w : world) (l : loc) (d : DataFrame) :
  holds w l d ->
  match category_steps d with
  | Returned d' =>
    analyze_categories l w
    = (Returned tt, {| heap := update l d' (heap w); stdout := stdout w |})
  | Raised e =>
    exists dp, analyze_categories l w
               = (Raised e, {| heap := update l dp (heap w); stdout := stdout w |})
  end.
Proof.
  intros Hd. pose proof (analyze_run_upd (heap w) (stdout w) l d Hd d) as R.
  rewrite (update_id _ _ _ Hd) in R. destruct w as [h out]. exact R.
Qed.

(* ===================================================================== *)
(** * The cleaned table *)
(* ===================================================================== *)

Lemma nth_labelled (cols : list (str * column)) (j : nat) (k : str) (c : column) :
  nth_error cols j = Some (k, c) ->
  In c (List.map snd (List.filter (has_label k) cols)).
Proof.
  intros H. apply in_map_iff. exists (k, c). split; [reflexivity|].
  apply filter_In. split; [eapply nth_error_In, H|].
  unfold has_label. apply str_eqb_refl.
Qed.

Lemma cleaned_rating_column (zp zr zs : list pyfloat) (k : str) (c : column) :
  normalize k = py "rating" -> cleaned_column zp zr zs k c = fillna0 c.
Proof.
  intros H. unfold cleaned_column. rewrite H.
  replace (str_eqb (py "rating") (py "rating")) with true by reflexivity.
  destruct (str_eqb k (py "Price")) eqn:E1;
    [apply str_eqb_eq in E1; subst k; vm_compute in H; discriminate|].
  destruct (str_eqb k (py "Ram")) eqn:E2;
    [apply str_eqb_eq in E2; subst k; vm_compute in H; discriminate|].
  destruct (str_eqb k (py "SSD")) eqn:E3;
    [apply str_eqb_eq in E3; subst k; vm_compute in H; discriminate|].
  reflexivity.
Qed.


Lemma price_cells_nth (xp : list cell) (zp : list pyfloat) (i : nat) (s : str) :
  price_cells xp = Returned zp -> nth_error xp i = Some (CStr s) ->
  exists x, nth_error zp i = Some x
            /\ py_float (replace COMMA [] (replace RUPEE [] s)) = Some x.
Proof.
  unfold price_cells, str_replace, str_map.
  revert zp i; induction xp as [|c r IH]; intros zp i H Hi; [now destruct i|].
  cbn [List.map astype_float] in H.
  destruct (float_of_cell _) as [x|e] eqn:F; cbn [obind] in H; [|discriminate].
  destruct (astype_float _) as [zr|e] eqn:R; cbn [obind] in H; [|discriminate].
  injection H as <-. destruct i as [|i]; cbn [nth_error] in *.
  - injection Hi as ->. exists x. split; [reflexivity|].
    cbn [float_of_cell] in F. destruct (py_float _); [congruence|discriminate].
  - apply (IH zr i eq_refl Hi).
Qed.

Lemma extract_value_not_nan (s : str) :
  is_nan (extract_value (CStr s)) = false <-> existsb is_digit s = true.
Proof.
  cbn [extract_value]. destruct (existsb is_digit s) eqn:E.
  - destruct (search_digits_first_run s E) as (pre & run & post & _ & _ & _ & _ & _ & ->).
    split; reflexivity.
  - rewrite (search_digits_none s E). split; discriminate.
Qed.

Section Cleaned.

(** A run of [clean_data] that returns: the raw table [d] behind the
    reference [l], the cleaned table [d'] behind the returned [l']. *)
Variables (w : world) (l : loc) (d : DataFrame).
Variables (l' : loc) (w' : world) (d' : DataFrame).
Hypothesis raw : holds w l d.
Hypothesis returned : clean_data l w = (Returned l', w').
Hypothesis cleaned : holds w' l' d'.

Lemma cleaned_shape :
  exists zp xr xs xm,
    accepted d zp xr xs xm
    /\ d' = {| nrows := nrows d;
               columns := cleaned_columns (nrows d) zp (List.map extract_value xr)
                            (List.map extract_value xs) xm (columns d) |}.
Proof.
  destruct (clean_data_returned w l d l' w' raw returned) as (d1 & S & _ & _ & H1).
  unfold holds in *. assert (d' = d1) by congruence. subst d1.
  now apply clean_steps_returned.
Qed.

Lemma cleaned_rating_nth (j : nat) (k : str) (c : column) :
  nth_error (columns d) j = Some (k, c) ->
  normalize k = py "rating" ->
  nth_error (columns d') j = Some (py "rating", fillna0 c).
Proof.
  intros Hj Hk. destruct cleaned_shape as (zp & xr & xs & xm & _ & ->).
  cbn [columns].
  rewrite (cleaned_nth _ _ _ _ _ _ _ _ _ Hj) by (rewrite Hk; reflexivity).
  now rewrite Hk, cleaned_rating_column.
Qed.

(** C9.  A rating column of the raw table, under whatever casing of its
    name, stands in the cleaned table under the label [rating] with its
    missing values filled: a record whose rating is absent has the rating 0
    exactly, which is also what a record with an explicit rating of zero
    has, so that the two cannot be told apart after cleaning. *)
Theorem absent_rating_becomes_zero (j : nat) (k : str) (c : column) :
  nth_error (columns d) j = Some (k, c) ->
  normalize k = py "rating" ->
  nth_error (columns d') j = Some (py "rating", fillna0 c)
  /\ forall i,
       (nth_error (cells c) i = Some (CFloat NaN) ->
        nth_error (cells (fillna0 c)) i = Some (CFloat zero))
       /\ (nth_error (cells c) i = Some (CFloat zero) ->
           nth_error (cells (fillna0 c)) i = Some (CFloat zero)).
Proof.
  intros Hj Hk. split.
  - exact (cleaned_rating_nth j k c Hj Hk).
  - intros i. rewrite fillna0_cells. split; intros ->; reflexivity.
Qed.

Lemma cleaned_price_column (j : nat) (c : column) :
  nth_error (columns d) j = Some (py "Price", c) ->
  exists xp zp,
    c = Object xp /\ price_cells xp = Returned zp
    /\ nth_error (columns d') j = Some (py "price", Float64 zp).
Proof.
  intros Hj. destruct cleaned_shape as (zp & xr & xs & xm & A & ->).
  destruct A as (xp & EP & _ & PP & _).
  pose proof (nth_labelled _ _ _ _ Hj) as Hin. fold (labelled (py "Price") d) in Hin.
  rewrite EP in Hin. destruct Hin as [<-|[]].
  exists xp, zp. repeat split; auto.
  cbn [columns]. rewrite (cleaned_nth _ _ _ _ _ _ _ _ _ Hj) by reflexivity.
  reflexivity.
Qed.

Lemma cleaned_memory_column (j : nat) (k : str) (c : column) :
  nth_error (columns d) j = Some (k, c) ->
  k = py "Ram" \/ k = py "SSD" ->
  exists xs,
    c = Object xs
    /\ nth_error (columns d') j
       = Some (normalize k, Float64 (List.map extract_value xs)).
Proof.
  intros Hj Hk. destruct cleaned_shape as (zp & xr & xs & xm & A & ->).
  destruct A as (xp & _ & _ & _ & ER & _ & ES & _).
  pose proof (nth_labelled _ _ _ _ Hj) as Hin.
  cbn [columns].
  rewrite (cleaned_nth _ _ _ _ _ _ _ _ _ Hj) by (destruct Hk as [-> | ->]; reflexivity).
  destruct Hk as [-> | ->].
  - fold (labelled (py "Ram") d) in Hin. rewrite ER in Hin.
    destruct Hin as [<-|[]]. exists xr. split; reflexivity.
  - fold (labelled (py "SSD") d) in Hin. rewrite ES in Hin.
    destruct Hin as [<-|[]]. exists xs. split; reflexivity.
Qed.


(** C2, as the code has it.  In the cleaned table every rating is present,
    0 standing for an absent one, and a numeric rating column stays
    numeric; [price], [ram] and [ssd] are float columns.  The price of a
    record is what [float()] reads in its price string once the rupee sign
    and the commas are removed.  The [ram] and [ssd] of a record are present
    exactly when the string contains a digit: a string without a digit
    leaves the value missing. *)
Theorem cleaned_numeric_fields (j : nat) (k : str) (c : column) :
  nth_error (columns d) j = Some (k, c) ->
  (normalize k = py "rating" ->
     nth_error (columns d') j = Some (py "rating", fillna0 c)
     /\ (forall i x, nth_error (cells (fillna0 c)) i = Some x -> isna x = false)
     /\ (forall xs, c = Float64 xs -> exists xs', fillna0 c = Float64 xs'))
  /\ (k = py "Price" ->
      exists zp,
        nth_error (columns d') j = Some (py "price", Float64 zp)
        /\ forall i s, nth_error (cells c) i = Some (CStr s) ->
             exists x, nth_error zp i = Some x
               /\ py_float (replace COMMA [] (replace RUPEE [] s)) = Some x)
  /\ (k = py "Ram" \/ k = py "SSD" ->
      exists zs,
        nth_error (columns d') j = Some (normalize k, Float64 zs)
        /\ forall i s, nth_error (cells c) i = Some (CStr s) ->
             exists x, nth_error zs i = Some x
               /\ (is_nan x = false <-> existsb is_digit s = true)).
Proof.
  intros Hj. split; [|split].
  - intros Hk. split; [exact (cleaned_rating_nth j k c Hj Hk)|]. split.
    + intros i x. rewrite fillna0_cells.
      destruct (nth_error (cells c) i) as [x0|]; [|discriminate].
      cbn [option_map]. destruct (isna x0) eqn:N; intros [= <-]; [reflexivity|exact N].
    + intros xs ->. cbn [fillna0]. eauto.
  - intros ->. destruct (cleaned_price_column j c Hj) as (xp & zp & -> & PP & E).
    exists zp. split; [exact E|]. intros i s Hi.
    exact (price_cells_nth xp zp i s PP Hi).
  - intros Hk. destruct (cleaned_memory_column j k c Hj Hk) as (xs & -> & E).
    exists (List.map extract_value xs). split; [exact E|].
    intros i s Hi. cbn [cells] in Hi. exists (extract_value (CStr s)).
    split; [now rewrite nth_error_map, Hi|apply extract_value_not_nan].
Qed.


End Cleaned.

(* ===================================================================== *)
(** * Prices *)
(* ===================================================================== *)

Lemma replace_rupee_body (body : str) :
  forallb (fun c => is_digit c || (c =? COMMA)) body = true ->
  replace RUPEE [] body = body.
Proof.
  unfold replace. induction body as [|c r IH]; cbn [forallb flat_map]; [reflexivity|].
  intros H. apply andb_true_iff in H as [Hc Hr]. rewrite (IH Hr).
  assert (E : (c =? RUPEE) = false).
  { apply N.eqb_neq. apply orb_true_iff in Hc as [Hc|Hc].
    - apply (digit_not_char c RUPEE Hc). reflexivity.
    - apply N.eqb_eq in Hc. subst c. discriminate. }
  now rewrite E.
Qed.

Lemma replace_comma_body (body : str) :
  forallb (fun c => is_digit c || (c =? COMMA)) body = true ->
  replace COMMA [] body = digits_only body.
Proof.
  unfold replace, digits_only.
  induction body as [|c r IH]; cbn [forallb flat_map List.filter]; [reflexivity|].
  intros H. apply andb_true_iff in H as [Hc Hr]. rewrite (IH Hr).
  destruct (c =? COMMA) eqn:E.
  - apply N.eqb_eq in E. subst c. reflexivity.
  - rewrite orb_false_r in Hc. rewrite Hc. reflexivity.
Qed.

Lemma digits_only_digits (s : str) : forallb is_digit (digits_only s) = true.
Proof.
  unfold digits_only. apply forallb_forall. intros x Hx.
  now apply filter_In in Hx.
Qed.

Lemma digits_only_nonempty (s : str) :
  existsb is_digit s = true -> digits_only s <> [].
Proof.
  intros H. apply existsb_exists in H as (x & Hx & Hd).
  intros E. assert (In x (digits_only s)) by (apply filter_In; auto).
  rewrite E in H. contradiction.
Qed.

Lemma float_of_rupee_string (body : str) :
  digits_with_commas body = true ->
  py_float (replace COMMA [] (replace RUPEE [] (RUPEE :: body)))
  = Some (Fin (inject_Z (Z.of_N (digits_value (digits_only body))))).
Proof.
  unfold digits_with_commas. intros H. apply andb_true_iff in H as [Hall Hex].
  assert (E : replace RUPEE [] (RUPEE :: body) = replace RUPEE [] body)
    by (unfold replace; cbn [flat_map]; now rewrite N.eqb_refl).
  rewrite E, (replace_rupee_body _ Hall), (replace_comma_body _ Hall).
  apply py_float_digits; [now apply digits_only_nonempty|apply digits_only_digits].
Qed.

Lemma price_cells_cons (c : cell) (r : list cell) :
  price_cells (c :: r)
  = (x <~ match c with
          | CStr s => match py_float (replace COMMA [] (replace RUPEE [] s)) with
                      | Some x => Returned x
                      | None => Raised ValueError
                      end
          | CFloat _ => Returned NaN
          end ;;
     r' <~ price_cells r ;;
     Returned (x :: r'))%outcome.
Proof. destruct c; reflexivity. Qed.




(** The conversion of the prices raises nothing but [ValueError], and raises
    it exactly when [float()] refuses one of the stripped strings. *)
Lemma price_cells_error (xp : list cell) (e : pyerror) :
  price_cells xp = Raised e ->
  e = ValueError
  /\ exists s, In (CStr s) xp
               /\ py_float (replace COMMA [] (replace RUPEE [] s)) = None.
Proof.
  induction xp as [|c r IH]; [discriminate|].
  rewrite price_cells_cons. destruct c as [s|x].
  - destruct (py_float _) eqn:F; cbn [obind].
    + destruct (price_cells r) as [zr|e'] eqn:R; cbn [obind]; [discriminate|].
      intros [= <-]. destruct (IH eq_refl) as (-> & s' & Hin & Hs).
      split; [reflexivity|]. exists s'. split; [now right|exact Hs].
    + intros [= <-]. split; [reflexivity|]. exists s. split; [now left|exact F].
  - cbn [obind]. destruct (price_cells r) as [zr|e'] eqn:R; cbn [obind]; [discriminate|].
    intros [= <-]. destruct (IH eq_refl) as (-> & s' & Hin & Hs).
    split; [reflexivity|]. exists s'. split; [now right|exact Hs].
Qed.

Lemma price_cells_refused (xp : list cell) (s : str) :
  In (CStr s) xp ->
  py_float (replace COMMA [] (replace RUPEE [] s)) = None ->
  price_cells xp = Raised ValueError.
Proof.
  intros Hin Hs. destruct (price_cells xp) as [zp|e] eqn:P.
  - apply In_nth_error in Hin as [i Hi].
    destruct (price_cells_nth xp zp i s P Hi) as (x & _ & Fx). congruence.
  - now destruct (price_cells_error xp e P) as [-> _].
Qed.

Lemma clean_steps_price_error (d : DataFrame) (xp : list cell) (e : pyerror) :
  labelled (py "Price") d = [Object xp] -> str_like xp = true ->
  price_cells xp = Raised e -> clean_steps d = Raised e.
Proof.
  intros EP LP PP. unfold clean_steps. now rewrite price_step, EP, LP, PP.
Qed.

(** After the prices, no step raises [ValueError]. *)
Lemma clean_steps_value_error (d : DataFrame) :
  clean_steps d = Raised ValueError ->
  exists xp, labelled (py "Price") d = [Object xp] /\ str_like xp = true
             /\ price_cells xp = Raised ValueError.
Proof.
  intros H. unfold clean_steps in H.
  rewrite price_step in H.
  destruct (labelled (py "Price") d) as [|[z|xp] [|c2 r2]] eqn:EP;
    cbn [obind] in H; try discriminate H.
  destruct (str_like xp) eqn:LP; cbn [obind] in H; try discriminate H.
  destruct (price_cells xp) as [zp|e] eqn:PP; cbn [obind] in H;
    [|injection H as ->; eauto].
  exfalso. rewrite extract_step in H.
  destruct (labelled (py "Ram") _) as [|[z|xr] [|c3 r3]];
    cbn [obind] in H; try discriminate H.
  destruct (str_like xr); cbn [obind nrows columns] in H; try discriminate H.
  rewrite extract_step in H.
  destruct (labelled (py "SSD") _) as [|[z|xs] [|c4 r4]];
    cbn [obind] in H; try discriminate H.
  destruct (str_like xs); cbn [obind nrows columns] in H; try discriminate H.
  rewrite rating_step in H.
  destruct (labelled (py "rating") _) as [|c0 r0];
    cbn [obind] in H; try discriminate H.
  rewrite brand_step in H.
  destruct (labelled (py "model") _) as [|[z|xm] [|c5 r5]];
    cbn [obind] in H; try discriminate H.
  destruct (str_like xm); cbn [obind] in H; try discriminate H.
  rewrite brand_written in H. discriminate H.
Qed.

Lemma holds_after_alloc (h : list DataFrame) (out out' : list str) (dp : DataFrame)
    (l0 : loc) (d0 : DataFrame) :
  holds {| heap := h; stdout := out |} l0 d0 ->
  holds {| heap := h ++ [dp]; stdout := out' |} l0 d0.
Proof.
  unfold holds. cbn [heap]. intros H.
  rewrite nth_error_app1; [exact H|]. apply nth_error_Some. congruence.
Qed.

(** C5.  For a table whose price column holds strings, [clean_data] raises
    the parse error ([ValueError]) if and only if [float()] refuses one of
    the price strings once the rupee sign and the commas are removed.  When
    it does, the whole of [clean_data] stops there: no reference to a
    cleaned table is returned, nothing is printed, and the tables that
    existed are as they were. *)
Theorem unparseable_price_aborts (w : world) (l : loc) (d : DataFrame) (xp : list cell) :
  holds w l d ->
  labelled (py "Price") d = [Object xp] -> str_like xp = true ->
  ((exists s, In (CStr s) xp
              /\ py_float (replace COMMA [] (replace RUPEE [] s)) = None)
   <-> fst (clean_data l w) = Raised ValueError)
  /\ (fst (clean_data l w) = Raised ValueError ->
      exists w', clean_data l w = (Raised ValueError, w')
                 /\ stdout w' = stdout w
                 /\ forall l0 d0, holds w l0 d0 -> holds w' l0 d0).
Proof.
  intros Hd EP LP. pose proof (clean_data_run w l d Hd) as R.
  destruct (clean_steps d) as [d'|e] eqn:CS.
  - rewrite R. cbn [fst]. split; [split|]; try discriminate.
    intros (s & Hin & Hs). exfalso.
    pose proof (price_cells_refused xp s Hin Hs) as PP.
    rewrite (clean_steps_price_error d xp _ EP LP PP) in CS. discriminate.
  - destruct R as [dp R]. rewrite R. cbn [fst]. split; [split|].
    + intros (s & Hin & Hs).
      pose proof (price_cells_refused xp s Hin Hs) as PP.
      rewrite (clean_steps_price_error d xp _ EP LP PP) in CS.
      injection CS as <-. reflexivity.
    + intros [= ->]. destruct (clean_steps_value_error d CS) as (xp' & EP' & _ & PP).
      rewrite EP in EP'. injection EP' as <-.
      now destruct (price_cells_error xp _ PP).
    + intros [= ->]. eexists. split; [reflexivity|]. split; [reflexivity|].
      intros l0 d0 H0. destruct w as [h out]. cbn [heap stdout].
      eapply holds_after_alloc. exact H0.
Qed.

(* ===================================================================== *)
(** * Column names *)
(* ===================================================================== *)


(* ===================================================================== *)
(** * What is written, and where *)
(* ===================================================================== *)

(** C6.  [clean_data] works on a copy: whether it
    returns or raises, every table that existed, the one it was given among
    them, is as it was; the reference it returns is new and holds the
    cleaned table.  The category derivation returns no table: it writes the
    column into the table it is given, the cleaned one, and into no other,
    so that the raw table is still as it was after both steps. *)
Theorem cleaning_works_on_a_copy (w : world) (l : loc) (d : DataFrame)
    (r : outcome loc) (w' : world) :
  holds w l d ->
  clean_data l w = (r, w') ->
  (forall l0 d0, holds w l0 d0 -> holds w' l0 d0)
  /\ forall l', r = Returned l' ->
       nth_error (heap w) l' = None
       /\ (exists d', holds w' l' d')
       /\ forall r2 w'', analyze_categories l' w' = (r2, w'') ->
            (forall l0, l0 <> l' -> nth_error (heap w'') l0 = nth_error (heap w') l0)
            /\ holds w'' l d.
Proof.
  intros Hd Hrun. pose proof (clean_data_run w l d Hd) as R.
  assert (Old : forall l0 d0, holds w l0 d0 -> holds w' l0 d0).
  { intros l0 d0 H0. destruct w as [h out].
    destruct (clean_steps d) as [d'|e].
    - rewrite R in Hrun. injection Hrun as <- <-. cbn [heap stdout].
      eapply holds_after_alloc. exact H0.
    - destruct R as [dp R]. rewrite R in Hrun. injection Hrun as <- <-.
      cbn [heap stdout]. eapply holds_after_alloc. exact H0. }
  split; [exact Old|]. intros l' ->.
  destruct (clean_data_returned w l d l' w' Hd Hrun) as (d' & _ & -> & _ & Hd').
  split; [apply nth_error_None; lia|]. split; [now exists d'|].
  intros r2 w'' Hcat. pose proof (analyze_run w' _ d' Hd') as C.
  assert (Fr : forall l0, l0 <> List.length (heap w) ->
                 nth_error (heap w'') l0 = nth_error (heap w') l0).
  { intros l0 Hne. destruct (category_steps d') as [d2|e].
    - rewrite C in Hcat. injection Hcat as <- <-. cbn [heap].
      now apply update_other.
    - destruct C as [dp C]. rewrite C in Hcat. injection Hcat as <- <-.
      cbn [heap]. now apply update_other. }
  split; [exact Fr|]. unfold holds. rewrite Fr.
  - apply Old, Hd.
  - intros E. unfold holds in Hd. rewrite E in Hd.
    assert (X : (List.length (heap w) < List.length (heap w))%nat)
      by (apply nth_error_Some; congruence).
    lia.
Qed.

(* ===================================================================== *)
(** * Categories *)
(* ===================================================================== *)

Lemma mask_nth (pat : str) (xm : list cell) (bs : list bool) (i : nat) (s : str) :
  str_contains_ci pat xm = List.map Some bs ->
  nth_error xm i = Some (CStr s) ->
  nth_error bs i = Some (re_search_ci pat s).
Proof.
  intros E Hs. apply (f_equal (fun x => nth_error x i)) in E.
  unfold str_contains_ci in E. rewrite !nth_error_map, Hs in E.
  cbn [option_map] in E. destruct (nth_error bs i); [|discriminate].
  cbn [option_map] in E. congruence.
Qed.

Lemma category_cells_nth (g a u : list bool) (n i : nat) (bg ba bu : bool) :
  (i < n)%nat ->
  nth_error g i = Some bg -> nth_error a i = Some ba -> nth_error u i = Some bu ->
  nth_error (category_cells g a u n) i
  = Some (CStr (if bu then py "Ultrabook"
                else if ba then py "Apple"
                else if bg then py "Gaming"
                else py "General")).
Proof.
  intros Hi Hg Ha Hu. unfold category_cells.
  rewrite !nth_set_where, Hg, Ha, Hu, nth_error_repeat by exact Hi.
  cbn [option_map]. destruct bu, ba, bg; reflexivity.
Qed.

(** C1, as the code has it.  [analyze_categories] writes one value per
    record into the category column: every record starts as [General] and
    the three assignments overwrite it in their order: [Gaming], then
    [Apple], then [Ultrabook].  So a record whose model matches
    [Ultrabook|Thin|Slim] ends as [Ultrabook], whatever else holds of it; a
    record that does not and whose brand is [Apple] ends as [Apple], also
    when its model contains [Gaming]; otherwise a model that contains
    [Gaming] gives [Gaming], and a record that matches no rule stays
    [General].  Matching ignores case. *)
Theorem category_by_priority (w : world) (l : loc) (d : DataFrame) (w' : world) :
  holds w l d ->
  analyze_categories l w = (Returned tt, w') ->
  exists d' xm cb cat,
    holds w' l d'
    /\ getitem d (py "model") = Returned (Series (Object xm))
    /\ getitem d (py "brand") = Returned (Series cb)
    /\ labelled (py "category") d' <> []
    /\ (forall c, In c (labelled (py "category") d') -> c = Object cat)
    /\ forall i s b,
         (i < nrows d)%nat ->
         nth_error xm i = Some (CStr s) ->
         nth_error (cells cb) i = Some b ->
         let ultra := re_search_ci (py "Ultrabook|Thin|Slim") s in
         let gaming := re_search_ci (py "Gaming") s in
         exists tag,
           nth_error cat i = Some (CStr tag)
           /\ tag = category_rule s b
           /\ (ultra = true -> tag = py "Ultrabook")
           /\ (ultra = false -> b = CStr (py "Apple") -> tag = py "Apple")
           /\ (ultra = false -> b <> CStr (py "Apple") -> gaming = true ->
               tag = py "Gaming")
           /\ (ultra = false -> b <> CStr (py "Apple") -> gaming = false ->
               tag = py "General").
Proof.
  intros Hd Hrun. pose proof (analyze_run w l d Hd) as R.
  destruct (category_steps d) as [d'|e] eqn:CS;
    [|destruct R as [dp R]; rewrite R in Hrun; discriminate].
  rewrite R in Hrun. injection Hrun as <-.
  destruct (category_steps_returned d d' CS)
    as (xm & cb & g & u & EM & EB & G & U & _ & Hne & Hall & _).
  exists d', xm, cb, (category_cells g (eq_str (py "Apple") (cells cb)) u (nrows d)).
  split; [unfold holds; cbn [heap]; eapply update_same; exact Hd|].
  split; [unfold getitem; now rewrite EM|].
  split; [unfold getitem; now rewrite EB|].
  split; [exact Hne|]. split; [exact Hall|].
  intros i s b Hi Hs Hb ultra gaming.
  exists (category_rule s b).
  assert (Ha : nth_error (eq_str (py "Apple") (cells cb)) i
               = Some (match b with
                       | CStr t => str_eqb t (py "Apple")
                       | CFloat _ => false
                       end))
    by (unfold eq_str; now rewrite nth_error_map, Hb).
  rewrite (category_cells_nth _ _ _ _ _ _ _ _ Hi (mask_nth _ _ _ _ _ G Hs) Ha
             (mask_nth _ _ _ _ _ U Hs)).
  unfold category_rule. fold ultra gaming.
  split; [destruct ultra, gaming, b as [t|x]; try destruct (str_eqb t (py "Apple"));
          reflexivity|].
  split; [reflexivity|].
  split; [intros ->; reflexivity|].
  split; [intros -> ->; reflexivity|].
  split; intros -> Hb' Hg; rewrite Hg.
  - destruct b as [t|x]; [|reflexivity].
    destruct (str_eqb t (py "Apple")) eqn:E; [|reflexivity].
    apply str_eqb_eq in E. subst t. contradiction.
  - destruct b as [t|x]; [|reflexivity].
    destruct (str_eqb t (py "Apple")) eqn:E; [|reflexivity].
    apply str_eqb_eq in E. subst t. contradiction.
Qed.

(* ===================================================================== *)
(** * Loading *)
(* ===================================================================== *)


(* ===================================================================== *)
(** * The sample tables, run *)
(* ===================================================================== *)

Lemma sample_run :
  clean_data 0%nat sample_world = (Returned 1%nat, sample_cleaned_world).
Proof. vm_compute. reflexivity. Qed.

Lemma sample_cleaned : holds sample_cleaned_world 1%nat sample_clean.
Proof. reflexivity. Qed.

Lemma sample_tagged_run :
  analyze_categories 1%nat sample_cleaned_world = (Returned tt, sample_tagged_world).
Proof. vm_compute. reflexivity. Qed.

(** The first scenario of the specification: the HP record. *)
Example scenario_hp :
  List.map (fun kc => (fst kc, nth_error (cells (snd kc)) 0)) (columns sample_tagged)
  = [ (py "model", Some (CStr (py "HP Pavilion Gaming 15")));
      (py "price", Some (CFloat (Fin (inject_Z 54999))));
      (py "rating", Some (CFloat (Fin (9 # 2))));
      (py "ram", Some (CFloat (Fin (inject_Z 8))));
      (py "ssd", Some (CFloat (Fin (inject_Z 256))));
      (py "screen_size", Some (CStr (py "15.6 inch")));
      (py "brand", Some (CStr (py "HP")));
      (py "category", Some (CStr (py "Gaming"))) ].
Proof. vm_compute. reflexivity. Qed.

(** The second scenario: no rating, an Apple ultrabook. *)
Example scenario_apple :
  List.map (fun kc => (fst kc, nth_error (cells (snd kc)) 1)) (columns sample_tagged)
  = [ (py "model", Some (CStr (py "Apple MacBook Air Ultrabook")));
      (py "price", Some (CFloat (Fin (inject_Z 99990))));
      (py "rating", Some (CFloat zero));
      (py "ram", Some (CFloat (Fin (inject_Z 16))));
      (py "ssd", Some (CFloat (Fin (inject_Z 512))));
      (py "screen_size", Some (CStr (py "13.3 inch")));
      (py "brand", Some (CStr (py "Apple")));
      (py "category", Some (CStr (py "Ultrabook"))) ].
Proof. vm_compute. reflexivity. Qed.

Example float_of_digits : py_float (py "12345") = Some (Fin (inject_Z 12345)).
Proof. reflexivity. Qed.

Example float_of_decimal : py_float (py " 1_000.50 ") = Some (Fin (2001 # 2)).
Proof. reflexivity. Qed.

Example float_refuses :
  py_float (py "1e") = None /\ py_float (py "1__0") = None
  /\ py_float (py ".") = None /\ py_float (py "") = None
  /\ py_float (py "1_.5") = None /\ py_float (py "--1") = None
  /\ py_float (py " on request") = None.
Proof. repeat split; reflexivity. Qed.

Example float_accepts :
  py_float (py "-Infinity") = Some NegInf /\ py_float (py "+nan") = Some NaN
  /\ py_float (py "1e3") = Some (Fin (inject_Z 1000))
  /\ py_float (py ".5") = Some (Fin (1 # 2))
  /\ py_float (py "5.") = Some (Fin (inject_Z 5)).
Proof. repeat split; reflexivity. Qed.

Example split_model :
  split (py " HP  Pavilion Gaming 15 ")
  = [py "HP"; py "Pavilion"; py "Gaming"; py "15"].
Proof. reflexivity. Qed.

Example search_ignores_case :
  re_search_ci (py "Ultrabook|Thin|Slim") (py "Lenovo IdeaPad SLIM 3") = true
  /\ re_search_ci (py "Gaming") (py "GAMİNG") = true
  /\ re_search_ci (py "Gaming") (py "Game") = false.
Proof. repeat split; reflexivity. Qed.

Example rupee_literal : py "₹" = [RUPEE].
Proof. reflexivity. Qed.

Example memory_examples :
  extract_cells [CStr (py "16 GB"); CStr (py "512GB"); CStr (py "No SSD")]
  = Returned [Fin (inject_Z 16); Fin (inject_Z 512); NaN].
Proof. reflexivity. Qed.

(** The digits of other scripts are digits for [(\d+)] and for [float()]. *)
Example digits_of_other_scripts :
  extract_cells [CStr (py "١٦ GB"); CStr (py "1٢ GB"); CStr (py "१६")]
  = Returned [Fin (inject_Z 16); Fin (inject_Z 12); Fin (inject_Z 16)]
  /\ price_cells [CStr (py "₹١٢")] = Returned [Fin (inject_Z 12)].
Proof. split; vm_compute; reflexivity. Qed.

(** [str.lower()] on letters beyond ASCII, the final sigma among them. *)
Example names_beyond_ascii :
  normalize (py "Écran Size") = py "écran_size"
  /\ lower (py "ΟΔΟΣ ΣΑΣ") = py "οδος σας"
  /\ lower (py "İ") = [0x69; 0x307].
Proof. repeat split; vm_compute; reflexivity. Qed.

(** Two brand columns and two records: each brand column takes the brand of
    one record, and the comparison of the brand is then refused as a row
    indexer. *)
Example one_brand_per_column :
  labelled (py "brand") two_brands_clean
  = [Object [CStr (py "HP"); CStr (py "HP")];
     Object [CStr (py "Dell"); CStr (py "Dell")]]
  /\ fst (analyze_categories 1%nat two_brands_cleaned_world)
     = Raised KeyErrorNotInIndex.
Proof. split; vm_compute; reflexivity. Qed.

(* ===================================================================== *)
(** * Where the specification and the code part *)
(* ===================================================================== *)

(** C1.  The third record of the sample is an Apple whose model contains
    [Gaming], and also [Slim]: its category is [Ultrabook], not [Apple]. *)
Lemma apple_gaming_slim_is_ultrabook :
  ~ (forall w l d w' d' xm cb cat i s,
       holds w l d -> analyze_categories l w = (Returned tt, w') -> holds w' l d' ->
       getitem d (py "model") = Returned (Series (Object xm)) ->
       getitem d (py "brand") = Returned (Series cb) ->
       getitem d' (py "category") = Returned (Series (Object cat)) ->
       nth_error xm i = Some (CStr s) ->
       re_search_ci (py "Gaming") s = true ->
       nth_error (cells cb) i = Some (CStr (py "Apple")) ->
       nth_error cat i = Some (CStr (py "Apple"))).
Proof.
  intros H.
  specialize (H sample_cleaned_world 1%nat sample_clean sample_tagged_world sample_tagged
                _ _ _ 2%nat (py "Apple Gaming Slim")
                sample_cleaned sample_tagged_run eq_refl eq_refl eq_refl eq_refl
                eq_refl eq_refl eq_refl).
  vm_compute in H. discriminate H.
Qed.

(** C2.  The third record of the sample has the SSD string [No SSD]: the
    table is cleaned, and the [ssd] of the record is missing. *)
Lemma no_digit_leaves_ssd_missing :
  ~ (forall w l d l' w' d' key c i x,
       holds w l d -> clean_data l w = (Returned l', w') -> holds w' l' d' ->
       In key [py "price"; py "ram"; py "ssd"; py "rating"] ->
       getitem d' key = Returned (Series c) ->
       nth_error (cells c) i = Some x ->
       isna x = false).
Proof.
  intros H.
  specialize (H sample_world 0%nat sample_raw 1%nat sample_cleaned_world sample_clean
                (py "ssd") _ 2%nat (CFloat NaN)
                eq_refl sample_run sample_cleaned
                (or_intror (or_intror (or_introl eq_refl))) eq_refl eq_refl).
  discriminate H.
Qed.

(** The category derivation, for its part, changes the table it is given,
    which is the cleaned one. *)
Lemma category_step_writes_its_table :
  ~ (forall w l d r w',
       holds w l d -> analyze_categories l w = (r, w') -> holds w' l d).
Proof.
  intros H.
  specialize (H sample_cleaned_world 1%nat sample_clean _ _
                sample_cleaned sample_tagged_run).
  vm_compute in H. discriminate H.
Qed.



(* ===================================================================== *)
(** * The theorems at the sample tables *)
(* ===================================================================== *)

Lemma absent_rating_becomes_zero_sample :
  nth_error (columns sample_clean) 2
  = Some (py "rating", fillna0 (Float64 [Fin (9 # 2); NaN; zero]))
  /\ forall i,
       (nth_error (cells (Float64 [Fin (9 # 2); NaN; zero])) i = Some (CFloat NaN) ->
        nth_error (cells (fillna0 (Float64 [Fin (9 # 2); NaN; zero]))) i
        = Some (CFloat zero))
       /\ (nth_error (cells (Float64 [Fin (9 # 2); NaN; zero])) i = Some (CFloat zero) ->
           nth_error (cells (fillna0 (Float64 [Fin (9 # 2); NaN; zero]))) i
           = Some (CFloat zero)).
Proof.
  refine (absent_rating_becomes_zero sample_world 0%nat sample_raw 1%nat
            sample_cleaned_world sample_clean _ _ _
            2%nat (py "Rating") (Float64 [Fin (9 # 2); NaN; zero]) _ _).
  - reflexivity.
  - vm_compute. reflexivity.
  - reflexivity.
  - reflexivity.
  - vm_compute. reflexivity.
Defined.


Lemma cleaned_numeric_fields_sample :
  exists zs,
    nth_error (columns sample_clean) 4 = Some (normalize (py "SSD"), Float64 zs)
    /\ forall i s,
         nth_error (cells (Object [CStr (py "256 GB SSD"); CStr (py "512GB");
                                   CStr (py "No SSD")])) i = Some (CStr s) ->
         exists x, nth_error zs i = Some x
                   /\ (is_nan x = false <-> existsb is_digit s = true).
Proof.
  refine (proj2 (proj2 (cleaned_numeric_fields sample_world 0%nat sample_raw 1%nat
            sample_cleaned_world sample_clean _ _ _
            4%nat (py "SSD")
            (Object [CStr (py "256 GB SSD"); CStr (py "512GB"); CStr (py "No SSD")])
            _)) _).
  - reflexivity.
  - vm_compute. reflexivity.
  - reflexivity.
  - reflexivity.
  - right. reflexivity.
Defined.


Lemma unparseable_price_aborts_sample :
  fst (clean_data 0%nat {| heap := [bad_price_raw]; stdout := [] |})
  = Raised ValueError.
Proof.
  apply (unparseable_price_aborts {| heap := [bad_price_raw]; stdout := [] |}
           0%nat bad_price_raw [CStr (py "₹54,999"); CStr (py "₹ on request")]).
  - reflexivity.
  - vm_compute. reflexivity.
  - reflexivity.
  - exists (py "₹ on request"). split; [right; left; reflexivity|].
    vm_compute. reflexivity.
Defined.

Lemma cleaning_works_on_a_copy_sample :
  (forall l0 d0, holds sample_world l0 d0 -> holds sample_cleaned_world l0 d0)
  /\ forall l', Returned 1%nat = Returned l' ->
       nth_error (heap sample_world) l' = None
       /\ (exists d', holds sample_cleaned_world l' d')
       /\ forall r2 w'', analyze_categories l' sample_cleaned_world = (r2, w'') ->
            (forall l0, l0 <> l' ->
               nth_error (heap w'') l0 = nth_error (heap sample_cleaned_world) l0)
            /\ holds w'' 0%nat sample_raw.
Proof.
  apply (cleaning_works_on_a_copy sample_world 0%nat sample_raw (Returned 1%nat)
           sample_cleaned_world).
  - reflexivity.
  - vm_compute. reflexivity.
Defined.



Lemma category_by_priority_sample :
  exists d' xm cb cat,
    holds sample_tagged_world 1%nat d'
    /\ getitem sample_clean (py "model") = Returned (Series (Object xm))
    /\ getitem sample_clean (py "brand") = Returned (Series cb)
    /\ labelled (py "category") d' <> []
    /\ (forall c, In c (labelled (py "category") d') -> c = Object cat)
    /\ forall i s b,
         (i < nrows sample_clean)%nat ->
         nth_error xm i = Some (CStr s) ->
         nth_error (cells cb) i = Some b ->
         let ultra := re_search_ci (py "Ultrabook|Thin|Slim") s in
         let gaming := re_search_ci (py "Gaming") s in
         exists tag,
           nth_error cat i = Some (CStr tag)
           /\ tag = category_rule s b
           /\ (ultra = true -> tag = py "Ultrabook")
           /\ (ultra = false -> b = CStr (py "Apple") -> tag = py "Apple")
           /\ (ultra = false -> b <> CStr (py "Apple") -> gaming = true ->
               tag = py "Gaming")
           /\ (ultra = false -> b <> CStr (py "Apple") -> gaming = false ->
               tag = py "General").
Proof.
  apply (category_by_priority sample_cleaned_world 1%nat sample_clean
           sample_tagged_world).
  - reflexivity.
  - vm_compute. reflexivity.
Defined.


(* ===================================================================== *)
(** * Further properties of [clean_data] *)
(* ===================================================================== *)

(** ** What [str.lower()] gives is in lower case *)

Lemma lower_entry_image (c lo hi to step : N) :
  0 < step -> lower_entry c (lo, hi, to, step) = true ->
  In (to + (c - lo)) (lower_images (lo, hi, to, step)).
Proof.
  unfold lower_entry, in_range. intros Hs H.
  apply andb_true_iff in H as [H M]. apply andb_true_iff in H as [H1 H2].
  apply N.leb_le in H1, H2. apply N.eqb_eq in M.
  pose proof (N.div_mod (c - lo) step ltac:(lia)) as DM. rewrite M in DM.
  pose proof (N.Div0.div_le_mono (c - lo) (hi - lo) step ltac:(lia)) as LE.
  unfold lower_images. apply in_map_iff.
  exists (N.to_nat ((c - lo) / step)). split.
  - rewrite N2Nat.id. lia.
  - apply in_seq. lia.
Qed.

Lemma lower_table_stable :
  forallb (fun r => let '(_, _, _, step) := r in
                    (0 <? step) && forallb lower_stable (lower_images r))
          lower_table = true.
Proof. vm_compute. reflexivity. Qed.

Lemma ascii_lower_stable :
  forallb (fun i => lower_stable (ascii_lower (N.of_nat i))) (seq 0 128) = true.
Proof. vm_compute. reflexivity. Qed.

Lemma lower_char_stable (c : codepoint) :
  c <> 0x3A3 -> c <> 0x130 -> lower_stable (lower_char c) = true.
Proof.
  intros HS HI. unfold lower_char.
  destruct (c <? 128) eqn:A.
  - apply N.ltb_lt in A. pose proof ascii_lower_stable as T.
    rewrite forallb_forall in T. specialize (T (N.to_nat c)).
    rewrite N2Nat.id in T. apply T, in_seq. lia.
  - destruct (List.find (lower_entry c) lower_table) as [[[[lo hi] to] step]|] eqn:F.
    + apply find_some in F as [Hin E].
      pose proof lower_table_stable as T. rewrite forallb_forall in T.
      specialize (T _ Hin). cbn beta iota in T.
      apply andb_true_iff in T as [T1 T2]. apply N.ltb_lt in T1.
      rewrite forallb_forall in T2. apply T2.
      now apply lower_entry_image.
    + unfold lower_stable, lower_char. rewrite A, F, N.eqb_refl.
      apply N.eqb_neq in HS, HI. now rewrite HS, HI.
Qed.

Lemma lower_stable_inv (c : codepoint) :
  lower_stable c = true -> lower_char c = c /\ (c =? 0x3A3) = false /\ (c =? 0x130) = false.
Proof.
  unfold lower_stable. intros H.
  apply andb_true_iff in H as [H H3]. apply andb_true_iff in H as [H1 H2].
  apply N.eqb_eq in H1. apply negb_true_iff in H2, H3. auto.
Qed.

(** Every character of a lower-cased text is in lower case for good. *)
Lemma lower_from_all_stable (before s : str) :
  forallb lower_stable (lower_from before s) = true.
Proof.
  revert before; induction s as [|c r IH]; intros before; [reflexivity|].
  cbn [lower_from]. rewrite forallb_app, IH, andb_true_r.
  destruct (c =? 0x3A3) eqn:S.
  - destruct (final_sigma before r); vm_compute; reflexivity.
  - destruct (c =? 0x130) eqn:I; [vm_compute; reflexivity|].
    cbn [forallb]. rewrite andb_true_r.
    apply lower_char_stable; now apply N.eqb_neq.
Qed.

(** A text in lower case is its own lower case. *)
Lemma lower_from_stable (before s : str) :
  forallb lower_stable s = true -> lower_from before s = s.
Proof.
  revert before; induction s as [|c r IH]; intros before H; [reflexivity|].
  cbn [forallb] in H. apply andb_true_iff in H as [Hc Hr].
  apply lower_stable_inv in Hc as (L & S & I).
  cbn [lower_from]. rewrite S, I, L, (IH _ Hr). reflexivity.
Qed.

Lemma replace_space_stable (s : str) :
  forallb lower_stable s = true ->
  forallb lower_stable (replace 32 [95] s) = true.
Proof.
  unfold replace. induction s as [|c r IH]; [reflexivity|].
  cbn [forallb flat_map]. intros H. apply andb_true_iff in H as [Hc Hr].
  rewrite forallb_app, (IH Hr), andb_true_r.
  destruct (c =? 32); [vm_compute; reflexivity|].
  cbn [forallb]. now rewrite Hc.
Qed.

Lemma replace_space_twice (s : str) :
  replace 32 [95] (replace 32 [95] s) = replace 32 [95] s.
Proof.
  unfold replace. induction s as [|c r IH]; [reflexivity|].
  cbn [flat_map]. destruct (c =? 32) eqn:E; cbn [app flat_map].
  - now rewrite IH.
  - now rewrite E, IH.
Qed.

Lemma normalize_stable (k : str) : forallb lower_stable (normalize k) = true.
Proof. apply replace_space_stable, lower_from_all_stable. Qed.

Lemma normalize_twice (k : str) : normalize (normalize k) = normalize k.
Proof.
  unfold normalize at 1. unfold lower.
  rewrite (lower_from_stable [] _ (normalize_stable k)).
  unfold normalize. apply replace_space_twice.
Qed.

(** X1.  Normalising the column names of a table whose names are
    normalised changes nothing. *)
Theorem normalize_columns_idempotent (d : DataFrame) :
  normalize_columns (normalize_columns d) = normalize_columns d.
Proof.
  unfold normalize_columns. cbn [nrows columns]. f_equal.
  rewrite map_map. apply map_ext. intros [k c]. cbn [fst snd].
  now rewrite normalize_twice.
Qed.

(** No normalised name is [Price]: it would start with a capital. *)
Lemma normalize_not_Price (k : str) :
  str_eqb (normalize k) (py "Price") = false.
Proof.
  pose proof (normalize_stable k) as H.
  destruct (normalize k) as [|c r]; [reflexivity|].
  cbn [forallb] in H. apply andb_true_iff in H as [Hc _].
  change (py "Price") with (80 :: py "rice"). cbn [str_eqb].
  destruct (c =? 80) eqn:E; [|reflexivity].
  apply N.eqb_eq in E. subst c. vm_compute in Hc. discriminate Hc.
Qed.

Lemma labelled_none (key : str) (cols : list (str * column)) :
  (forall kc, In kc cols -> str_eqb (fst kc) key = false) ->
  List.map snd (List.filter (has_label key) cols) = [].
Proof.
  induction cols as [|kc r IH]; [reflexivity|]. intros H.
  cbn [List.filter]. unfold has_label at 1. rewrite (H kc) by now left.
  apply IH. intros k Hk. apply H. now right.
Qed.

Lemma cleaned_has_no_Price (n : nat) (zp zr zs : list pyfloat) (xm : list cell)
    (cols : list (str * column)) :
  List.map snd (List.filter (has_label (py "Price"))
                  (cleaned_columns n zp zr zs xm cols)) = [].
Proof.
  unfold cleaned_columns, set_brand.
  rewrite labelled_set_column_other by reflexivity.
  apply labelled_none. intros kc Hk.
  apply in_map_iff in Hk as (kc0 & <- & _). cbn [fst].
  apply normalize_not_Price.
Qed.

(** X2.  [clean_data] cannot be applied to its own result: the cleaned
    table has no column named [Price] any more, and the second call raises
    [KeyError] for that name. *)
Theorem cleaning_twice_is_refused (w : world) (l : loc) (d : DataFrame)
    (l' : loc) (w' : world) :
  holds w l d ->
  clean_data l w = (Returned l', w') ->
  fst (clean_data l' w') = Raised (KeyError (py "Price")).
Proof.
  intros Hd Hrun.
  destruct (clean_data_returned w l d l' w' Hd Hrun) as (d' & CS & _ & _ & Hd').
  destruct (clean_steps_returned d d' CS) as (zp & xr & xs & xm & _ & E).
  pose proof (clean_data_run w' l' d' Hd') as R.
  assert (C : clean_steps d' = Raised (KeyError (py "Price"))).
  { unfold clean_steps. rewrite price_step. unfold labelled. rewrite E.
    cbn [columns]. now rewrite cleaned_has_no_Price. }
  rewrite C in R. destruct R as [dp R]. now rewrite R.
Qed.

(** X3.  A successful [clean_data] creates one table, the one it returns,
    and prints one line. *)
Theorem cleaning_adds_one_table_and_one_line (w : world) (l : loc) (d : DataFrame)
    (l' : loc) (w' : world) :
  holds w l d ->
  clean_data l w = (Returned l', w') ->
  l' = List.length (heap w)
  /\ List.length (heap w') = S (List.length (heap w))
  /\ stdout w' = stdout w ++ [py "✅ Datos limpiados y transformados"].
Proof.
  intros Hd R.
  destruct (clean_data_returned w l d l' w' Hd R) as (d' & _ & -> & -> & _).
  cbn [heap stdout]. rewrite length_app. cbn [List.length].
  split; [reflexivity|]. split; [lia|reflexivity].
Qed.

Lemma astype_float_length (xs : list cell) (zs : list pyfloat) :
  astype_float xs = Returned zs -> List.length zs = List.length xs.
Proof.
  revert zs; induction xs as [|c r IH]; intros zs; cbn [astype_float].
  - intros [= <-]. reflexivity.
  - destruct (float_of_cell c) as [x|e]; cbn [obind]; [|discriminate].
    destruct (astype_float r) as [zr|e]; cbn [obind]; [|discriminate].
    intros [= <-]. cbn [List.length]. f_equal. now apply IH.
Qed.

Lemma price_cells_length (xp : list cell) (zp : list pyfloat) :
  price_cells xp = Returned zp -> List.length zp = List.length xp.
Proof.
  unfold price_cells, str_replace, str_map. intros H.
  apply astype_float_length in H. now rewrite !length_map in H.
Qed.

Lemma fillna0_length (c : column) :
  List.length (cells (fillna0 c)) = List.length (cells c).
Proof. destruct c; cbn [fillna0 cells]; now rewrite !length_map. Qed.

Lemma brand_of_length (xm : list cell) :
  List.length (cells (brand_of xm)) = List.length xm.
Proof.
  unfold brand_of. cbn [replace_column cells].
  unfold replace_values, str_get0, str_split. now rewrite !length_map.
Qed.

Lemma labelled_in (key : str) (cols : list (str * column)) (c : column) :
  In c (List.map snd (List.filter (has_label key) cols)) ->
  exists k, In (k, c) cols.
Proof.
  intros H. apply in_map_iff in H as ([k c0] & <- & H).
  apply filter_In in H as [H _]. now exists k.
Qed.

Lemma labelled_normalized_in (key : str) (d : DataFrame) (c : column) :
  In c (labelled key (normalize_columns d)) -> exists k, In (k, c) (columns d).
Proof.
  intros H. apply labelled_in in H as [k H]. unfold normalize_columns in H.
  cbn [columns] in H. apply in_map_iff in H as ([k0 c0] & [= _ <-] & H).
  now exists k0.
Qed.

Lemma set_series_Forall (P : column -> Prop) (key : str) (b : column)
    (cols : list (str * column)) :
  Forall (fun kc => P (snd kc)) cols -> P b ->
  Forall (fun kc => P (snd kc)) (set_series key b cols).
Proof.
  intros H Hb. unfold set_series.
  destruct (existsb (has_label key) cols).
  - unfold map_label. apply Forall_map. eapply Forall_impl; [|exact H].
    intros kc Hkc. cbn beta. destruct (has_label key kc); [exact Hb|exact Hkc].
  - apply Forall_app. split; [exact H|]. now constructor.
Qed.

Lemma broadcast_length (n : nat) (v : cell) :
  List.length (cells (broadcast n v)) = n.
Proof.
  destruct v; cbn [broadcast cells]; now rewrite ?length_map, repeat_length.
Qed.

Lemma set_column_Forall (P : column -> Prop) (n : nat) (key : str) (b : column)
    (cols : list (str * column)) :
  Forall (fun kc => P (snd kc)) cols -> P b -> (forall v, P (broadcast n v)) ->
  Forall (fun kc => P (snd kc)) (set_column n key b cols).
Proof.
  intros H Hb Hv. unfold set_column. destruct (one_value_per_column key b cols).
  - apply assign_frame_Forall; [exact H|]. apply Forall_map, Forall_forall. auto.
  - now apply set_series_Forall.
Qed.

Lemma price_cells_nth_float (xp : list cell) (zp : list pyfloat) (i : nat) (x : pyfloat) :
  price_cells xp = Returned zp -> nth_error xp i = Some (CFloat x) ->
  nth_error zp i = Some NaN.
Proof.
  revert zp i; induction xp as [|c r IH]; intros zp i H Hi; [now destruct i|].
  rewrite price_cells_cons in H.
  destruct c as [s|y].
  - destruct (py_float _); cbn [obind] in H; [|discriminate].
    destruct (price_cells r) as [zr|e]; cbn [obind] in H; [|discriminate].
    injection H as <-. destruct i as [|i]; [discriminate|].
    cbn [nth_error] in *. now apply IH.
  - cbn [obind] in H.
    destruct (price_cells r) as [zr|e]; cbn [obind] in H; [|discriminate].
    injection H as <-. destruct i as [|i]; [reflexivity|].
    cbn [nth_error] in *. now apply IH.
Qed.

Lemma labelled_label_in (key : str) (cols : list (str * column)) :
  List.map snd (List.filter (has_label key) cols) <> [] ->
  In key (List.map fst cols).
Proof.
  intros H. destruct (List.filter (has_label key) cols) as [|kc r] eqn:E;
    [now contradiction H|].
  assert (Hin : In kc (List.filter (has_label key) cols)) by (rewrite E; now left).
  apply filter_In in Hin as [Hin Hl]. unfold has_label in Hl.
  apply str_eqb_eq in Hl. subst key. now apply in_map.
Qed.

Lemma getitem_present (d : DataFrame) (key : str) :
  In key (List.map fst (columns d)) -> exists v, getitem d key = Returned v.
Proof.
  intros H. apply in_map_iff in H as (kc & <- & Hin).
  unfold getitem, labelled.
  assert (F : In kc (List.filter (has_label (fst kc)) (columns d)))
    by (apply filter_In; split; [exact Hin|apply str_eqb_refl]).
  destruct (List.filter _ (columns d)) as [|a [|b r]]; [contradiction| |];
    eexists; reflexivity.
Qed.

Lemma normalized_label_in (key : str) (cols : list (str * column)) :
  In key (List.map fst cols) ->
  In (normalize key) (List.map (fun kc : str * column => normalize (fst kc)) cols).
Proof.
  intros H. apply in_map_iff in H as (kc & <- & Hin).
  apply in_map_iff. now exists kc.
Qed.

Section CleanedFurther.

Variables (w : world) (l : loc) (d : DataFrame).
Variables (l' : loc) (w' : world) (d' : DataFrame).
Hypothesis raw : holds w l d.
Hypothesis returned : clean_data l w = (Returned l', w').
Hypothesis cleaned : holds w' l' d'.

(** X4.  Cleaning keeps every record: the cleaned table has as many rows
    as the raw one, and when every column of the raw table has one value
    per row, so has every column of the cleaned table, the new brand
    column included. *)
Theorem cleaning_keeps_the_rows :
  nrows d' = nrows d /\ (aligned d -> aligned d').
Proof.
  destruct (cleaned_shape w l d l' w' d' raw returned cleaned)
    as (zp & xr & xs & xm & A & ->).
  split; [reflexivity|]. intros Al. unfold aligned in *. cbn [nrows columns].
  destruct A as (xp & EP & _ & PP & ER & _ & ES & _ & _ & EM & _).
  assert (In_len : forall k c, In (k, c) (columns d) ->
                     List.length (cells c) = nrows d).
  { intros k c H. rewrite Forall_forall in Al. exact (Al (k, c) H). }
  assert (Lab : forall key c, In c (labelled key d) ->
                  List.length (cells c) = nrows d).
  { intros key c H. apply labelled_in in H as [k H]. eauto. }
  unfold cleaned_columns, set_brand.
  apply (set_column_Forall (fun c => List.length (cells c) = nrows d));
    [| |intros v; apply broadcast_length].
  - apply Forall_map. apply Forall_forall. intros [k c] Hkc. cbn [fst snd].
    pose proof (In_len k c Hkc) as Hc.
    unfold cleaned_column.
    assert (Lp : List.length (cells (Float64 zp)) = nrows d).
    { cbn [cells]. rewrite length_map, (price_cells_length xp zp PP).
      apply (Lab (py "Price") (Object xp)). rewrite EP. now left. }
    assert (Lr : List.length (cells (Float64 (List.map extract_value xr))) = nrows d).
    { cbn [cells]. rewrite !length_map.
      apply (Lab (py "Ram") (Object xr)). rewrite ER. now left. }
    assert (Ls : List.length (cells (Float64 (List.map extract_value xs))) = nrows d).
    { cbn [cells]. rewrite !length_map.
      apply (Lab (py "SSD") (Object xs)). rewrite ES. now left. }
    set (c1 := if str_eqb k (py "Price") then _ else _).
    assert (L1 : List.length (cells c1) = nrows d).
    { unfold c1. destruct (str_eqb k (py "Price")); [exact Lp|].
      destruct (str_eqb k (py "Ram")); [exact Lr|].
      destruct (str_eqb k (py "SSD")); [exact Ls|exact Hc]. }
    destruct (str_eqb (normalize k) (py "rating"));
      [rewrite fillna0_length|]; exact L1.
  - rewrite brand_of_length.
    assert (H : In (Object xm) (labelled (py "model") (normalize_columns d)))
      by (rewrite EM; now left).
    apply labelled_normalized_in in H as [k H]. exact (In_len k _ H).
Qed.

(** X5.  A column that is none of [Price], [Ram] and [SSD] and whose
    normalised name is neither [rating] nor [brand] passes through: the
    cleaned table holds it at the same place with the same values, under
    its normalised name. *)
Theorem other_columns_pass_through (j : nat) (k : str) (c : column) :
  nth_error (columns d) j = Some (k, c) ->
  k <> py "Price" -> k <> py "Ram" -> k <> py "SSD" ->
  normalize k <> py "rating" -> normalize k <> py "brand" ->
  nth_error (columns d') j = Some (normalize k, c).
Proof.
  intros Hj N1 N2 N3 N4 N5.
  destruct (cleaned_shape w l d l' w' d' raw returned cleaned)
    as (zp & xr & xs & xm & _ & ->).
  cbn [columns].
  rewrite (cleaned_nth _ _ _ _ _ _ _ _ _ Hj)
    by (destruct (str_eqb (normalize k) (py "brand")) eqn:E;
        [apply str_eqb_eq in E; contradiction|reflexivity]).
  unfold cleaned_column.
  replace (str_eqb (normalize k) (py "rating")) with false
    by (symmetry; destruct (str_eqb (normalize k) (py "rating")) eqn:E;
        [apply str_eqb_eq in E; contradiction|reflexivity]).
  replace (str_eqb k (py "Price")) with false
    by (symmetry; destruct (str_eqb k (py "Price")) eqn:E;
        [apply str_eqb_eq in E; contradiction|reflexivity]).
  replace (str_eqb k (py "Ram")) with false
    by (symmetry; destruct (str_eqb k (py "Ram")) eqn:E;
        [apply str_eqb_eq in E; contradiction|reflexivity]).
  replace (str_eqb k (py "SSD")) with false
    by (symmetry; destruct (str_eqb k (py "SSD")) eqn:E;
        [apply str_eqb_eq in E; contradiction|reflexivity]).
  reflexivity.
Qed.

(** X6.  In the columns [Price], [Ram] and [SSD] a value that is not a
    string, a missing one or a number, is not an error: the cleaned value
    of that record is missing. *)
Theorem values_that_are_not_text_go_missing (j : nat) (k : str) (c : column) :
  nth_error (columns d) j = Some (k, c) ->
  k = py "Price" \/ k = py "Ram" \/ k = py "SSD" ->
  exists zs,
    nth_error (columns d') j = Some (normalize k, Float64 zs)
    /\ forall i x, nth_error (cells c) i = Some (CFloat x) ->
                   nth_error zs i = Some NaN.
Proof.
  intros Hj [-> | Hk].
  - destruct (cleaned_price_column w l d l' w' d' raw returned cleaned j c Hj)
      as (xp & zp & -> & PP & E).
    exists zp. split; [exact E|]. intros i x Hi.
    exact (price_cells_nth_float xp zp i x PP Hi).
  - destruct (cleaned_memory_column w l d l' w' d' raw returned cleaned j k c Hj Hk)
      as (xs & -> & E).
    exists (List.map extract_value xs). split; [exact E|].
    intros i x Hi. cbn [cells] in Hi. now rewrite nth_error_map, Hi.
Qed.

(** X7.  The cleaned table has every column that the reports and the
    category derivation look up by name: [price], [ram], [ssd], [rating],
    [brand] and [model] are among its column names, and [df[name]] returns
    for each of them. *)
Theorem reports_find_their_columns (key : str) :
  In key [py "price"; py "ram"; py "ssd"; py "rating"; py "brand"; py "model"] ->
  In key (List.map fst (columns d')) /\ exists v, getitem d' key = Returned v.
Proof.
  intros K.
  assert (G : In key (List.map fst (columns d')));
    [|split; [exact G|now apply getitem_present]].
  destruct (cleaned_shape w l d l' w' d' raw returned cleaned)
    as (zp & xr & xs & xm & A & ->).
  cbn [columns]. rewrite cleaned_labels. cbn zeta.
  destruct A as (xp & EP & _ & _ & ER & _ & ES & _ & ERt & EM & _).
  set (names := List.map (fun kc : str * column => normalize (fst kc)) (columns d)).
  assert (N0 : forall k c, labelled k d = [c] -> In (normalize k) names).
  { intros k c E. apply normalized_label_in, labelled_label_in.
    fold (labelled k d). rewrite E. discriminate. }
  assert (N1 : forall k, labelled k (normalize_columns d) <> [] -> In k names).
  { intros k E. apply labelled_label_in in E.
    unfold normalize_columns in E. cbn [columns] in E.
    rewrite map_map in E. exact E. }
  assert (Names : key = py "brand" \/ In key names).
  { cbn [In] in K.
    destruct K as [<-|[<-|[<-|[<-|[<-|[<-|[]]]]]]]; [right|right|right|right|left|right].
    - exact (N0 _ _ EP).
    - exact (N0 _ _ ER).
    - exact (N0 _ _ ES).
    - exact (N1 _ ERt).
    - reflexivity.
    - apply N1. rewrite EM. discriminate. }
  destruct (existsb (fun n => str_eqb n (py "brand")) names) eqn:B.
  - destruct Names as [->|H]; [|exact H].
    apply existsb_exists in B as (n & Hn & Bn). apply str_eqb_eq in Bn. now subst n.
  - apply in_or_app. destruct Names as [->|H]; [right; now left|now left].
Qed.

End CleanedFurther.

(* ===================================================================== *)
(** * Further properties of [analyze_categories] *)
(* ===================================================================== *)

Lemma existsb_map_label (key : str) (f : column -> column) (cols : list (str * column)) :
  existsb (has_label key) (map_label key f cols) = existsb (has_label key) cols.
Proof.
  unfold map_label. rewrite existsb_map_comp.
  induction cols as [|kc r IH]; [reflexivity|]. cbn [existsb]. rewrite IH.
  f_equal. destruct (has_label key kc) eqn:E; [|exact E].
  unfold has_label in *. exact E.
Qed.

Lemma map_label_set_series (key : str) (f : column -> column) (b : column)
    (cols : list (str * column)) :
  map_label key f (set_series key b cols) = set_series key (f b) cols.
Proof.
  unfold set_series. destruct (existsb (has_label key) cols) eqn:E.
  - now rewrite map_label_twice.
  - unfold map_label at 1. rewrite map_app.
    fold (map_label key f cols). rewrite (map_label_absent _ _ _ E).
    cbn [List.map]. unfold has_label. cbn [fst snd].
    now rewrite str_eqb_refl.
Qed.

Lemma set_series_twice (key : str) (b : column) (cols : list (str * column)) :
  set_series key b (set_series key b cols) = set_series key b cols.
Proof.
  unfold set_series at 2. destruct (existsb (has_label key) cols) eqn:E.
  - unfold set_series. rewrite existsb_map_label, E. now rewrite map_label_twice.
  - unfold set_series. rewrite E, existsb_app. cbn [existsb]. unfold has_label at 2.
    cbn [fst]. rewrite str_eqb_refl, orb_true_r.
    unfold map_label. rewrite map_app.
    fold (map_label key (fun _ => b) cols). rewrite (map_label_absent _ _ _ E).
    cbn [List.map]. unfold has_label. cbn [fst snd]. now rewrite str_eqb_refl.
Qed.

Lemma category_steps_eq (d : DataFrame) (xm : list cell) (cb : column)
    (g u : list bool) :
  labelled (py "model") d = [Object xm] -> str_like xm = true ->
  labelled (py "brand") d = [cb] ->
  str_contains_ci (py "Gaming") xm = List.map Some g ->
  str_contains_ci (py "Ultrabook|Thin|Slim") xm = List.map Some u ->
  category_steps d
  = Returned {| nrows := nrows d;
                columns := set_series (py "category")
                  (Object (category_cells g (eq_str (py "Apple") (cells cb)) u (nrows d)))
                  (columns d) |}.
Proof.
  intros EM LM EB G U. unfold category_steps, step. cbn [obind].
  rewrite setitem_scalar_str. cbn [obind].
  rewrite model_mask_step.
  match goal with |- context [labelled (py "model") ?x] =>
    replace (labelled (py "model") x) with [Object xm]
      by (at_category; symmetry; exact EM) end.
  rewrite LM, G, bool_indexer_some. cbn [obind nrows columns].
  rewrite brand_mask_step.
  match goal with |- context [labelled (py "brand") ?x] =>
    replace (labelled (py "brand") x) with [cb]
      by (at_category; symmetry; exact EB) end.
  cbn [obind nrows columns].
  rewrite model_mask_step.
  match goal with |- context [labelled (py "model") ?x] =>
    replace (labelled (py "model") x) with [Object xm]
      by (at_category; symmetry; exact EM) end.
  rewrite LM, U, bool_indexer_some. cbn [nrows columns].
  now rewrite !map_label_set_series.
Qed.

Lemma category_steps_shape (d d' : DataFrame) :
  category_steps d = Returned d' ->
  exists xm cb g u,
    labelled (py "model") d = [Object xm] /\ str_like xm = true
    /\ labelled (py "brand") d = [cb]
    /\ str_contains_ci (py "Gaming") xm = List.map Some g
    /\ str_contains_ci (py "Ultrabook|Thin|Slim") xm = List.map Some u
    /\ d' = {| nrows := nrows d;
               columns := set_series (py "category")
                 (Object (category_cells g (eq_str (py "Apple") (cells cb)) u (nrows d)))
                 (columns d) |}.
Proof.
  intros H0. pose proof H0 as H. unfold category_steps, step in H.
  cbn [obind] in H. rewrite setitem_scalar_str in H. cbn [obind] in H.
  rewrite model_mask_step in H.
  match type of H with context [labelled (py "model") ?x] =>
    replace (labelled (py "model") x) with (labelled (py "model") d) in H
      by (at_category; reflexivity) end.
  destruct (labelled (py "model") d) as [|[z|xm] [|c2 r2]] eqn:EM;
    cbn [obind] in H; try discriminate H.
  destruct (str_like xm) eqn:LM; cbn [obind] in H; try discriminate H.
  destruct (bool_indexer (str_contains_ci (py "Gaming") xm)) as [g|e] eqn:G;
    cbn [obind nrows columns] in H; try discriminate H.
  rewrite brand_mask_step in H.
  match type of H with context [labelled (py "brand") ?x] =>
    replace (labelled (py "brand") x) with (labelled (py "brand") d) in H
      by (at_category; reflexivity) end.
  destruct (labelled (py "brand") d) as [|cb [|c3 r3]] eqn:EB;
    cbn [obind nrows columns] in H; try discriminate H.
  rewrite model_mask_step in H.
  match type of H with context [labelled (py "model") ?x] =>
    replace (labelled (py "model") x) with [Object xm] in H
      by (at_category; symmetry; exact EM) end.
  rewrite LM in H.
  destruct (bool_indexer (str_contains_ci (py "Ultrabook|Thin|Slim") xm)) as [u|e] eqn:U;
    cbn [nrows columns] in H; try discriminate H.
  clear H. apply bool_indexer_inv in G, U.
  exists xm, cb, g, u. repeat (split; [assumption|]).
  rewrite (category_steps_eq d xm cb g u EM LM EB G U) in H0. now injection H0.
Qed.

Lemma set_where_length (m : list bool) (v : cell) (xs : list cell) :
  List.length (set_where m v xs) = List.length xs.
Proof.
  revert xs; induction m as [|b m IH]; intros [|x xs]; cbn [set_where List.length];
    try reflexivity. now rewrite IH.
Qed.

Lemma set_where_values (m : list bool) (v : cell) (xs : list cell) (c : cell) :
  In c (set_where m v xs) -> c = v \/ In c xs.
Proof.
  revert xs; induction m as [|b m IH]; intros [|x xs]; cbn [set_where];
    try (intros H; now right).
  intros [H|H].
  - destruct b; [now left|right; now left].
  - destruct (IH xs H) as [E|E]; [now left|right; now right].
Qed.

(** X8.  [analyze_categories] touches one column of the table it is given
    and nothing else: where it returns, the table is the one it was given
    with the category column written over the columns of that name, or put
    after the last column; the column has one value per record, each one
    of [General], [Gaming], [Apple] and [Ultrabook]; nothing is printed by
    the lines modelled and the other tables are as they were. *)
Theorem categories_touch_one_column (w : world) (l : loc) (d : DataFrame) (w' : world) :
  holds w l d ->
  analyze_categories l w = (Returned tt, w') ->
  exists cat,
    w' = {| heap := update l {| nrows := nrows d;
                                columns := set_series (py "category") (Object cat)
                                             (columns d) |} (heap w);
            stdout := stdout w |}
    /\ List.length cat = nrows d
    /\ forall c, In c cat ->
         c = CStr (py "General") \/ c = CStr (py "Gaming")
         \/ c = CStr (py "Apple") \/ c = CStr (py "Ultrabook").
Proof.
  intros Hd Hrun. pose proof (analyze_run w l d Hd) as R.
  destruct (category_steps d) as [d'|e] eqn:CS;
    [|destruct R as [dp R]; rewrite R in Hrun; discriminate].
  rewrite R in Hrun. injection Hrun as <-.
  destruct (category_steps_shape d d' CS) as (xm & cb & g & u & _ & _ & _ & _ & _ & ->).
  eexists. split; [reflexivity|]. split.
  - unfold category_cells. now rewrite !set_where_length, repeat_length.
  - intros c Hc. unfold category_cells in Hc.
    apply set_where_values in Hc as [->|Hc]; [now (right; right; right)|].
    apply set_where_values in Hc as [->|Hc]; [now (right; right; left)|].
    apply set_where_values in Hc as [->|Hc]; [now (right; left)|].
    apply repeat_spec in Hc. now left.
Qed.

(** X9.  The category derivation can be repeated: a second run on the
    table it has written leaves the whole state as the first run left it. *)
Theorem categories_can_be_derived_again (w : world) (l : loc) (d : DataFrame)
    (w' : world) :
  holds w l d ->
  analyze_categories l w = (Returned tt, w') ->
  analyze_categories l w' = (Returned tt, w').
Proof.
  intros Hd Hrun. pose proof (analyze_run w l d Hd) as R.
  destruct (category_steps d) as [d'|e] eqn:CS;
    [|destruct R as [dp R]; rewrite R in Hrun; discriminate].
  rewrite R in Hrun. injection Hrun as <-.
  destruct (category_steps_shape d d' CS)
    as (xm & cb & g & u & EM & LM & EB & G & U & E).
  assert (Hd' : holds {| heap := update l d' (heap w); stdout := stdout w |} l d')
    by (unfold holds; cbn [heap]; eapply update_same; exact Hd).
  pose proof (analyze_run _ l d' Hd') as R'.
  assert (CS' : category_steps d' = Returned d').
  { rewrite (category_steps_eq d' xm cb g u).
    - rewrite E. cbn [nrows columns]. now rewrite set_series_twice.
    - rewrite E. unfold labelled. cbn [columns].
      rewrite labelled_set_series_other by reflexivity. exact EM.
    - exact LM.
    - rewrite E. unfold labelled. cbn [columns].
      rewrite labelled_set_series_other by reflexivity. exact EB.
    - exact G.
    - exact U. }
  rewrite CS' in R'. rewrite R'. cbn [heap stdout].
  now rewrite update_update.
Qed.

Lemma bool_indexer_missing (pat : str) (xm : list cell) (x : pyfloat) :
  In (CFloat x) xm ->
  exists e, bool_indexer (str_contains_ci pat xm) = Raised e /\ e = ValueError.
Proof.
  induction xm as [|c r IH]; [contradiction|]. intros [->|H].
  - exists ValueError. split; reflexivity.
  - destruct (IH H) as (e & E & ->). exists ValueError. split; [|reflexivity].
    cbn [str_contains_ci List.map bool_indexer]. destruct c; [|reflexivity].
    unfold str_contains_ci in E. rewrite E. reflexivity.
Qed.

(** X10.  When a record has no model, [analyze_categories] raises
    [ValueError] at its first selection, after the category column has been
    created: the table it was given is left with that column, [General] in
    every record. *)
Theorem missing_model_stops_the_categories (w : world) (l : loc) (d : DataFrame)
    (xm : list cell) (x : pyfloat) :
  holds w l d ->
  labelled (py "model") d = [Object xm] -> str_like xm = true ->
  In (CFloat x) xm ->
  analyze_categories l w
  = (Raised ValueError,
     {| heap := update l
          {| nrows := nrows d;
             columns := set_series (py "category")
                          (Object (repeat (CStr (py "General")) (nrows d)))
                          (columns d) |} (heap w);
        stdout := stdout w |}).
Proof.
  intros Hd EM LM Hx. destruct w as [h out]. unfold holds in Hd. cbn [heap] in Hd.
  cbn [heap stdout]. unfold analyze_categories.
  rewrite <- (update_id h l d Hd) at 1.
  rewrite (bind_assign_scalar_upd h out l d Hd).
  rewrite setitem_scalar_str.
  rewrite (bind_assign_where_upd h out l d Hd).
  rewrite model_mask_step.
  match goal with |- context [labelled (py "model") ?y] =>
    replace (labelled (py "model") y) with [Object xm]
      by (at_category; symmetry; exact EM) end.
  rewrite LM.
  destruct (bool_indexer_missing (py "Gaming") xm x Hx) as (e & E & ->).
  rewrite E. reflexivity.
Qed.

Lemma sre_lower_ascii_lower (c : codepoint) :
  sre_lower (ascii_lower c) = sre_lower c.
Proof.
  unfold sre_lower, ascii_lower, is_ascii_upper, in_range.
  destruct (65 <=? c) eqn:E1; destruct (c <=? 90) eqn:E2; cbn [andb];
    try rewrite E1; try rewrite E2; cbn [andb]; try reflexivity.
  apply N.leb_le in E1, E2. decide_tests. reflexivity.
Qed.

Lemma ci_char_ascii_lower (p c : codepoint) :
  ci_char p (ascii_lower c) = ci_char p c.
Proof.
  unfold ci_char. rewrite sre_lower_ascii_lower.
  destruct (is_ascii_upper p || is_ascii_lower p) eqn:P; [reflexivity|].
  apply orb_false_iff in P as [P1 P2].
  unfold ascii_lower. destruct (is_ascii_upper c) eqn:C; [|reflexivity].
  unfold is_ascii_upper, is_ascii_lower, in_range in *.
  apply andb_true_iff in C as [C1 C2]. apply N.leb_le in C1, C2.
  destruct (c =? p) eqn:E1.
  - apply N.eqb_eq in E1. subst p.
    replace (65 <=? c) with true in P1 by (symmetry; apply N.leb_le; lia).
    replace (c <=? 90) with true in P1 by (symmetry; apply N.leb_le; lia).
    discriminate.
  - destruct (c + 32 =? p) eqn:E2; [|reflexivity].
    apply N.eqb_eq in E2. subst p.
    replace (97 <=? c + 32) with true in P2 by (symmetry; apply N.leb_le; lia).
    replace (c + 32 <=? 122) with true in P2 by (symmetry; apply N.leb_le; lia).
    discriminate.
Qed.

Lemma ci_prefix_lower (p s : str) :
  ci_prefix p (List.map ascii_lower s) = ci_prefix p s.
Proof.
  revert s; induction p as [|a p IH]; intros s; [now destruct s|].
  destruct s as [|c s]; [reflexivity|].
  cbn [List.map ci_prefix]. now rewrite ci_char_ascii_lower, IH.
Qed.

Lemma ci_search_lower (p s : str) :
  ci_search p (List.map ascii_lower s) = ci_search p s.
Proof.
  induction s as [|c s IH]; [reflexivity|].
  cbn [ci_search]. rewrite <- IH. cbn [List.map ci_search]. f_equal.
  exact (ci_prefix_lower p (c :: s)).
Qed.

Lemma re_search_ci_lower (pat s : str) :
  re_search_ci pat (List.map ascii_lower s) = re_search_ci pat s.
Proof.
  unfold re_search_ci. induction (branches pat) as [|br r IH]; [reflexivity|].
  cbn [existsb]. now rewrite ci_search_lower, IH.
Qed.

(** X11.  The two patterns of the source are matched without regard to the
    case of the ASCII letters of the model: two models that differ only in
    the case of such letters give the same answer to
    [.str.contains(pat, case=False)].  (The brand, which is compared with
    [==], is not treated so.) *)
Theorem model_patterns_ignore_ascii_case (s t pat : str) :
  In pat [py "Gaming"; py "Ultrabook|Thin|Slim"] ->
  List.map ascii_lower s = List.map ascii_lower t ->
  re_search_ci pat s = re_search_ci pat t
  /\ str_contains_ci pat [CStr s] = str_contains_ci pat [CStr t].
Proof.
  intros _ H.
  assert (E : re_search_ci pat s = re_search_ci pat t)
    by (now rewrite <- (re_search_ci_lower pat s), H, re_search_ci_lower).
  split; [exact E|]. unfold str_contains_ci. cbn [List.map]. now rewrite E.
Qed.

(* ===================================================================== *)
(** * The rows of the rating panel *)
(* ===================================================================== *)

Lemma keep_map_filter {A} (p : A -> bool) (xs : list A) :
  keep (List.map p xs) xs = List.filter p xs.
Proof.
  induction xs as [|x r IH]; [reflexivity|].
  cbn [List.map keep List.filter]. destruct (p x); now rewrite IH.
Qed.

Lemma keep_length {A} (mask : list bool) (ys : list A) :
  List.length ys = List.length mask ->
  List.length (keep mask ys) = List.length (List.filter (fun b => b) mask).
Proof.
  revert ys; induction mask as [|b m IH]; intros [|y ys] H; try discriminate;
    [reflexivity|].
  cbn [keep List.filter]. injection H as H.
  destruct b; cbn [List.length]; now rewrite IH.
Qed.

Lemma keep_column_cells (mask : list bool) (c : column) :
  cells (keep_column mask c) = keep mask (cells c).
Proof.
  destruct c as [xs|xs]; cbn [keep_column cells]; [|reflexivity].
  revert xs; induction mask as [|b m IH]; intros [|x xs]; try reflexivity.
  cbn [keep List.map]. destruct b; cbn [List.map]; now rewrite IH.
Qed.

Lemma labelled_map_values (key : str) (f : column -> column)
    (cols : list (str * column)) :
  List.map snd (List.filter (has_label key)
                  (List.map (fun kc => (fst kc, f (snd kc))) cols))
  = List.map f (List.map snd (List.filter (has_label key) cols)).
Proof.
  induction cols as [|[k c] r IH]; [reflexivity|].
  cbn [List.map List.filter fst snd].
  replace (has_label key (k, f c)) with (str_eqb k key) by reflexivity.
  replace (has_label key (k, c)) with (str_eqb k key) by reflexivity.
  destruct (str_eqb k key); cbn [List.map snd]; now rewrite IH.
Qed.

Lemma getitem_series (d : DataFrame) (key : str) (c : column) :
  getitem d key = Returned (Series c) -> labelled key d = [c].
Proof.
  unfold getitem. destruct (labelled key d) as [|c0 [|c1 r]]; try discriminate.
  now intros [= ->].
Qed.

Lemma rating_panel_rows_aux (d : DataFrame) (xs : list pyfloat) :
  getitem d (py "rating") = Returned (Series (Float64 xs)) ->
  exists r,
    rating_df d = Done r
    /\ getitem r (py "rating")
       = Returned (Series (Float64 (List.filter Binary64.positive xs))).
Proof.
  intros G. unfold rating_df. rewrite G. eexists. split; [reflexivity|].
  apply getitem_series in G.
  unfold getitem, labelled, select_rows. cbn [columns].
  rewrite labelled_map_values. fold (labelled (py "rating") d). rewrite G.
  cbn [List.map keep_column]. now rewrite keep_map_filter.
Qed.

(** X12.  The rating panel is drawn from the records whose rating is
    greater than zero.  For a table with one numeric rating column the
    selection raises nothing and gives a table with the same columns, of
    which the rating column holds the ratings greater than zero, in their
    order; a table with one value per row gives a table with one value
    per row. *)
Theorem rating_panel_rows (d : DataFrame) (xs : list pyfloat) :
  getitem d (py "rating") = Returned (Series (Float64 xs)) ->
  exists r,
    rating_df d = Done r
    /\ getitem r (py "rating")
       = Returned (Series (Float64 (List.filter Binary64.positive xs)))
    /\ List.map fst (columns r) = List.map fst (columns d)
    /\ nrows r = List.length (List.filter Binary64.positive xs)
    /\ (aligned d -> aligned r).
Proof.
  intros G. unfold rating_df. rewrite G. eexists. split; [reflexivity|].
  apply getitem_series in G.
  split; [|split; [|split]].
  - unfold getitem, labelled, select_rows. cbn [columns].
    rewrite labelled_map_values. fold (labelled (py "rating") d). rewrite G.
    cbn [List.map keep_column]. now rewrite keep_map_filter.
  - unfold select_rows. cbn [columns]. rewrite map_map. reflexivity.
  - unfold select_rows. cbn [nrows].
    rewrite <- (keep_length (List.map Binary64.positive xs) xs)
      by now rewrite length_map.
    now rewrite keep_map_filter.
  - intros Al. unfold aligned in *. unfold select_rows. cbn [nrows columns].
    assert (Lx : List.length xs = nrows d).
    { assert (H : In (Float64 xs) (labelled (py "rating") d)) by (rewrite G; now left).
      apply labelled_in in H as [k H]. rewrite Forall_forall in Al.
      specialize (Al _ H). cbn [snd cells] in Al. now rewrite length_map in Al. }
    apply Forall_map. eapply Forall_impl; [|exact Al].
    intros [k c] Hc. cbn [fst snd] in *. rewrite keep_column_cells.
    apply keep_length. now rewrite length_map, Lx.
Qed.

Lemma cleaned_rating (d : DataFrame) (zp zr zs : list pyfloat) (xm : list cell) :
  List.map snd (List.filter (has_label (py "rating"))
                  (cleaned_columns (nrows d) zp zr zs xm (columns d)))
  = List.map fillna0 (labelled (py "rating") (normalize_columns d)).
Proof.
  unfold cleaned_columns, set_brand.
  rewrite labelled_set_column_other by reflexivity.
  rewrite <- mid_columns.
  rewrite labelled_map_label_same.
  now rewrite !labelled_rename_map_label by reflexivity.
Qed.

Lemma positive_after_fillna (xs : list pyfloat) :
  List.filter Binary64.positive
    (List.map (fun x => if is_nan x then zero else x) xs)
  = List.filter Binary64.positive xs.
Proof.
  induction xs as [|x r IH]; [reflexivity|].
  cbn [List.map List.filter]. rewrite IH. destruct x; reflexivity.
Qed.

(** X13.  Filling the absent ratings with 0 keeps them out of the rating
    panel: for a raw table with one numeric rating column, the panel of the
    cleaned table holds exactly the ratings of the raw table that are
    greater than zero; a record with no rating, like one rated 0, is not
    in it. *)
Theorem absent_ratings_stay_out_of_the_panel (w : world) (l : loc) (d : DataFrame)
    (l' : loc) (w' : world) (d' : DataFrame) (xs : list pyfloat) :
  holds w l d -> clean_data l w = (Returned l', w') -> holds w' l' d' ->
  labelled (py "rating") (normalize_columns d) = [Float64 xs] ->
  exists r,
    rating_df d' = Done r
    /\ getitem r (py "rating")
       = Returned (Series (Float64 (List.filter Binary64.positive xs))).
Proof.
  intros Hd Hrun Hd' ER.
  destruct (cleaned_shape w l d l' w' d' Hd Hrun Hd') as (zp & xr & xs' & xm & _ & E).
  assert (G : getitem d' (py "rating")
              = Returned (Series (Float64
                  (List.map (fun x => if is_nan x then zero else x) xs)))).
  { unfold getitem, labelled. rewrite E. cbn [columns].
    rewrite cleaned_rating, ER. reflexivity. }
  destruct (rating_panel_rows_aux d' _ G) as (r & R1 & R2).
  exists r. split; [exact R1|]. now rewrite R2, positive_after_fillna.
Qed.

Lemma cells_positive_text (xs : list cell) (s : str) :
  In (CStr s) xs -> cells_positive xs = None.
Proof.
  induction xs as [|c r IH]; [contradiction|].
  intros [->|H]; cbn [cells_positive cell_positive]; [reflexivity|].
  rewrite (IH H). now destruct (cell_positive c).
Qed.

(** X14.  A rating that is a text stops the rating panel: when the rating
    column holds a string in some record, the selection of the records
    rated above zero raises [TypeError] and gives no table. *)
Theorem text_rating_stops_the_panel (d : DataFrame) (xs : list cell) (s : str) :
  getitem d (py "rating") = Returned (Series (Object xs)) ->
  In (CStr s) xs ->
  rating_df d = Failed TypeError.
Proof.
  intros G H. unfold rating_df. rewrite G.
  now rewrite (cells_positive_text xs s H).
Qed.

(* ===================================================================== *)
(** * [rupee_formatter] and the prices *)
(* ===================================================================== *)

Lemma decimal_from_value (f : nat) (n : N) (acc : str) :
  n < 2 ^ N.of_nat f ->
  fold_left (fun a c => a * 10 + digit_val c) (Format.decimal_from f n acc) 0
  = fold_left (fun a c => a * 10 + digit_val c) acc n.
Proof.
  revert n acc; induction f as [|f IH]; intros n acc H.
  - cbn in H. assert (n = 0) by lia. subst n. reflexivity.
  - cbn [Format.decimal_from].
    rewrite Nat2N.inj_succ, N.pow_succ_r' in H.
    pose proof (N.div_mod n 10 ltac:(lia)) as DM.
    pose proof (N.mod_lt n 10 ltac:(lia)) as ML.
    assert (DV : digit_val (48 + n mod 10) = n mod 10).
    { rewrite (proj2 (is_digit_ascii (48 + n mod 10)
                        ltac:(revert ML; generalize (n mod 10); intros; lia))).
      now rewrite N.add_comm, N.add_sub. }
    destruct (n <? 10) eqn:E.
    + apply N.ltb_lt in E. cbn [fold_left]. rewrite DV.
      rewrite (N.mod_small n 10 E). reflexivity.
    + rewrite IH.
      * cbn [fold_left]. rewrite DV. f_equal. lia.
      * apply N.Div0.div_lt_upper_bound; lia.
Qed.

Lemma decimal_value (n : N) : digits_value (Format.decimal n) = n.
Proof.
  unfold digits_value, Format.decimal. rewrite decimal_from_value; [reflexivity|].
  rewrite Nat2N.inj_succ, N2Nat.id.
  destruct n as [|p]; [reflexivity|]. apply N.log2_spec. lia.
Qed.

Lemma decimal_from_digits (f : nat) (n : N) (acc : str) :
  forallb is_digit acc = true ->
  forallb is_digit (Format.decimal_from f n acc) = true.
Proof.
  revert n acc; induction f as [|f IH]; intros n acc H; [exact H|].
  cbn [Format.decimal_from].
  pose proof (N.mod_lt n 10 ltac:(lia)) as ML.
  assert (D : forallb is_digit ((48 + n mod 10) :: acc) = true).
  { cbn [forallb]. rewrite H, andb_true_r. apply is_digit_ascii.
    revert ML. generalize (n mod 10). intros x Hx. lia. }
  destruct (n <? 10); [exact D|now apply IH].
Qed.

Lemma decimal_from_nonempty (f : nat) (n : N) (acc : str) :
  acc <> [] -> Format.decimal_from f n acc <> [].
Proof.
  revert n acc; induction f as [|f IH]; intros n acc H; [exact H|].
  cbn [Format.decimal_from]. destruct (n <? 10); [discriminate|].
  apply IH. discriminate.
Qed.

Lemma decimal_digits (n : N) :
  Format.decimal n <> [] /\ forallb is_digit (Format.decimal n) = true.
Proof.
  split; [|now apply decimal_from_digits].
  unfold Format.decimal. cbn [Format.decimal_from].
  destruct (n <? 10); [discriminate|]. apply decimal_from_nonempty. discriminate.
Qed.

Lemma digits_only_all (s : str) : forallb is_digit s = true -> digits_only s = s.
Proof.
  unfold digits_only. induction s as [|c r IH]; [reflexivity|].
  cbn [forallb List.filter]. intros H. apply andb_true_iff in H as [Hc Hr].
  rewrite Hc. f_equal. auto.
Qed.

Lemma commas_rev_digits (n : nat) (r : str) :
  (List.length r <= n)%nat -> forallb is_digit r = true ->
  digits_only (Format.commas_rev r) = r
  /\ forallb (fun c => is_digit c || (c =? COMMA)) (Format.commas_rev r) = true.
Proof.
  revert r; induction n as [|n IH]; intros r L D.
  - destruct r; [split; reflexivity|cbn in L; lia].
  - assert (Small : digits_only r = r
                    /\ forallb (fun c => is_digit c || (c =? COMMA)) r = true).
    { split; [now apply digits_only_all|].
      rewrite forallb_forall in *. intros x Hx. now rewrite (D x Hx). }
    destruct r as [|a [|b [|c [|e rest]]]]; try exact Small.
    change (Format.commas_rev (a :: b :: c :: e :: rest))
      with (a :: b :: c :: COMMA :: Format.commas_rev (e :: rest)).
    cbn [forallb] in D.
    apply andb_true_iff in D as [Da D]. apply andb_true_iff in D as [Db D].
    apply andb_true_iff in D as [Dc D].
    destruct (IH (e :: rest)) as [I1 I2]; [cbn [List.length] in *; lia|exact D|].
    split.
    + unfold digits_only in *. cbn [List.filter]. rewrite Da, Db, Dc.
      replace (is_digit COMMA) with false by reflexivity. now rewrite I1.
    + cbn [forallb]. rewrite Da, Db, Dc, N.eqb_refl, orb_true_r. exact I2.
Qed.

Lemma digits_only_rev (s : str) : digits_only (rev s) = rev (digits_only s).
Proof.
  unfold digits_only. induction s as [|c r IH]; [reflexivity|].
  cbn [rev List.filter]. rewrite filter_app, IH. cbn [List.filter].
  destruct (is_digit c); [reflexivity|now rewrite app_nil_r].
Qed.

Lemma forallb_rev {A} (p : A -> bool) (s : list A) :
  forallb p (rev s) = forallb p s.
Proof.
  destruct (forallb p s) eqn:E.
  - rewrite forallb_forall in *. intros x Hx. apply E, in_rev, Hx.
  - destruct (forallb p (rev s)) eqn:F; [|reflexivity].
    rewrite forallb_forall in F. rewrite <- E. symmetry.
    apply forallb_forall. intros x Hx. apply F. now apply in_rev in Hx.
Qed.

(** The grouped digits are digits and commas, and the digits are those
    that were grouped. *)
Lemma thousands_digits (ds : str) :
  ds <> [] -> forallb is_digit ds = true ->
  digits_with_commas (Format.thousands ds) = true
  /\ digits_only (Format.thousands ds) = ds.
Proof.
  intros Hne D. unfold Format.thousands.
  destruct (commas_rev_digits (List.length (rev ds)) (rev ds)) as [I1 I2];
    [lia|now rewrite forallb_rev|].
  assert (E : digits_only (rev (Format.commas_rev (rev ds))) = ds)
    by (now rewrite digits_only_rev, I1, rev_involutive).
  split; [|exact E].
  unfold digits_with_commas. rewrite forallb_rev, I2. cbn [andb].
  destruct ds as [|c r]; [contradiction|].
  apply existsb_exists. exists c. split.
  - assert (H : In c (digits_only (rev (Format.commas_rev (rev (c :: r))))))
      by (rewrite E; now left).
    unfold digits_only in H. now apply filter_In in H.
  - cbn [forallb] in D. now apply andb_true_iff in D.
Qed.




Lemma round_half_even_nonneg (num den : Z) :
  (0 <= num)%Z -> (0 < den)%Z -> (0 <= Binary64.round_half_even num den)%Z.
Proof.
  intros Hn Hd. unfold Binary64.round_half_even.
  pose proof (Z.div_pos num den Hn Hd).
  destruct (2 * (num mod den) ?= den)%Z; [destruct (Z.even _)| |]; lia.
Qed.

Lemma round_half_even_exact (k den : Z) :
  (0 < den)%Z -> Binary64.round_half_even (k * den) den = k.
Proof.
  intros Hd. unfold Binary64.round_half_even.
  rewrite Z.div_mul, Z.mod_mul by lia.
  replace (2 * 0 ?= den)%Z with Lt by (symmetry; apply Z.compare_lt_iff; lia).
  reflexivity.
Qed.

Lemma nearest_integer_nonneg (q : Q) :
  (0 <= Qnum q)%Z -> (0 <= Binary64.nearest_integer q)%Z.
Proof.
  intros H. unfold Binary64.nearest_integer, Binary64.nearest, Binary64.to_integer.
  set (e := Z.max _ _).
  assert (P : forall z, (0 < 2 ^ z)%Z \/ (z < 0)%Z).
  { intros z. destruct (Z.le_gt_cases 0 z); [left; now apply Z.pow_pos_nonneg|now right]. }
  destruct (0 <=? e)%Z eqn:E.
  - apply Z.leb_le in E. apply Z.mul_nonneg_nonneg.
    + apply round_half_even_nonneg; [exact H|].
      apply Z.mul_pos_pos; [reflexivity|now apply Z.pow_pos_nonneg].
    + apply Z.pow_nonneg. lia.
  - apply Z.leb_gt in E. apply round_half_even_nonneg.
    + apply round_half_even_nonneg; [|reflexivity].
      apply Z.mul_nonneg_nonneg; [exact H|]. apply Z.pow_nonneg. lia.
    + apply Z.pow_pos_nonneg; lia.
Qed.

Lemma comma_0f_finite (q : Q) :
  (0 < Qnum q)%Z -> Binary64.finite q = true ->
  Format.comma_0f (Fin q)
  = Format.thousands (Format.decimal (Z.to_N (Binary64.nearest_integer q))).
Proof.
  intros H F. unfold Format.comma_0f, Binary64.finite, Binary64.nearest_integer in *.
  rewrite Z.abs_eq by lia.
  replace (Qnum q <? 0)%Z with false by (symmetry; apply Z.ltb_ge; lia).
  replace (Qnum q =? 0)%Z with false by (symmetry; apply Z.eqb_neq; lia).
  destruct (Binary64.nearest (Qnum q) (Z.pos (Qden q))) as [m e].
  apply negb_true_iff in F. rewrite F. reflexivity.
Qed.

Lemma formatted_reads_back (q : Q) (pos : option nat) :
  (0 < Qnum q)%Z -> Binary64.finite q = true ->
  price_cells [CStr (rupee_formatter (Fin q) pos)]
  = Returned [Fin (inject_Z (Binary64.nearest_integer q))].
Proof.
  intros H F. unfold rupee_formatter. rewrite (comma_0f_finite q H F).
  set (n := Z.to_N (Binary64.nearest_integer q)).
  destruct (decimal_digits n) as [Hne D].
  destruct (thousands_digits (Format.decimal n) Hne D) as [T1 T2].
  unfold price_cells, str_replace, str_map.
  cbn [List.map astype_float float_of_cell].
  rewrite (float_of_rupee_string _ T1), T2, decimal_value. cbn [obind].
  unfold n. rewrite Z2N.id by (apply nearest_integer_nonneg; lia). reflexivity.
Qed.

Lemma whole_number_is_exact (n : Z) :
  (0 < n < 2 ^ 53)%Z ->
  Binary64.nearest_integer (inject_Z n) = n
  /\ Binary64.finite (inject_Z n) = true.
Proof.
  intros [Hp Hb].
  unfold Binary64.nearest_integer, Binary64.finite, Binary64.nearest,
    Binary64.floor_log2, Binary64.below_pow2, Binary64.to_integer, Binary64.overflows.
  cbn [inject_Z Qnum Qden]. change (Z.log2 1) with 0%Z. rewrite Z.sub_0_r.
  pose proof (Z.log2_nonneg n) as L0.
  pose proof (Z.log2_spec n Hp) as [L1 L2].
  assert (L3 : (Z.log2 n < 53)%Z) by (apply Z.log2_lt_pow2; lia).
  replace (0 <=? Z.log2 n)%Z with true by (symmetry; apply Z.leb_le; lia).
  replace (n <? 1 * 2 ^ Z.log2 n)%Z with false by (symmetry; apply Z.ltb_ge; lia).
  replace (Z.max (Z.log2 n - 52) (-1074)) with (Z.log2 n - 52)%Z by lia.
  destruct (0 <=? Z.log2 n - 52)%Z eqn:E.
  - apply Z.leb_le in E. assert (E0 : (Z.log2 n - 52 = 0)%Z) by lia.
    rewrite E0. change (2 ^ 0)%Z with 1%Z. rewrite !Z.mul_1_r.
    replace n with (n * 1)%Z at 1 3 by lia.
    rewrite round_half_even_exact by lia. split; [reflexivity|].
    cbn [andb]. apply negb_true_iff, Z.leb_gt.
    apply Z.lt_trans with (2 ^ 53)%Z; [exact Hb|].
    apply Z.pow_lt_mono_r; lia.
  - apply Z.leb_gt in E. cbn [andb negb]. split; [|reflexivity].
    assert (P : (0 < 2 ^ (- (Z.log2 n - 52)))%Z) by (apply Z.pow_pos_nonneg; lia).
    replace (n * 2 ^ (- (Z.log2 n - 52)))%Z
      with ((n * 2 ^ (- (Z.log2 n - 52))) * 1)%Z at 1 by lia.
    rewrite round_half_even_exact by lia.
    now rewrite round_half_even_exact.
Qed.


(** X16.  For whole amounts the round trip is exact: a whole number of
    rupees from 0 up to 2^53, formatted by [rupee_formatter] and cleaned as
    a price, is that number again. *)
Theorem formatted_whole_amount_reads_back (n : Z) (pos : option nat) :
  (0 <= n < 2 ^ 53)%Z ->
  price_cells [CStr (rupee_formatter (Fin (inject_Z n)) pos)]
  = Returned [Fin (inject_Z n)].
Proof.
  intros [H0 Hb]. destruct (Z.eq_dec n 0) as [->|Hn]; [reflexivity|].
  destruct (whole_number_is_exact n) as [E F]; [lia|].
  rewrite (formatted_reads_back (inject_Z n) pos); [now rewrite E| |exact F].
  cbn [inject_Z Qnum]. lia.
Qed.

(* ===================================================================== *)
(** * [main] *)
(* ===================================================================== *)

Section MainRuns.

Variable read_csv : str -> str + DataFrame.
Variables (data_path reports_dir : str).
Variables (perform_eda create_main_visualizations category_report
           : loc -> str -> M unit).

Local Notation "'run'" :=
  (main read_csv data_path reports_dir
     perform_eda create_main_visualizations category_report).

Local Notation "'start_line'" :=
  ([10] ++ py "🖥️ Análisis de Portátiles - Inicio" ++ [10]).

(** X17.  When the file cannot be read, [main] ends without an error after
    two lines, the one of the start and the one of the failure: nothing is
    cleaned and nothing is reported, whatever the reporting functions are,
    and no table comes into being. *)
Theorem main_stops_when_the_file_is_not_read (w : world) (e : str) :
  read_csv data_path = inl e ->
  run w = (Returned tt,
           {| heap := heap w;
              stdout := stdout w
                        ++ [start_line;
                            py "❌ Error al cargar " ++ data_path ++ py ": " ++ e] |}).
Proof.
  intros E. unfold main, load_data. rewrite E.
  cbv [bind print ret]. cbn [heap stdout]. now rewrite <- app_assoc.
Qed.

(** X18.  When the file is read and [clean_data] raises on its table, [main]
    raises the same error: the two lines of the start and of the loading
    are all it has printed, none of the reporting functions has run, and
    the tables that existed, and the table read, are as they were. *)
Theorem main_stops_when_cleaning_raises (w : world) (d : DataFrame) (e : pyerror) :
  read_csv data_path = inr d ->
  fst (clean_data (List.length (heap w))
         {| heap := heap w ++ [d]; stdout := [] |}) = Raised e ->
  exists w',
    run w = (Raised e, w')
    /\ stdout w'
       = stdout w
         ++ [start_line;
             py "✅ Dataset cargado correctamente. Filas: " ++ str_of_nat (nrows d)]
    /\ holds w' (List.length (heap w)) d
    /\ forall l0 d0, holds w l0 d0 -> holds w' l0 d0.
Proof.
  intros E C.
  assert (H0 : forall out, holds {| heap := heap w ++ [d]; stdout := out |}
                             (List.length (heap w)) d)
    by (intros out; apply nth_error_last).
  pose proof (clean_data_run _ _ _ (H0 [])) as R0.
  destruct (clean_steps d) as [d'|e'] eqn:CS.
  { rewrite R0 in C. discriminate C. }
  destruct R0 as [dp0 R0]. rewrite R0 in C. cbn [fst] in C. injection C as ->.
  assert (Run : exists dp,
            run w
            = (Raised e,
               {| heap := (heap w ++ [d]) ++ [dp];
                  stdout := (stdout w ++ [start_line])
                            ++ [py "✅ Dataset cargado correctamente. Filas: "
                                ++ str_of_nat (nrows d)] |})).
  { unfold main, load_data. rewrite E.
    cbv [bind print ret alloc]. cbn [heap stdout].
    match goal with
    | |- context [clean_data _ {| heap := _; stdout := ?o |}] =>
      pose proof (clean_data_run _ _ _ (H0 o)) as R
    end.
    rewrite CS in R. destruct R as [dp R]. cbn [heap stdout] in R.
    exists dp. rewrite R. reflexivity. }
  destruct Run as [dp Run]. eexists. split; [exact Run|].
  split; [|split].
  - cbn [stdout]. now rewrite <- app_assoc.
  - eapply holds_after_alloc. apply (H0 []).
  - intros l0 d0 H. destruct w as [h o]. cbn [heap].
    apply (holds_after_alloc _ [] _). apply (holds_after_alloc _ o _). exact H.
Qed.

End MainRuns.

(* ===================================================================== *)
(** * The further statements on the sample tables *)
(* ===================================================================== *)

Lemma cleaning_twice_is_refused_sample :
  fst (clean_data 1%nat sample_cleaned_world) = Raised (KeyError (py "Price")).
Proof.
  apply (cleaning_twice_is_refused sample_world 0%nat sample_raw 1%nat
           sample_cleaned_world).
  - reflexivity.
  - vm_compute. reflexivity.
Defined.

Lemma cleaning_adds_one_table_and_one_line_sample :
  1%nat = List.length (heap sample_world)
  /\ List.length (heap sample_cleaned_world) = S (List.length (heap sample_world))
  /\ stdout sample_cleaned_world
     = stdout sample_world ++ [py "✅ Datos limpiados y transformados"].
Proof.
  apply (cleaning_adds_one_table_and_one_line sample_world 0%nat sample_raw 1%nat
           sample_cleaned_world).
  - reflexivity.
  - vm_compute. reflexivity.
Defined.

Lemma cleaning_keeps_the_rows_sample :
  nrows sample_clean = nrows sample_raw /\ aligned sample_clean.
Proof.
  assert (H : nrows sample_clean = nrows sample_raw
              /\ (aligned sample_raw -> aligned sample_clean)).
  { apply (cleaning_keeps_the_rows sample_world 0%nat sample_raw 1%nat
             sample_cleaned_world sample_clean).
    - reflexivity.
    - vm_compute. reflexivity.
    - reflexivity. }
  destruct H as [E A]. split; [exact E|]. apply A.
  unfold aligned. repeat (apply Forall_cons; [vm_compute; reflexivity|]).
  apply Forall_nil.
Defined.

Lemma other_columns_pass_through_sample :
  nth_error (columns sample_clean) 5
  = Some (normalize (py "Screen Size"),
          Object [CStr (py "15.6 inch"); CStr (py "13.3 inch"); CFloat NaN]).
Proof.
  apply (other_columns_pass_through sample_world 0%nat sample_raw 1%nat
           sample_cleaned_world sample_clean).
  - reflexivity.
  - vm_compute. reflexivity.
  - reflexivity.
  - reflexivity.
  - vm_compute. discriminate.
  - vm_compute. discriminate.
  - vm_compute. discriminate.
  - vm_compute. discriminate.
  - vm_compute. discriminate.
Defined.

Lemma values_that_are_not_text_go_missing_sample :
  exists zs,
    nth_error (columns incomplete_clean) 3 = Some (normalize (py "Ram"), Float64 zs)
    /\ forall i x,
         nth_error (cells (Object [CStr (py "8 GB"); CFloat NaN])) i = Some (CFloat x) ->
         nth_error zs i = Some NaN.
Proof.
  apply (values_that_are_not_text_go_missing incomplete_world 0%nat incomplete_raw
           1%nat incomplete_cleaned_world incomplete_clean).
  - reflexivity.
  - vm_compute. reflexivity.
  - reflexivity.
  - reflexivity.
  - right. left. reflexivity.
Defined.

Lemma reports_find_their_columns_sample :
  In (py "price") (List.map fst (columns sample_clean))
  /\ exists v, getitem sample_clean (py "price") = Returned v.
Proof.
  apply (reports_find_their_columns sample_world 0%nat sample_raw 1%nat
           sample_cleaned_world sample_clean).
  - reflexivity.
  - vm_compute. reflexivity.
  - reflexivity.
  - left. reflexivity.
Defined.

Lemma categories_touch_one_column_sample :
  exists cat,
    sample_tagged_world
    = {| heap := update 1%nat
                   {| nrows := nrows sample_clean;
                      columns := set_series (py "category") (Object cat)
                                   (columns sample_clean) |}
                   (heap sample_cleaned_world);
         stdout := stdout sample_cleaned_world |}
    /\ List.length cat = nrows sample_clean
    /\ forall c, In c cat ->
         c = CStr (py "General") \/ c = CStr (py "Gaming")
         \/ c = CStr (py "Apple") \/ c = CStr (py "Ultrabook").
Proof.
  apply (categories_touch_one_column sample_cleaned_world 1%nat sample_clean
           sample_tagged_world).
  - reflexivity.
  - vm_compute. reflexivity.
Defined.

Lemma categories_can_be_derived_again_sample :
  analyze_categories 1%nat sample_tagged_world = (Returned tt, sample_tagged_world).
Proof.
  apply (categories_can_be_derived_again sample_cleaned_world 1%nat sample_clean
           sample_tagged_world).
  - reflexivity.
  - vm_compute. reflexivity.
Defined.

Lemma missing_model_stops_the_categories_sample :
  analyze_categories 1%nat incomplete_cleaned_world
  = (Raised ValueError,
     {| heap := update 1%nat
          {| nrows := nrows incomplete_clean;
             columns := set_series (py "category")
                          (Object (repeat (CStr (py "General")) (nrows incomplete_clean)))
                          (columns incomplete_clean) |} (heap incomplete_cleaned_world);
        stdout := stdout incomplete_cleaned_world |}).
Proof.
  apply (missing_model_stops_the_categories incomplete_cleaned_world 1%nat
           incomplete_clean [CStr (py "HP Pavilion Gaming 15"); CFloat NaN] NaN).
  - reflexivity.
  - vm_compute. reflexivity.
  - reflexivity.
  - right. left. reflexivity.
Defined.

Lemma model_patterns_ignore_ascii_case_sample :
  re_search_ci (py "Gaming") (py "ASUS TUF GAMING F15")
  = re_search_ci (py "Gaming") (py "Asus Tuf gaming f15")
  /\ str_contains_ci (py "Gaming") [CStr (py "ASUS TUF GAMING F15")]
     = str_contains_ci (py "Gaming") [CStr (py "Asus Tuf gaming f15")].
Proof.
  apply (model_patterns_ignore_ascii_case (py "ASUS TUF GAMING F15")
           (py "Asus Tuf gaming f15") (py "Gaming")).
  - left. reflexivity.
  - vm_compute. reflexivity.
Defined.

Lemma rating_panel_rows_sample :
  exists r,
    rating_df sample_clean = Done r
    /\ getitem r (py "rating")
       = Returned (Series (Float64 (List.filter Binary64.positive
                                      [Fin (9 # 2); zero; zero])))
    /\ List.map fst (columns r) = List.map fst (columns sample_clean)
    /\ nrows r = List.length (List.filter Binary64.positive [Fin (9 # 2); zero; zero])
    /\ (aligned sample_clean -> aligned r).
Proof.
  apply (rating_panel_rows sample_clean [Fin (9 # 2); zero; zero]).
  vm_compute. reflexivity.
Defined.

Lemma absent_ratings_stay_out_of_the_panel_sample :
  exists r,
    rating_df sample_clean = Done r
    /\ getitem r (py "rating")
       = Returned (Series (Float64 (List.filter Binary64.positive
                                      [Fin (9 # 2); NaN; zero]))).
Proof.
  apply (absent_ratings_stay_out_of_the_panel sample_world 0%nat sample_raw 1%nat
           sample_cleaned_world sample_clean [Fin (9 # 2); NaN; zero]).
  - reflexivity.
  - vm_compute. reflexivity.
  - reflexivity.
  - vm_compute. reflexivity.
Defined.

Lemma text_rating_stops_the_panel_sample :
  rating_df text_rating_clean = Failed TypeError.
Proof.
  apply (text_rating_stops_the_panel text_rating_clean
           [CStr (py "4.5 stars"); CFloat zero] (py "4.5 stars")).
  - vm_compute. reflexivity.
  - left. reflexivity.
Defined.


Lemma formatted_whole_amount_reads_back_sample :
  price_cells [CStr (rupee_formatter (Fin (inject_Z 54999)) None)]
  = Returned [Fin (inject_Z 54999)].
Proof.
  apply (formatted_whole_amount_reads_back 54999 None).
  split; [discriminate|reflexivity].
Defined.

Lemma main_stops_when_the_file_is_not_read_sample :
  main (fun _ => inl (py "[Errno 2] No such file or directory"))
       (py "data/laptop.csv") (py "reports/images")
       (fun _ _ => ret tt) (fun _ _ => ret tt) (fun _ _ => ret tt)
       {| heap := []; stdout := [] |}
  = (Returned tt,
     {| heap := heap {| heap := []; stdout := [] |};
        stdout := stdout {| heap := []; stdout := [] |}
                  ++ [[10] ++ py "🖥️ Análisis de Portátiles - Inicio" ++ [10];
                      py "❌ Error al cargar " ++ py "data/laptop.csv" ++ py ": "
                      ++ py "[Errno 2] No such file or directory"] |}).
Proof.
  exact (main_stops_when_the_file_is_not_read
           (fun _ => inl (py "[Errno 2] No such file or directory"))
           (py "data/laptop.csv") (py "reports/images")
           (fun _ _ => ret tt) (fun _ _ => ret tt) (fun _ _ => ret tt)
           {| heap := []; stdout := [] |}
           (py "[Errno 2] No such file or directory") eq_refl).
Defined.

Lemma main_stops_when_cleaning_raises_sample :
  exists w',
    main (fun _ => inr bad_price_raw) (py "data/laptop.csv") (py "reports/images")
         (fun _ _ => ret tt) (fun _ _ => ret tt) (fun _ _ => ret tt)
         {| heap := []; stdout := [] |}
    = (Raised ValueError, w')
    /\ stdout w'
       = stdout {| heap := []; stdout := [] |}
         ++ [[10] ++ py "🖥️ Análisis de Portátiles - Inicio" ++ [10];
             py "✅ Dataset cargado correctamente. Filas: "
             ++ str_of_nat (nrows bad_price_raw)]
    /\ holds w' (List.length (heap {| heap := []; stdout := [] |})) bad_price_raw
    /\ forall l0 d0, holds {| heap := []; stdout := [] |} l0 d0 -> holds w' l0 d0.
Proof.
  refine (main_stops_when_cleaning_raises
            (fun _ => inr bad_price_raw) (py "data/laptop.csv") (py "reports/images")
            (fun _ _ => ret tt) (fun _ _ => ret tt) (fun _ _ => ret tt)
            {| heap := []; stdout := [] |} bad_price_raw ValueError eq_refl _).
  vm_compute. reflexivity.
Defined.
